(** * Conversion-order lifecycle of the Telegram exchange bot

    A shallow embedding of [src/telegram/bot.js] together with the parts of
    [src/main.js], [src/db/database.js] and [src/binance/binance.js] that the
    handlers rely on, followed by the properties of the order lifecycle, the
    rate limiter, the supported-pairs registry and the dispatcher.

    Conventions of the embedding.
    - Message text is a [string] of bytes (UTF-8).  Case conversion, the
      regular-expression classes and [trim] act on the ASCII range, which is
      where every command keyword, asset symbol and reserved markdown
      character lives.
    - A JS number that the bot reads with [parseFloat] is kept as an exact
      decimal ([number]), read and printed in plain decimal notation;
      rounding to a double and the exponent notation of very large and very
      small numbers are not modelled.
    - Handlers are written in a state-and-exception monad over [State]; every
      outbound effect (message, exchange request, file write) is appended to
      the [trace] of the state in the order the code awaits it.  Handlers
      that one update starts together are covered by [Dispatched].
    - The messaging transport is reliable ([bot.sendMessage] does not throw),
      logger calls are left out, and [i18next.changeLanguage] has no effect a
      handler can see, since every text is looked up through [getFixedT].
    - The order table is the list of its rows in insertion order.  The
      handlers reach it through the [db] that [src/main.js] passes them, the
      sqlite3 object itself: a statement takes effect when it is issued, a
      statement that fails does not throw into the handler, and a query
      returns that object and not its rows.
    - What comes from outside the process (the clock, random bytes, the
      answers of the exchange, the outcome of the file write) is read from an
      [Env]. *)

From Stdlib Require Import ZArith String Ascii DecimalString DecimalN DecimalPos Bool Lia.
From stdpp Require Import gmap strings list.

(** ** JavaScript string primitives used by the handlers *)

Module JsString.

Definition in_range (lo hi : N) (c : ascii) : bool :=
  let n := N_of_ascii c in (N.leb lo n) && (N.leb n hi).

Definition is_digit (c : ascii) : bool := in_range 48 57 c.
Definition is_upper (c : ascii) : bool := in_range 65 90 c.
Definition is_lower (c : ascii) : bool := in_range 97 122 c.

(** [\w] is [[A-Za-z0-9_]]. *)
Definition is_word (c : ascii) : bool :=
  is_upper c || is_lower c || is_digit c || Ascii.eqb c "_".

(** [.] matches everything but a line terminator. *)
Definition is_dot (c : ascii) : bool :=
  negb (Ascii.eqb c "010" || Ascii.eqb c "013").

(** White space stripped by [String.prototype.trim]. *)
Definition is_space (c : ascii) : bool :=
  in_range 9 13 c || Ascii.eqb c " ".

Definition upper_char (c : ascii) : ascii :=
  if is_lower c then ascii_of_N (N_of_ascii c - 32) else c.

Fixpoint toUpperCase (s : string) : string :=
  match s with
  | EmptyString => EmptyString
  | String c r => String (upper_char c) (toUpperCase r)
  end.

Fixpoint trimStart (s : string) : string :=
  match s with
  | EmptyString => EmptyString
  | String c r => if is_space c then trimStart r else s
  end.

Fixpoint trimEnd (s : string) : string :=
  match s with
  | EmptyString => EmptyString
  | String c r =>
      match trimEnd r with
      | EmptyString => if is_space c then EmptyString else String c EmptyString
      | r' => String c r'
      end
  end.

Definition trim (s : string) : string := trimEnd (trimStart s).

(** [s.split(sep)] for a one-character separator; ["".split(sep)] is [[""]]. *)
Fixpoint split (sep : ascii) (s : string) : list string :=
  match s with
  | EmptyString => [EmptyString]
  | String c r =>
      if Ascii.eqb c sep then EmptyString :: split sep r
      else match split sep r with
           | hd :: tl => String c hd :: tl
           | [] => [String c EmptyString]
           end
  end.

Fixpoint includes (c : ascii) (s : string) : bool :=
  match s with
  | EmptyString => false
  | String d r => Ascii.eqb d c || includes c r
  end.

Definition startsWith (p s : string) : bool := String.prefix p s.

(** [xs.join(sep)] *)
Fixpoint join (sep : string) (xs : list string) : string :=
  match xs with
  | [] => EmptyString
  | [x] => x
  | x :: rest => x +:+ sep +:+ join sep rest
  end.

(** A string is falsy exactly when it is empty. *)
Definition truthy (s : string) : bool :=
  match s with EmptyString => false | _ => true end.

Definition nl : string := String "010" EmptyString.

End JsString.

Import JsString.

(** ** Numbers *)

(** The value of [Num m e] is [m / 10^e]; [norm] keeps the representation
    canonical, so that equal values are equal terms.  Negative zero is
    identified with zero. *)
Inductive number : Type :=
| NaN
| Num (mant : Z) (scale : nat).

Fixpoint norm (m : Z) (e : nat) : number :=
  match e with
  | O => Num m O
  | S e' => if (m mod 10 =? 0)%Z then norm (m / 10) e' else Num m e
  end.

Definition isNaN (x : number) : bool :=
  match x with NaN => true | Num _ _ => false end.

(** [x <= 0]; any comparison with [NaN] is false. *)
Definition le_zero (x : number) : bool :=
  match x with NaN => false | Num m _ => (m <=? 0)%Z end.

(** [0 < x] *)
Definition is_positive (x : number) : bool :=
  match x with NaN => false | Num m _ => (0 <? m)%Z end.

(** Truthiness of a number: [NaN] and [0] are falsy. *)
Definition num_truthy (x : number) : bool :=
  match x with NaN => false | Num m _ => negb (m =? 0)%Z end.

(** [x || 0] *)
Definition or_zero (x : number) : number :=
  if num_truthy x then x else Num 0 0.

Definition digit_val (c : ascii) : Z := Z.of_N (N_of_ascii c - 48).

(** Reads the longest run of digits in front of [s]: the value so far, the
    number of digits read and the rest of the string. *)
Fixpoint read_digits (s : string) (acc : Z) (n : nat) : Z * nat * string :=
  match s with
  | String c r =>
      if is_digit c then read_digits r (acc * 10 + digit_val c)%Z (S n)
      else (acc, n, s)
  | EmptyString => (acc, n, s)
  end.

(** [parseFloat]: optional leading white space, an optional sign, digits and
    an optional fraction; [NaN] when no digit can be read.  An exponent and
    the literal [Infinity] are not read.  A match of [\d+(\.\d+)?] holds
    neither; a field of callback data holds an exponent only when it is an
    amount of at least 1e21 or below 1e-6 as JavaScript prints it, and for
    such fields this definition and JavaScript differ. *)
Definition parseFloat (s : string) : number :=
  let s0 := trimStart s in
  let '(neg, s1) :=
    match s0 with
    | String "-" r => (true, r)
    | String "+" r => (false, r)
    | _ => (false, s0)
    end in
  let '(ip, ni, s2) := read_digits s1 0%Z O in
  let '(m, nf) :=
    match s2 with
    | String "." r => let '(v, k, _) := read_digits r ip O in (v, k)
    | _ => (ip, O)
    end in
  match ni, nf with
  | O, O => NaN
  | _, _ => norm (if neg then - m else m)%Z nf
  end.

Definition string_of_N (n : N) : string :=
  NilZero.string_of_uint (N.to_uint n).

Definition string_of_nat (n : nat) : string := string_of_N (N.of_nat n).

Fixpoint zeros (n : nat) : string :=
  match n with O => EmptyString | S k => String "0" (zeros k) end.

(** [String(x)] for a number, in plain decimal notation.  JavaScript prints
    a number of at least 1e21 or below 1e-6 with an exponent, which this
    definition does not. *)
Definition number_to_string (x : number) : string :=
  match x with
  | NaN => "NaN"
  | Num m e =>
      let a := Z.abs_N m in
      let p := (10 ^ N.of_nat e)%N in
      let sign := if (m <? 0)%Z then "-" else EmptyString in
      let ip := string_of_N (a / p) in
      match e with
      | O => sign +:+ ip
      | _ =>
          let fp := string_of_N (a mod p) in
          sign +:+ ip +:+ "." +:+ zeros (e - String.length fp) +:+ fp
      end
  end.

(** [chatId.toString()] for an integer chat id. *)
Definition Z_to_string (z : Z) : string := number_to_string (Num z 0).

(** ** Regular expressions

    The fragment of JS regular expressions the command patterns are written
    in, with a backtracking matcher: quantifiers are greedy, alternatives are
    tried in order and the first success wins, as [RegExp.prototype.exec]
    does. *)

Module Regex.

Inductive regex : Type :=
| Lit (c : ascii)
| Class (p : ascii -> bool)
| Cat (r1 r2 : regex)
| Plus (r : regex)
| Opt (r : regex)
| Group (n : nat) (r : regex)
| EndOfInput
| Eps.

(** The match array: entry [n] is capture group [n], [None] when the group
    did not take part in the match. *)
Definition captures : Type := list (option string).

Definition cont : Type := string -> captures -> option captures.

(** The text consumed between [s] and its suffix [s']. *)
Definition consumed (s s' : string) : string :=
  substring 0 (String.length s - String.length s') s.

Definition orelse (a b : option captures) : option captures :=
  match a with Some x => Some x | None => b end.

(** One or more greedy iterations of [step]; an iteration that consumes
    nothing is not repeated. *)
Fixpoint plus_loop (step : string -> captures -> cont -> option captures)
    (fuel : nat) (s : string) (caps : captures) (k : cont) : option captures :=
  match fuel with
  | O => None
  | S f =>
      step s caps (fun s' caps' =>
        orelse
          (if String.length s' <? String.length s
           then plus_loop step f s' caps' k else None)
          (k s' caps'))
  end.

Fixpoint rmatch (r : regex) (s : string) (caps : captures) (k : cont)
    {struct r} : option captures :=
  match r with
  | Lit c =>
      match s with
      | String d s' => if Ascii.eqb d c then k s' caps else None
      | EmptyString => None
      end
  | Class p =>
      match s with
      | String d s' => if p d then k s' caps else None
      | EmptyString => None
      end
  | Cat r1 r2 => rmatch r1 s caps (fun s' caps' => rmatch r2 s' caps' k)
  | Plus r1 => plus_loop (rmatch r1) (S (String.length s)) s caps k
  | Opt r1 => orelse (rmatch r1 s caps k) (k s caps)
  | Group n r1 =>
      rmatch r1 s caps (fun s' caps' => k s' (<[n := Some (consumed s s')]> caps'))
  | EndOfInput =>
      match s with
      | EmptyString => k s caps
      | String _ _ => None
      end
  | Eps => k s caps
  end.

(** A literal piece of a pattern. *)
Fixpoint lits (p : string) : regex :=
  match p with
  | EmptyString => Eps
  | String c r => Cat (Lit c) (lits r)
  end.

(** [re.exec(text)] for a pattern with [groups] capture groups: the
    leftmost start position at which the pattern matches.  Entry 0 of the
    result is the matched text. *)
Fixpoint exec (groups : nat) (re : regex) (text : string) : option captures :=
  match rmatch (Group 0 re) text (replicate (S groups) None) (fun _ c => Some c) with
  | Some c => Some c
  | None =>
      match text with
      | EmptyString => None
      | String _ rest => exec groups re rest
      end
  end.

(** [match[n]], with [undefined] read as the empty string. *)
Definition group (m : captures) (n : nat) : string :=
  match m !! n with
  | Some (Some s) => s
  | _ => EmptyString
  end.

End Regex.

Import Regex.

(** The command patterns, in the order [initialize] registers them. *)

Definition word : regex := Plus (Class is_word).
Definition digits : regex := Plus (Class is_digit).
(** [(\d+(\.\d+)?)] with the outer group numbered [n]. *)
Definition decimal (n : nat) : regex :=
  Group n (Cat digits (Opt (Group (S n) (Cat (Lit ".") digits)))).
Definition sp (r : regex) : regex := Cat (Lit " ") r.
Definition anything : regex := Plus (Class is_dot).

Definition re_start : regex := lits "/start".
Definition re_help : regex := lits "/help".
(** [/\/convert (\w+) (\w+) (\d+(\.\d+)?)/] *)
Definition re_convert : regex :=
  Cat (lits "/convert ") (Cat (Group 1 word) (sp (Cat (Group 2 word) (sp (decimal 3))))).
(** [/\/status (\w+)/] *)
Definition re_status : regex := Cat (lits "/status ") (Group 1 word).
Definition re_tradehistory : regex := lits "/tradehistory".
(** [/\/placeorder (\w+) (\w+) (\d+(\.\d+)?) (\d+(\.\d+)?)$/] *)
Definition re_placeorder : regex :=
  Cat (lits "/placeorder ")
    (Cat (Group 1 word) (sp (Cat (Group 2 word)
       (sp (Cat (decimal 3) (sp (Cat (decimal 5) EndOfInput))))))).
(** [/\/cancelorder (\w+)/] *)
Definition re_cancelorder : regex := Cat (lits "/cancelorder ") (Group 1 word).
(** [/\/exchangeinfo$/] *)
Definition re_exchangeinfo : regex := Cat (lits "/exchangeinfo") EndOfInput.
(** [/\/assetinfo (.+)/] *)
Definition re_assetinfo : regex := Cat (lits "/assetinfo ") (Group 1 anything).
(** [/\/addassets (.+)/] *)
Definition re_addassets : regex := Cat (lits "/addassets ") (Group 1 anything).
(** [/\/removeassets (.+)/] *)
Definition re_removeassets : regex := Cat (lits "/removeassets ") (Group 1 anything).
(** [/\/exchangeinfo (.+)/] *)
Definition re_exchangeinfo_batch : regex := Cat (lits "/exchangeinfo ") (Group 1 anything).

(** ** Outbound text *)

(** The class [[_*\[\]()~`>#+\-=|{}.!\\]] of [escapeMarkdownV2]. *)
Definition reserved (c : ascii) : bool :=
  includes c "_*[]()~`>#+-=|{}.!\".

(** [text.replace(/([_*\[\]()~`>#+\-=|{}.!\\])/g, '\\$1')] *)
Fixpoint escapeMarkdownV2 (text : string) : string :=
  match text with
  | EmptyString => EmptyString
  | String c r =>
      if reserved c then String "\" (String c (escapeMarkdownV2 r))
      else String c (escapeMarkdownV2 r)
  end.

(** ** Data model *)

Inductive Status : Type := pending | completed | canceled | failed.

Definition status_text (s : Status) : string :=
  match s with
  | pending => "pending"
  | completed => "completed"
  | canceled => "canceled"
  | failed => "failed"
  end.

(** A row of the [orders] table of [src/db/database.js]. *)
Record Order : Type := mkOrder {
  orderId : string;
  chatId : Z;
  fromAsset : string;
  toAsset : string;
  amount : number;
  status : Status;
  error : option string;
  timestamp : string
}.

(** An entry of [binance.supportedAssets]. *)
Module Pair.
Record t : Type := mk { fromAsset : string; toAsset : string }.
End Pair.

(** A value of [userRateLimits]. *)
Record RateLimit : Type := mkRateLimit {
  count : Z;
  lastReset : Z;
  lang : string
}.

(** What the exchange is asked: one constructor per function of
    [src/binance/binance.js], each of which issues one HTTP request. *)
Inductive Request : Type :=
| ConvertQuote (fromA toA : string) (amt : number)
| AcceptQuote (quoteId : string)
| PlaceLimitOrder (fromA toA : string) (amt price : number)
| CancelLimitOrder (oid : string)
| ExchangeInfo
| AssetInfo.

(** The first argument of [bot.sendMessage]: a numeric chat id, or the
    string that the environment gives for the admin. *)
Inductive Chat : Type :=
| ChatId (id : Z)
| ChatName (name : string).

Inductive Markup : Type :=
| NoMarkup
| Keyboard (rows : list (list string))
| InlineKeyboard (rows : list (list (string * string))).

Inductive Event : Type :=
| SendMessage (to : Chat) (text : string) (markdownV2 : bool) (markup : Markup)
| AnswerCallbackQuery (id : string)
| Exchange (r : Request)
| WriteFile (pairs : list Pair.t).

(** What the registry file holds: the registry that was last written to it
    in full, or what is left of a write that failed after the file had been
    opened ([fs.writeFile] opens the file with flag [w], which empties it). *)
Inductive FileContent : Type :=
| Registry (pairs : list Pair.t)
| CutShort.

Record State : Type := mkState {
  supportedAssets : list Pair.t;
  assetsFile : FileContent;
  userRateLimits : gmap Z RateLimit;
  orders : list Order;
  trace : list Event
}.

Inductive Outcome (A : Type) : Type :=
| Ok (a : A)
| Throw (message : string).
Arguments Ok {A} a.
Arguments Throw {A} message.

Record PairInfo : Type := mkPairInfo {
  pi_fromAsset : string;
  pi_toAsset : string;
  minAmount : string;
  maxAmount : string
}.

Record AssetPrecision : Type := mkAssetPrecision {
  asset : string;
  precision : string
}.

(** How one [fs.writeFile] ends: the data is written in full; or the file
    cannot be opened, and is left as it was; or the write fails after the
    file has been opened, and so emptied. *)
Inductive WriteResult : Type :=
| Written
| OpenFails (message : string)
| WriteFails (message : string).

(** Everything a handler reads from outside the process.  An exchange
    function answers with the field the caller inspects ([None] when the
    response carries no such field), or throws. *)
Record Env : Type := mkEnv {
  Date_now : Z;
  CURRENT_TIMESTAMP : string;
  randomBytes : list ascii;
  getConvertQuoteOptimized : string -> string -> number -> Outcome (option string);
  acceptConvertQuote : string -> Outcome (option string);
  placeConvertLimitOrder : string -> string -> number -> number -> Outcome (option string);
  cancelConvertLimitOrder : string -> Outcome (option string);
  getExchangeInfo : nat -> Outcome (option (list PairInfo));
  getAssetInfo : nat -> Outcome (option (list AssetPrecision));
  writeFile : WriteResult
}.

(** The [config] argument of [initialize]; [t lang key arg] stands for
    [i18next.getFixedT(lang)(key, { errorMessage: arg })], whose locale files
    are outside the repository. *)
Record Config : Type := mkConfig {
  RATE_LIMIT_WINDOW_MS : Z;
  RATE_LIMIT_MAX_REQUESTS : Z;
  ADMIN_CHAT_ID : string;
  t : string -> string -> string -> string
}.

(** The constants of [src/main.js]. *)
Definition main_RATE_LIMIT_WINDOW_MS : Z := 60 * 1000.
Definition main_RATE_LIMIT_MAX_REQUESTS : Z := 10.

Definition main_config (admin : string) (tr : string -> string -> string -> string) : Config :=
  mkConfig main_RATE_LIMIT_WINDOW_MS main_RATE_LIMIT_MAX_REQUESTS admin tr.

(** ** The handler monad *)

Definition M (A : Type) : Type := State -> Outcome A * State.

Definition ret {A} (a : A) : M A := fun st => (Ok a, st).

Definition bind {A B} (m : M A) (k : A -> M B) : M B :=
  fun st =>
    match m st with
    | (Ok a, st') => k a st'
    | (Throw e, st') => (Throw e, st')
    end.

Definition throw {A} (message : string) : M A := fun st => (Throw message, st).

(** [try { body } catch (error) { handler(error.message) }] *)
Definition try_catch {A} (body : M A) (handler : string -> M A) : M A :=
  fun st =>
    match body st with
    | (Ok a, st') => (Ok a, st')
    | (Throw e, st') => handler e st'
    end.

Definition lift {A} (o : Outcome A) : M A := fun st => (o, st).

Definition gets {A} (f : State -> A) : M A := fun st => (Ok (f st), st).

Definition emit (e : Event) : M unit :=
  fun st =>
    (Ok tt, mkState (supportedAssets st) (assetsFile st) (userRateLimits st)
              (orders st) (trace st ++ [e])).

Definition set_userRateLimits (u : gmap Z RateLimit) : M unit :=
  fun st =>
    (Ok tt, mkState (supportedAssets st) (assetsFile st) u (orders st) (trace st)).

Definition set_supportedAssets (l : list Pair.t) : M unit :=
  fun st =>
    (Ok tt, mkState l (assetsFile st) (userRateLimits st) (orders st) (trace st)).

Definition set_orders (l : list Order) : M unit :=
  fun st =>
    (Ok tt, mkState (supportedAssets st) (assetsFile st) (userRateLimits st) l (trace st)).

Declare Scope handler_scope.
Delimit Scope handler_scope with handler.
Notation "'let*' x ':=' m 'in' k" := (bind m (fun x => k))
  (at level 10, x name, m at level 100, k at level 200) : handler_scope.
Notation "m '>>' k" := (bind m (fun _ => k))
  (at level 100, k at level 200, right associativity) : handler_scope.
Open Scope handler_scope.

(** ** Collaborators *)

Definition sendMessage (to : Chat) (text : string) (md : bool) (mk : Markup) : M unit :=
  emit (SendMessage to text md mk).

(** An exchange function: the request goes out, the answer comes back or the
    failure is rethrown ([catch (error) { logger.error(...); throw error; }]). *)
Definition call {A} (r : Request) (answer : Outcome A) : M A :=
  emit (Exchange r) >> lift answer.

(** [sendErrorNotification] of [src/main.js] *)
Definition sendErrorNotification (cfg : Config) (message : string) : M unit :=
  sendMessage (ChatName (ADMIN_CHAT_ID cfg))
    ("⚠️ *错误报告:*" +:+ nl +:+ escapeMarkdownV2 message) true NoMarkup.

(** *** The order table *)

Definition has_order (oid : string) (l : list Order) : bool :=
  existsb (fun o => String.eqb (orderId o) oid) l.

(** [src/main.js] hands [initialize] the [db] that [src/db/database.js]
    exports: the sqlite3 [Database] itself, not the promisified [run], [get]
    and [all] exported next to it.  Called as the handlers call them, with a
    statement and its parameters and no callback, the three methods queue
    the statement and return the [Database]; [await] gives that value back
    at once.  So a statement that fails cannot throw into the handler, and
    the rows of a query reach no one: the handler holds the [Database] where
    it expects a row or a list of rows. *)

(** [await db.run(`INSERT INTO orders ...`, [...])]: [orderId] is the primary
    key, so a second row with the same id is refused by the table and
    nothing is written; the handler goes on either way.  (The refusal is
    emitted as an [error] event, for which [bot.js] has no listener; what
    the process does about it afterwards is outside this model, so nothing
    is stated below about the messages that follow a refused insert.) *)
Definition db_insert (o : Order) : M unit :=
  fun st =>
    if has_order (orderId o) (orders st)
    then (Ok tt, st)
    else set_orders (orders st ++ [o]) st.

Definition set_status (s : Status) (o : Order) : Order :=
  mkOrder (orderId o) (chatId o) (fromAsset o) (toAsset o) (amount o) s
    (error o) (timestamp o).

(** [UPDATE orders SET status = ? WHERE orderId = ?] *)
Definition db_update_status (s : Status) (oid : string) : M unit :=
  fun st =>
    set_orders
      (map (fun o => if String.eqb (orderId o) oid then set_status s o else o)
         (orders st)) st.

(** An object as /status reads it: the properties [orderId], [status] and
    [error], each a text or [undefined]. *)
Record Fetched : Type := mkFetched {
  got_orderId : option string;
  got_status : option string;
  got_error : option string
}.

(** The [Database] has none of the three properties. *)
Definition the_database : Fetched := mkFetched None None None.

(** [await db.get(`SELECT * FROM orders WHERE orderId = ? AND chatId = ?`,
    [orderId, chatId])]: the value is the [Database], whatever the table
    holds; [None] would be a falsy value. *)
Definition db_get (oid : string) (chat : Z) : M (option Fetched) :=
  ret (Some the_database).

(** [await db.all(`SELECT * FROM orders WHERE chatId = ? ORDER BY timestamp
    DESC LIMIT 10`, [chatId])]: again the [Database].  The handler reads its
    [length]; [Some l] would be an array, [None] is an object without
    [length]. *)
Definition db_all (chat : Z) : M (option (list Order)) :=
  ret None.

(** *** Random identifiers *)

Definition hex_digit (n : N) : ascii :=
  if (n <? 10)%N then ascii_of_N (48 + n) else ascii_of_N (87 + n).

(** [buffer.toString('hex')] *)
Fixpoint to_hex (bytes : list ascii) : string :=
  match bytes with
  | [] => EmptyString
  | b :: rest =>
      let n := N_of_ascii b in
      String (hex_digit (n / 16)) (String (hex_digit (n mod 16)) (to_hex rest))
  end.

(** [crypto.randomBytes(16).toString('hex')] *)
Definition random_id (env : Env) : string := to_hex (take 16 (randomBytes env)).

(** ** The handlers of [initialize] *)

(** [a || b] on strings *)
Definition or_default (a b : string) : string := if truthy a then a else b.

(** [o && o.field]: the field when it is there and truthy. *)
Definition truthy_field (o : option string) : option string :=
  match o with
  | Some s => if truthy s then Some s else None
  | None => None
  end.

(** [xs[i]] with [undefined] read as the empty string (both are falsy, and
    [parseFloat] maps both to [NaN]). *)
Definition at_index (xs : list string) (i : nat) : string := nth i xs EmptyString.

Definition isAdmin (cfg : Config) (chat : Z) : bool :=
  String.eqb (Z_to_string chat) (ADMIN_CHAT_ID cfg).

Definition menu_keyboard : Markup :=
  Keyboard [["立即兑换"; "查看状态"]; ["个人信息"; "帮助"]].

Definition sendPersistentMenu (chat : Z) : M unit :=
  sendMessage (ChatId chat) "请选择一个操作:" false menu_keyboard.

(** [userRateLimits[chatId]?.lang || 'zh'] *)
Definition userLang (u : gmap Z RateLimit) (chat : Z) : string :=
  match u !! chat with
  | Some e => or_default (lang e) "zh"
  | None => "zh"
  end.

(** [bot.sendMessage(chatId, escapeMarkdownV2(text), { parse_mode: 'MarkdownV2' })] *)
Definition reply (chat : Z) (text : string) : M unit :=
  sendMessage (ChatId chat) (escapeMarkdownV2 text) true NoMarkup.

Definition failedMessage (message : string) : string :=
  "❌ *转换失败:*" +:+ nl +:+ escapeMarkdownV2 message.

(** *** /start *)

Definition welcomeMessage : string :=
  "欢迎使用 **Binance智能助手**！这是您的专属加密货币交易伙伴，您可以通过以下选项进行操作。请选择一个操作。".

Definition on_start (env : Env) (chat : Z) : M unit :=
  let* u := gets userRateLimits in
  (match u !! chat with
   | None => set_userRateLimits (<[chat := mkRateLimit 0 (Date_now env) "zh"]> u)
   | Some _ => ret tt
   end) >>
  reply chat welcomeMessage >>
  sendPersistentMenu chat.

(** *** Menu taps (the first [message] listener) *)

Definition prompt_convert : string := "请输入兑换命令，例如：/convert ETH BTC 0.5".
Definition prompt_status : string := "请输入订单 ID，例如：/status 12345".
Definition personal_info_text : string := "个人信息功能尚未实现。".

Definition on_message_menu (cfg : Config) (chat : Z) (text : string) : M unit :=
  if startsWith "/" text then ret tt
  else
    let* u := gets userRateLimits in
    let tr := t cfg (userLang u chat) in
    if String.eqb text "立即兑换" then
      sendMessage (ChatId chat) prompt_convert false NoMarkup
    else if String.eqb text "查看状态" then
      sendMessage (ChatId chat) prompt_status false NoMarkup
    else if String.eqb text "个人信息" then
      sendMessage (ChatId chat) personal_info_text false NoMarkup
    else if String.eqb text "帮助" then
      reply chat (tr "help.content" EmptyString)
    else if negb (startsWith "/" text) then
      reply chat (tr "unknown_command" EmptyString)
    else ret tt.

(** *** /help *)

Definition on_help (cfg : Config) (chat : Z) : M unit :=
  let* u := gets userRateLimits in
  let tr := t cfg (userLang u chat) in
  reply chat (tr "help.content" EmptyString) >>
  sendPersistentMenu chat.

(** *** /convert *)

(** The update of [userRateLimits[chatId]] at the head of the handler. *)
Definition rate_limit_step (cfg : Config) (now : Z) (e : option RateLimit) : RateLimit :=
  match e with
  | None => mkRateLimit 1 now "zh"
  | Some r =>
      if (now - lastReset r >? RATE_LIMIT_WINDOW_MS cfg)%Z
      then mkRateLimit 1 now (lang r)
      else mkRateLimit (count r + 1) (lastReset r) (lang r)
  end.

(** [binance.supportedAssets.some(pair => ...)], written out identically in
    /convert and in /placeorder. *)
Definition isSupported (assets : list Pair.t) (fromA toA : string) : bool :=
  existsb (fun pair =>
      (String.eqb (Pair.fromAsset pair) fromA && String.eqb (Pair.toAsset pair) toA)
      || (String.eqb (Pair.fromAsset pair) toA && String.eqb (Pair.toAsset pair) fromA))
    assets.

Definition notSupportedMessage (fromA toA : string) : string :=
  "⚠️ *货币对不支持:*" +:+ nl +:+ fromA +:+ " ↔️ " +:+ toA +:+ "。".

Definition rateLimitFallback : string :=
  "⚠️ *速率限制超出:*" +:+ nl +:+ "请稍后再试。".

Definition confirm_data (fromA toA : string) (amt : number) : string :=
  "confirm_convert_" +:+ fromA +:+ "_" +:+ toA +:+ "_" +:+ number_to_string amt.

Definition confirm_keyboard (fromA toA : string) (amt : number) : Markup :=
  InlineKeyboard
    [[("确认兑换", confirm_data fromA toA amt); ("取消", "cancel_convert")]].

Definition confirmMessage (fromA toA : string) (amt : number) : string :=
  "您确认要兑换 *" +:+ number_to_string amt +:+ "* " +:+ fromA +:+ " 为 *" +:+ toA +:+ "* 吗？".

(** The handler past the rate limit: the pair check and the prompt. *)
Definition convert_checked (chat : Z) (fromA toA : string) (amt : number) : M unit :=
  let* assets := gets supportedAssets in
  if negb (isSupported assets fromA toA) then
    reply chat (notSupportedMessage fromA toA)
  else
    sendMessage (ChatId chat) (escapeMarkdownV2 (confirmMessage fromA toA amt)) true
      (confirm_keyboard fromA toA amt).

Definition rateLimitMessage (cfg : Config) (entry : RateLimit) : string :=
  or_default (t cfg (or_default (lang entry) "zh") "rate_limit_exceeded" EmptyString)
    rateLimitFallback.

Definition on_convert (cfg : Config) (env : Env) (chat : Z) (m : captures) : M unit :=
  let fromA := toUpperCase (group m 1) in
  let toA := toUpperCase (group m 2) in
  let amt := parseFloat (group m 3) in
  let now := Date_now env in
  let* u := gets userRateLimits in
  let entry := rate_limit_step cfg now (u !! chat) in
  set_userRateLimits (<[chat := entry]> u) >>
  if (count entry >? RATE_LIMIT_MAX_REQUESTS cfg)%Z then
    reply chat (rateLimitMessage cfg entry)
  else
    convert_checked chat fromA toA amt.

(** *** Instant conversion *)

Definition convertSuccessMessage (fromA toA : string) (amt : number) (oid : string) : string :=
  "✅ *转换成功！*" +:+ nl +:+ nl +:+ "*从:* " +:+ fromA +:+ nl +:+ "*到:* " +:+ toA
  +:+ nl +:+ "*数量:* " +:+ number_to_string amt +:+ nl +:+ "*订单 ID:* " +:+ oid.

Definition failed_order (env : Env) (chat : Z) (fromA toA : string) (amt : number)
    (message : string) : Order :=
  mkOrder (random_id env) chat (or_default fromA "Unknown") (or_default toA "Unknown")
    (or_zero amt) failed (Some (escapeMarkdownV2 message)) (CURRENT_TIMESTAMP env).

Definition instantConvert (cfg : Config) (env : Env) (chat : Z)
    (fromA toA : string) (amt : number) : M unit :=
  try_catch
    (let* u := gets userRateLimits in
     let tr := t cfg (userLang u chat) in
     let* quote := call (ConvertQuote fromA toA amt)
                     (getConvertQuoteOptimized env fromA toA amt) in
     match truthy_field quote with
     | None => throw (tr "convert_failed" "未能获取闪兑报价")
     | Some quoteId =>
         let* acceptResult := call (AcceptQuote quoteId) (acceptConvertQuote env quoteId) in
         (match truthy_field acceptResult with
          | Some oid =>
              db_insert (mkOrder oid chat fromA toA amt completed None
                           (CURRENT_TIMESTAMP env)) >>
              reply chat (convertSuccessMessage fromA toA amt oid)
          | None => throw (tr "convert_failed" "闪兑交易执行失败")
          end) >>
         sendPersistentMenu chat
     end)
    (fun message =>
       reply chat (failedMessage message) >>
       db_insert (failed_order env chat fromA toA amt message) >>
       sendErrorNotification cfg ("闪兑失败: " +:+ message) >>
       sendPersistentMenu chat).

(** *** Inline keyboard callbacks *)

Definition on_callback_query (cfg : Config) (env : Env) (chat : Z)
    (id data : string) : M unit :=
  emit (AnswerCallbackQuery id) >>
  if startsWith "confirm_convert_" data then
    let parts := split "_" data in
    let fromA := at_index parts 2 in
    let toA := at_index parts 3 in
    let amt := parseFloat (at_index parts 4) in
    instantConvert cfg env chat fromA toA amt >>
    sendPersistentMenu chat
  else if String.eqb data "cancel_convert" then
    reply chat "兑换已取消。" >>
    sendPersistentMenu chat
  else if String.eqb data "convert_now" then
    sendMessage (ChatId chat) prompt_convert false NoMarkup
  else if String.eqb data "view_status" then
    sendMessage (ChatId chat) prompt_status false NoMarkup
  else if String.eqb data "personal_info" then
    sendMessage (ChatId chat) personal_info_text false NoMarkup
  else if String.eqb data "help" then
    let* u := gets userRateLimits in
    reply chat (t cfg (userLang u chat) "help.content" EmptyString)
  else
    reply chat "未知操作。".

(** *** /status *)

(** [`${v}`] for a property that may be [undefined]. *)
Definition template (v : option string) : string :=
  match v with
  | Some s => s
  | None => "undefined"
  end.

(** [v === 'failed'] *)
Definition is_failed (v : option string) : bool :=
  match v with
  | Some s => String.eqb s "failed"
  | None => false
  end.

Definition statusMessage (order : Fetched) (tail : string) : string :=
  "*订单 ID:* " +:+ template (got_orderId order) +:+ nl
  +:+ "*状态:* " +:+ template (got_status order) +:+ tail.

Definition on_status (cfg : Config) (chat : Z) (m : captures) : M unit :=
  let oid := group m 1 in
  try_catch
    (let* order := db_get oid chat in
     match order with
     | None =>
         reply chat ("⚠️ *订单未找到:*" +:+ nl +:+ "未找到订单 ID " +:+ oid +:+ "。")
     | Some order =>
         let* tail :=
           if is_failed (got_status order) then
             match got_error order with
             | Some e => ret (nl +:+ "*错误:* " +:+ escapeMarkdownV2 e)
             | None => throw "Cannot read properties of undefined (reading 'replace')"
             end
           else ret EmptyString in
         reply chat (statusMessage order tail) >>
         sendPersistentMenu chat
     end)
    (fun message =>
       reply chat (failedMessage message) >>
       sendErrorNotification cfg ("查询订单状态失败: " +:+ message)).

(** *** /tradehistory (registered twice, with the same body) *)

Definition history_entry (index : nat) (order : Order) : string :=
  string_of_nat (index + 1) +:+ ". *订单 ID:* " +:+ orderId order +:+ nl
  +:+ "   *从:* " +:+ fromAsset order +:+ nl
  +:+ "   *到:* " +:+ toAsset order +:+ nl
  +:+ "   *数量:* " +:+ number_to_string (amount order) +:+ nl
  +:+ "   *状态:* " +:+ status_text (status order) +:+ nl
  +:+ "   *时间:* " +:+ timestamp order +:+ nl +:+ nl.

(** [xs.forEach((x, index) => { message += entry(index, x) })] *)
Definition concat_indexed {A} (entry : nat -> A -> string) (xs : list A) : string :=
  foldr String.append EmptyString (imap entry xs).

Definition historyMessage (l : list Order) : string :=
  "📄 *最近的闪兑交易历史:*" +:+ nl +:+ nl +:+ concat_indexed history_entry l.

Definition noHistoryMessage : string := "✅ 当前没有闪兑交易历史。".

Definition on_tradehistory (cfg : Config) (chat : Z) : M unit :=
  try_catch
    (let* orderStatusList := db_all chat in
     (match orderStatusList with
      | Some (o :: rest) => reply chat (historyMessage (o :: rest))
      | _ => reply chat noHistoryMessage
      end) >>
     sendPersistentMenu chat)
    (fun message =>
       reply chat (failedMessage message) >>
       sendErrorNotification cfg ("查询闪兑交易历史失败: " +:+ message)).

(** *** /placeorder *)

Definition invalidNumbersMessage : string :=
  "❌ *转换失败:*" +:+ nl +:+ "金额和价格必须为正数。".

Definition limitOrderMessage (fromA toA : string) (amt price : number) (oid : string) : string :=
  "✅ *限价单已下达！*" +:+ nl +:+ nl +:+ "*从:* " +:+ fromA +:+ nl +:+ "*到:* " +:+ toA
  +:+ nl +:+ "*数量:* " +:+ number_to_string amt
  +:+ nl +:+ "*价格:* " +:+ number_to_string price
  +:+ nl +:+ "*订单 ID:* " +:+ oid.

Definition on_placeorder (cfg : Config) (env : Env) (chat : Z) (m : captures) : M unit :=
  let fromA := toUpperCase (group m 1) in
  let toA := toUpperCase (group m 2) in
  let amt := parseFloat (group m 3) in
  let price := parseFloat (group m 5) in
  if isNaN amt || le_zero amt || isNaN price || le_zero price then
    sendMessage (ChatId chat) invalidNumbersMessage true NoMarkup
  else
    let* assets := gets supportedAssets in
    if negb (isSupported assets fromA toA) then
      reply chat (notSupportedMessage fromA toA)
    else
      try_catch
        (let* orderResult := call (PlaceLimitOrder fromA toA amt price)
                               (placeConvertLimitOrder env fromA toA amt price) in
         (match truthy_field orderResult with
          | Some oid =>
              db_insert (mkOrder oid chat fromA toA amt pending None
                           (CURRENT_TIMESTAMP env)) >>
              reply chat (limitOrderMessage fromA toA amt price oid)
          | None => throw "限价单创建失败。"
          end) >>
         sendPersistentMenu chat)
        (fun message =>
           reply chat (failedMessage message) >>
           db_insert (failed_order env chat fromA toA amt message) >>
           sendErrorNotification cfg ("限价单创建失败: " +:+ message) >>
           sendPersistentMenu chat).

(** *** /cancelorder *)

Definition on_cancelorder (cfg : Config) (env : Env) (chat : Z) (m : captures) : M unit :=
  let oid := group m 1 in
  try_catch
    (let* cancelResult := call (CancelLimitOrder oid) (cancelConvertLimitOrder env oid) in
     (match truthy_field cancelResult with
      | Some _ =>
          db_update_status canceled oid >>
          reply chat ("✅ *限价单已取消！*" +:+ nl +:+ nl +:+ "*订单 ID:* " +:+ oid)
      | None => throw "限价单取消失败。"
      end) >>
     sendPersistentMenu chat)
    (fun message =>
       reply chat (failedMessage message) >>
       sendErrorNotification cfg ("限价单取消失败: " +:+ message)).

(** *** /exchangeinfo *)

Definition pair_entry (index : nat) (pair : PairInfo) : string :=
  string_of_nat (index + 1) +:+ ". *交易对:* " +:+ pi_fromAsset pair +:+ " ↔️ "
  +:+ pi_toAsset pair +:+ nl
  +:+ "   *最小金额:* " +:+ minAmount pair +:+ nl
  +:+ "   *最大金额:* " +:+ maxAmount pair +:+ nl +:+ nl.

Definition pairsHeader : string := "📈 *交易对信息:*" +:+ nl +:+ nl.

Definition on_exchangeinfo (cfg : Config) (env : Env) (chat : Z) : M unit :=
  try_catch
    (let* exchangeInfo := call ExchangeInfo (getExchangeInfo env 0) in
     (match exchangeInfo with
      | Some pairs => reply chat (pairsHeader +:+ concat_indexed pair_entry pairs)
      | None => throw "未能获取交易对信息。"
      end) >>
     sendPersistentMenu chat)
    (fun message =>
       reply chat (failedMessage message) >>
       sendErrorNotification cfg ("获取交易对信息失败: " +:+ message)).

(** *** /assetinfo (registered twice, with the same body) *)

Definition assetinfo_args (assetsStr : string) : list string :=
  List.filter (fun a => 0 <? String.length a)
    (map (fun a => toUpperCase (trim a)) (split "," assetsStr)).

(** The [for (const asset of assets)] loop: one exchange request per asset;
    an asset that is missing from the answer, or whose request fails, goes
    to [notFoundAssets]. *)
Fixpoint assetinfo_loop (env : Env) (i : nat) (assets : list string)
    (assetInfoList : list AssetPrecision) (notFoundAssets : list string)
    : M (list AssetPrecision * list string) :=
  match assets with
  | [] => ret (assetInfoList, notFoundAssets)
  | a :: rest =>
      let* found :=
        try_catch
          (let* info := call AssetInfo (getAssetInfo env i) in
           match info with
           | Some l => ret (find (fun x => String.eqb (asset x) a) l)
           | None => throw "Cannot read properties of undefined (reading 'find')"
           end)
          (fun _ => ret None) in
      match found with
      | Some x => assetinfo_loop env (S i) rest (assetInfoList ++ [x]) notFoundAssets
      | None => assetinfo_loop env (S i) rest assetInfoList (notFoundAssets ++ [a])
      end
  end.

Definition asset_entry (index : nat) (a : AssetPrecision) : string :=
  string_of_nat (index + 1) +:+ ". *资产:* " +:+ asset a +:+ nl
  +:+ "   *精度:* " +:+ precision a +:+ nl +:+ nl.

Definition assetinfoMessage (found : list AssetPrecision) (notFound : list string) : string :=
  let m1 :=
    match found with
    | [] => EmptyString
    | _ => "📊 *资产精度信息:*" +:+ nl +:+ nl +:+ concat_indexed asset_entry found
    end in
  let m2 :=
    match notFound with
    | [] => m1
    | _ => m1 +:+ "⚠️ 以下资产信息未找到或获取失败:" +:+ nl +:+ join nl notFound
    end in
  if String.eqb m2 EmptyString then "⚠️ 未找到任何有效的资产精度信息。" else m2.

Definition on_assetinfo (env : Env) (chat : Z) (m : captures) : M unit :=
  let assetsStr := trim (group m 1) in
  let assets := assetinfo_args assetsStr in
  match assets with
  | [] => reply chat "⚠️ 无效的资产查询格式。请使用 `Asset1, Asset2` 的格式。"
  | _ =>
      let* r := assetinfo_loop env 0 assets [] [] in
      reply chat (assetinfoMessage (fst r) (snd r)) >>
      sendPersistentMenu chat
  end.

(** *** /addassets and /removeassets (admin) *)

Definition permissionDeniedMessage : string := "⚠️ 您没有权限执行此操作。".

Definition invalidPairFormatMessage : string :=
  "⚠️ 无效的资产兑换对格式。请使用 `fromAsset:toAsset` 的格式。".

(** [assetsStr.split(',').map(pair => pair.trim()).filter(pair => pair.includes(':'))] *)
Definition parse_pairs (assetsStr : string) : list string :=
  List.filter (includes ":") (map trim (split "," assetsStr)).

Definition pair_text (fromA toA : string) : string := fromA +:+ " ↔️ " +:+ toA.

(** One round of the [assetPairs.forEach] of /addassets.  The existence test
    reads [binance.supportedAssets], which is only reassigned after the
    loop. *)
Definition addassets_step (assets : list Pair.t)
    (acc : list Pair.t * list string) (pair : string) : list Pair.t * list string :=
  let parts := map toUpperCase (split ":" pair) in
  let fromA := at_index parts 0 in
  let toA := at_index parts 1 in
  if negb (truthy fromA) || negb (truthy toA) then acc
  else if isSupported assets fromA toA
       then (fst acc, snd acc ++ [pair_text fromA toA])
       else (fst acc ++ [Pair.mk fromA toA], snd acc).

(** [await writeFileAsync(path, JSON.stringify(binance.supportedAssets, null, 4))] *)
Definition writeSupportedAssets (env : Env) : M unit :=
  fun st =>
    match writeFile env with
    | Written =>
        (Ok tt, mkState (supportedAssets st) (Registry (supportedAssets st))
                  (userRateLimits st) (orders st)
                  (trace st ++ [WriteFile (supportedAssets st)]))
    | OpenFails e => (Throw e, st)
    | WriteFails e =>
        (Throw e, mkState (supportedAssets st) CutShort (userRateLimits st) (orders st)
                    (trace st))
    end.

Definition addassetsResponse (newPairs : list Pair.t) (existingPairs : list string) : string :=
  let m1 :=
    match newPairs with
    | [] => EmptyString
    | _ =>
        "✅ 成功添加以下资产兑换对:" +:+ nl
        +:+ join nl (map (fun p => pair_text (Pair.fromAsset p) (Pair.toAsset p)) newPairs)
        +:+ nl +:+ nl
    end in
  match existingPairs with
  | [] => m1
  | _ => m1 +:+ "⚠️ 以下资产兑换对已存在，未重复添加:" +:+ nl +:+ join nl existingPairs
  end.

Definition on_addassets (cfg : Config) (env : Env) (chat : Z) (m : captures) : M unit :=
  let assetsStr := trim (group m 1) in
  if negb (isAdmin cfg chat) then reply chat permissionDeniedMessage
  else
    let assetPairs := parse_pairs assetsStr in
    match assetPairs with
    | [] => sendMessage (ChatId chat) invalidPairFormatMessage true NoMarkup
    | _ =>
        let* assets := gets supportedAssets in
        let '(newPairs, existingPairs) :=
          fold_left (addassets_step assets) assetPairs ([], []) in
        set_supportedAssets (assets ++ newPairs) >>
        try_catch
          (writeSupportedAssets env >>
           sendMessage (ChatId chat) (addassetsResponse newPairs existingPairs) true NoMarkup >>
           sendPersistentMenu chat)
          (fun message =>
             sendMessage (ChatId chat) (failedMessage message) true NoMarkup >>
             sendErrorNotification cfg ("批量添加资产兑换对失败: " +:+ message))
    end.

Definition matches_pair (fromA toA : string) (p : Pair.t) : bool :=
  (String.eqb (Pair.fromAsset p) fromA && String.eqb (Pair.toAsset p) toA)
  || (String.eqb (Pair.fromAsset p) toA && String.eqb (Pair.toAsset p) fromA).

(** [findIndex] followed by [splice(index, 1)]: the first matching entry and
    the list without it. *)
Fixpoint splice_first (f : Pair.t -> bool) (l : list Pair.t) : option (Pair.t * list Pair.t) :=
  match l with
  | [] => None
  | x :: rest =>
      if f x then Some (x, rest)
      else match splice_first f rest with
           | Some (y, rest') => Some (y, x :: rest')
           | None => None
           end
  end.

(** One round of the [assetPairs.forEach] of /removeassets; here the
    registry is spliced in place. *)
Definition removeassets_step
    (acc : list Pair.t * list string * list string) (pair : string)
    : list Pair.t * list string * list string :=
  let '(assets, removedPairs, notFoundPairs) := acc in
  let parts := map toUpperCase (split ":" pair) in
  let fromA := at_index parts 0 in
  let toA := at_index parts 1 in
  if negb (truthy fromA) || negb (truthy toA) then acc
  else match splice_first (matches_pair fromA toA) assets with
       | Some (removed, assets') =>
           (assets',
            removedPairs ++ [pair_text (Pair.fromAsset removed) (Pair.toAsset removed)],
            notFoundPairs)
       | None => (assets, removedPairs, notFoundPairs ++ [pair_text fromA toA])
       end.

Definition removeassetsResponse (removedPairs notFoundPairs : list string) : string :=
  let m1 :=
    match removedPairs with
    | [] => EmptyString
    | _ => "✅ 成功移除以下资产兑换对:" +:+ nl +:+ join nl removedPairs +:+ nl +:+ nl
    end in
  match notFoundPairs with
  | [] => m1
  | _ => m1 +:+ "⚠️ 以下资产兑换对不存在，无法移除:" +:+ nl +:+ join nl notFoundPairs
  end.

Definition on_removeassets (cfg : Config) (env : Env) (chat : Z) (m : captures) : M unit :=
  let assetsStr := trim (group m 1) in
  if negb (isAdmin cfg chat) then
    sendMessage (ChatId chat) permissionDeniedMessage true NoMarkup
  else
    let assetPairs := parse_pairs assetsStr in
    match assetPairs with
    | [] => sendMessage (ChatId chat) invalidPairFormatMessage true NoMarkup
    | _ =>
        let* assets := gets supportedAssets in
        let '(assets', removedPairs, notFoundPairs) :=
          fold_left removeassets_step assetPairs (assets, [], []) in
        set_supportedAssets assets' >>
        try_catch
          (writeSupportedAssets env >>
           reply chat (removeassetsResponse removedPairs notFoundPairs) >>
           sendPersistentMenu chat)
          (fun message =>
             reply chat (failedMessage message) >>
             sendErrorNotification cfg ("批量移除资产兑换对失败: " +:+ message))
    end.

(** *** /exchangeinfo with a list of pairs *)

Definition matches_info (fromA toA : string) (p : PairInfo) : bool :=
  (String.eqb (pi_fromAsset p) fromA && String.eqb (pi_toAsset p) toA)
  || (String.eqb (pi_fromAsset p) toA && String.eqb (pi_toAsset p) fromA).

Fixpoint exchangeinfo_loop (env : Env) (assets : list Pair.t) (i : nat)
    (assetPairs : list string) (exchangeInfoList : list PairInfo)
    (notFoundPairs : list string) : M (list PairInfo * list string) :=
  match assetPairs with
  | [] => ret (exchangeInfoList, notFoundPairs)
  | pairStr :: rest =>
      let parts := map toUpperCase (split ":" pairStr) in
      let fromA := at_index parts 0 in
      let toA := at_index parts 1 in
      if negb (truthy fromA) || negb (truthy toA) then
        exchangeinfo_loop env assets (S i) rest exchangeInfoList notFoundPairs
      else if isSupported assets fromA toA then
        let* found :=
          try_catch
            (let* info := call ExchangeInfo (getExchangeInfo env i) in
             match info with
             | Some l => ret (find (matches_info fromA toA) l)
             | None => throw "Cannot read properties of undefined (reading 'find')"
             end)
            (fun _ => ret None) in
        match found with
        | Some x =>
            exchangeinfo_loop env assets (S i) rest (exchangeInfoList ++ [x]) notFoundPairs
        | None =>
            exchangeinfo_loop env assets (S i) rest exchangeInfoList (notFoundPairs ++ [pairStr])
        end
      else
        exchangeinfo_loop env assets (S i) rest exchangeInfoList (notFoundPairs ++ [pairStr])
  end.

Definition exchangeinfoMessage (found : list PairInfo) (notFound : list string) : string :=
  let m1 :=
    match found with
    | [] => EmptyString
    | _ => pairsHeader +:+ concat_indexed pair_entry found
    end in
  let m2 :=
    match notFound with
    | [] => m1
    | _ => m1 +:+ "⚠️ 以下交易对信息未找到或获取失败:" +:+ nl +:+ join nl notFound
    end in
  if String.eqb m2 EmptyString then "⚠️ 未找到任何有效的交易对信息。" else m2.

Definition on_exchangeinfo_batch (env : Env) (chat : Z) (m : captures) : M unit :=
  let pairsStr := trim (group m 1) in
  let assetPairs := parse_pairs pairsStr in
  match assetPairs with
  | [] => reply chat "⚠️ 无效的交易对查询格式。请使用 `fromAsset:toAsset` 的格式。"
  | _ =>
      let* assets := gets supportedAssets in
      let* r := exchangeinfo_loop env assets 0 assetPairs [] [] in
      reply chat (exchangeinfoMessage (fst r) (snd r)) >>
      sendPersistentMenu chat
  end.

(** *** Unknown text (the second [message] listener) *)

Definition unknownCommandMessage : string := "⚠️ 未知命令。请使用 /help 查看可用命令。".

Definition on_message_unknown (chat : Z) (text : string) : M unit :=
  if negb (startsWith "/" text)
     && negb (existsb (String.eqb text) ["立即兑换"; "查看状态"; "个人信息"; "帮助"])
  then reply chat unknownCommandMessage >> sendPersistentMenu chat
  else ret tt.

(** ** The dispatcher

    [bot.processUpdate] of node-telegram-bot-api, for a bot built as in
    [src/main.js] (no [onlyFirstMatch] option): a message is first emitted to
    every [message] listener, then its text is tested against every pattern
    registered with [onText], in registration order, and the callback of each
    pattern that matches is called.  [processUpdate] below runs the handlers
    started by one update one after the other: that is what happens when at
    most one of them does anything, and one of the possible schedules
    otherwise; [Dispatched], further down, covers the others.  A rejection
    that leaves a handler reaches the two [unhandledRejection] listeners,
    one in [bot.js] and one in [main.js]. *)

Inductive Update : Type :=
| Message (chat : Z) (text : string)
| CallbackQuery (chat : Z) (id data : string).

Definition unhandled (cfg : Config) (h : M unit) : M unit :=
  try_catch h (fun reason =>
    sendErrorNotification cfg ("Unhandled Rejection: Error: " +:+ reason) >>
    sendErrorNotification cfg ("Unhandled Rejection: Error: " +:+ reason)).

Record TextHandler : Type := mkTextHandler {
  groups : nat;
  pattern : regex;
  callback : captures -> M unit
}.

(** The [bot.onText] registrations, top to bottom. *)
Definition textRegexpCallbacks (cfg : Config) (env : Env) (chat : Z) : list TextHandler :=
  [ mkTextHandler 0 re_start (fun _ => on_start env chat);
    mkTextHandler 0 re_help (fun _ => on_help cfg chat);
    mkTextHandler 4 re_convert (on_convert cfg env chat);
    mkTextHandler 1 re_status (on_status cfg chat);
    mkTextHandler 0 re_tradehistory (fun _ => on_tradehistory cfg chat);
    mkTextHandler 6 re_placeorder (on_placeorder cfg env chat);
    mkTextHandler 1 re_cancelorder (on_cancelorder cfg env chat);
    mkTextHandler 0 re_exchangeinfo (fun _ => on_exchangeinfo cfg env chat);
    mkTextHandler 1 re_assetinfo (on_assetinfo env chat);
    mkTextHandler 0 re_tradehistory (fun _ => on_tradehistory cfg chat);
    mkTextHandler 1 re_addassets (on_addassets cfg env chat);
    mkTextHandler 1 re_removeassets (on_removeassets cfg env chat);
    mkTextHandler 1 re_exchangeinfo_batch (on_exchangeinfo_batch env chat);
    mkTextHandler 1 re_assetinfo (on_assetinfo env chat) ].

(** [bot.onText(re, cb)] applied to one message text. *)
Definition onText (cfg : Config) (text : string) (h : TextHandler) : M unit :=
  match exec (groups h) (pattern h) text with
  | Some m => unhandled cfg (callback h m)
  | None => ret tt
  end.

Fixpoint run_all (hs : list (M unit)) : M unit :=
  match hs with
  | [] => ret tt
  | h :: rest => h >> run_all rest
  end.

Definition processUpdate (cfg : Config) (env : Env) (u : Update) : M unit :=
  match u with
  | Message chat text =>
      unhandled cfg (on_message_menu cfg chat text) >>
      unhandled cfg (on_message_unknown chat text) >>
      run_all (map (onText cfg text) (textRegexpCallbacks cfg env chat))
  | CallbackQuery chat id data =>
      unhandled cfg (on_callback_query cfg env chat id data)
  end.

(** The state a handler leaves behind. *)
Definition run {A} (m : M A) (st : State) : State := snd (m st).

Definition emptyState : State := mkState [] (Registry []) ∅ [] [].

(** [/convert] requests handled one after the other for one chat. *)
Fixpoint converts (cfg : Config) (chat : Z) (reqs : list (Env * captures)) (st : State) : State :=
  match reqs with
  | [] => st
  | (env, m) :: rest => converts cfg chat rest (run (on_convert cfg env chat m) st)
  end.

Definition with_userRateLimits (u : gmap Z RateLimit) (st : State) : State :=
  mkState (supportedAssets st) (assetsFile st) u (orders st) (trace st).

Definition with_trace (tr : list Event) (st : State) : State :=
  mkState (supportedAssets st) (assetsFile st) (userRateLimits st) (orders st) tr.

(** ** Handlers that run side by side

    The program calls every handler that an update starts at once: each
    runs up to its first [await], and from there on they take turns, in an
    order that depends on when the awaited promises settle (the first
    [message] listener, for one, awaits [i18next.changeLanguage] before it
    sends anything, the second does not).  Each handler still does its own
    steps in the order of its text.  When the handlers started only send,
    that is, leave the state as it is but for the trace, none can see what
    another does, and what a run adds to the trace is a merge of what each
    adds on its own. *)

(** The handlers one update starts, in the order in which they are started. *)
Definition started (cfg : Config) (env : Env) (u : Update) : list (M unit) :=
  match u with
  | Message chat text =>
      unhandled cfg (on_message_menu cfg chat text)
      :: unhandled cfg (on_message_unknown chat text)
      :: map (onText cfg text) (textRegexpCallbacks cfg env chat)
  | CallbackQuery chat id data =>
      [unhandled cfg (on_callback_query cfg env chat id data)]
  end.

(** What a handler adds to the trace when it runs on its own from [st]. *)
Definition events_of (h : M unit) (st : State) : list Event :=
  drop (length (trace st)) (trace (run h st)).

(** The handler changes nothing but the trace. *)
Definition only_sends (st : State) (h : M unit) : Prop :=
  run h st = with_trace (trace st ++ events_of h st) st.

(** [l] holds the elements of [l1] and of [l2], those of each in their
    order. *)
Inductive Merge {A : Type} : list A -> list A -> list A -> Prop :=
| merge_nil : Merge [] [] []
| merge_left (x : A) (l1 l2 l : list A) :
    Merge l1 l2 l -> Merge (x :: l1) l2 (x :: l)
| merge_right (x : A) (l1 l2 l : list A) :
    Merge l1 l2 l -> Merge l1 (x :: l2) (x :: l).

(** [l] holds the elements of all the lists of [ls], those of each list in
    their order. *)
Inductive Interleaved {A : Type} : list (list A) -> list A -> Prop :=
| interleaved_nil : Interleaved [] []
| interleaved_cons (l : list A) (ls : list (list A)) (rest tr : list A) :
    Interleaved ls rest -> Merge l rest tr -> Interleaved (l :: ls) tr.

Definition nonempty {A : Type} (l : list A) : bool :=
  match l with
  | [] => false
  | _ :: _ => true
  end.

(** The handlers that the update [u] starts in the state [st] only send,
    and [tr] is a merge of what each of them sends on its own.  Every run of
    the program on such an update adds a trace of this kind. *)
Definition Dispatched (cfg : Config) (env : Env) (u : Update) (st : State)
    (tr : list Event) : Prop :=
  Forall (only_sends st) (started cfg env u)
  /\ Interleaved (map (fun h => events_of h st) (started cfg env u)) tr.

(** ** Vocabulary of the properties *)

Definition rateLimitReply (cfg : Config) (chat : Z) (entry : RateLimit) : Event :=
  SendMessage (ChatId chat) (escapeMarkdownV2 (rateLimitMessage cfg entry)) true NoMarkup.

Definition is_hex_digit (c : ascii) : bool := is_digit c || in_range 97 102 c.

(** The ways the protocol can fail before an order id is obtained, with the
    exchange requests issued up to that point and the text of the error
    that reaches the [catch] block. *)
Inductive ConvertFails (cfg : Config) (env : Env) (st : State) (chat : Z)
    (fromA toA : string) (amt : number) : list Request -> string -> Prop :=
| quote_throws (message : string) :
    getConvertQuoteOptimized env fromA toA amt = Throw message ->
    ConvertFails cfg env st chat fromA toA amt [ConvertQuote fromA toA amt] message
| no_quote_id (quote : option string) :
    getConvertQuoteOptimized env fromA toA amt = Ok quote ->
    truthy_field quote = None ->
    ConvertFails cfg env st chat fromA toA amt [ConvertQuote fromA toA amt]
      (t cfg (userLang (userRateLimits st) chat) "convert_failed" "未能获取闪兑报价")
| accept_throws (quoteId message : string) :
    getConvertQuoteOptimized env fromA toA amt = Ok (Some quoteId) ->
    quoteId <> EmptyString ->
    acceptConvertQuote env quoteId = Throw message ->
    ConvertFails cfg env st chat fromA toA amt
      [ConvertQuote fromA toA amt; AcceptQuote quoteId] message
| no_order_id (quoteId : string) (acceptResult : option string) :
    getConvertQuoteOptimized env fromA toA amt = Ok (Some quoteId) ->
    quoteId <> EmptyString ->
    acceptConvertQuote env quoteId = Ok acceptResult ->
    truthy_field acceptResult = None ->
    ConvertFails cfg env st chat fromA toA amt
      [ConvertQuote fromA toA amt; AcceptQuote quoteId]
      (t cfg (userLang (userRateLimits st) chat) "convert_failed" "闪兑交易执行失败").

(** The ways the exchange can fail to cancel, with the text of the error. *)
Inductive CancelFails (env : Env) (oid : string) : string -> Prop :=
| cancel_throws (message : string) :
    cancelConvertLimitOrder env oid = Throw message -> CancelFails env oid message
| cancel_no_order_id (cancelResult : option string) :
    cancelConvertLimitOrder env oid = Ok cancelResult ->
    truthy_field cancelResult = None ->
    CancelFails env oid "限价单取消失败。".

Definition placeorder_handler (cfg : Config) (env : Env) (chat : Z) : TextHandler :=
  mkTextHandler 6 re_placeorder (on_placeorder cfg env chat).

Fixpoint string_forall (p : ascii -> bool) (s : string) : bool :=
  match s with
  | EmptyString => true
  | String c r => p c && string_forall p r
  end.

(** An asset symbol as the exchange writes them: a non-empty run of capital
    letters and digits. *)
Definition is_symbol (s : string) : bool :=
  truthy s && string_forall (fun c => is_upper c || is_digit c) s.

(** The next character, if any, does not belong to the class. *)
Definition stops (p : ascii -> bool) (s : string) : bool :=
  match s with
  | EmptyString => true
  | String c _ => negb (p c)
  end.

(** [m] only appends to the trace. *)
Definition grows {A} (m : M A) : Prop :=
  forall st e, e ∈ trace st -> e ∈ trace (snd (m st)).

(** [m] always leaves the event [e] in the trace. *)
Definition emits {A} (e : Event) (m : M A) : Prop :=
  forall st, e ∈ trace (snd (m st)).

(** What a chat shows for a MarkdownV2 text as far as escapes go: a
    backslash is dropped and makes the character after it literal. *)
Fixpoint unescape (text : string) : string :=
  match text with
  | EmptyString => EmptyString
  | String c r =>
      if Ascii.eqb c "\" then
        match r with
        | String d r' => String d (unescape r')
        | EmptyString => EmptyString
        end
      else String c (unescape r)
  end.

Definition menu_for (chat : Z) : Event :=
  SendMessage (ChatId chat) "请选择一个操作:" false menu_keyboard.

Definition convert_handler (cfg : Config) (env : Env) (chat : Z) : TextHandler :=
  mkTextHandler 4 re_convert (on_convert cfg env chat).

(** ** Sample worlds *)

(** A translation table standing in for the locale files. *)
Definition sample_t (lang key arg : string) : string :=
  match arg with
  | EmptyString => key
  | _ => key +:+ ": " +:+ arg
  end.

Definition sample_cfg : Config := main_config "1000" sample_t.

Definition sample_bytes : list ascii := map ascii_of_nat (seq 16 16).

Definition network_error : string := "getaddrinfo ENOTFOUND api.binance.com".

(** An exchange that cannot be reached. *)
Definition offline : Env :=
  mkEnv 0 "2024-01-01 00:00:00" sample_bytes
    (fun _ _ _ => Throw network_error) (fun _ => Throw network_error)
    (fun _ _ _ _ => Throw network_error) (fun _ => Throw network_error)
    (fun _ => Throw network_error) (fun _ => Throw network_error) Written.

(** An exchange that grants every request, at time [now]. *)
Definition online (now : Z) : Env :=
  mkEnv now "2024-01-01 00:00:00" sample_bytes
    (fun _ _ _ => Ok (Some "q1")) (fun _ => Ok (Some "o1"))
    (fun _ _ _ _ => Ok (Some "l1")) (fun oid => Ok (Some oid))
    (fun _ => Ok (Some [mkPairInfo "ETH" "BTC" "0.01" "100"]))
    (fun _ => Ok (Some [mkAssetPrecision "BTC" "8"])) Written.

Definition menu : Event := menu_for 7.

(** The registry holds no pair twice, in either direction. *)
Fixpoint set_semantics (assets : list Pair.t) : bool :=
  match assets with
  | [] => true
  | p :: rest =>
      negb (isSupported rest (Pair.fromAsset p) (Pair.toAsset p)) && set_semantics rest
  end.

Definition convert_request (now : Z) : Env * captures :=
  (online now, [Some "/convert ETH BTC 1"; Some "ETH"; Some "BTC"; Some "1"; None]).

Definition first_ten : list (Env * captures) :=
  map convert_request [0; 1000; 2000; 3000; 4000; 5000; 6000; 7000; 8000; 60000]%Z.

Definition pending_order : Order :=
  mkOrder "l1" 7 "ETH" "BTC" (Num 1 0) pending None "2024-01-01 00:00:00".

Definition with_pending : State := mkState [] (Registry []) ∅ [pending_order] [].

Definition cancel_l1 : captures := [Some "/cancelorder l1"; Some "l1"].

Definition reversed_registry : State :=
  mkState [Pair.mk "BTC" "ETH"] (Registry [Pair.mk "BTC" "ETH"]) ∅ [] [].

(** ** Vocabulary of the further properties *)

(** The text holds no character of the reserved set. *)
Definition no_reserved (text : string) : bool :=
  string_forall (fun c => negb (reserved c)) text.

(** The ways the exchange can fail to place a limit order, with the text of
    the error that reaches the [catch] block. *)
Inductive PlaceFails (env : Env) (fromA toA : string) (amt price : number) : string -> Prop :=
| place_throws (message : string) :
    placeConvertLimitOrder env fromA toA amt price = Throw message ->
    PlaceFails env fromA toA amt price message
| place_no_order_id (orderResult : option string) :
    placeConvertLimitOrder env fromA toA amt price = Ok orderResult ->
    truthy_field orderResult = None ->
    PlaceFails env fromA toA amt price "限价单创建失败。".

(** A user who has used up the quota of the current window. *)
Definition exhausted : State :=
  mkState [Pair.mk "ETH" "BTC"] (Registry [Pair.mk "ETH" "BTC"])
    (<[7%Z := mkRateLimit 10 0 "zh"]> ∅) [] [].

Definition place_eth_btc : captures :=
  [Some "/placeorder eth btc 2 0.05"; Some "eth"; Some "btc"; Some "2"; None;
   Some "0.05"; Some ".05"].

Definition order_at (oid : string) (chat : Z) (ts : string) : Order :=
  mkOrder oid chat "ETH" "BTC" (Num 1 0) completed None ts.

(** Two orders of chat 7 around one of chat 8. *)
Definition three_orders : State :=
  mkState [] (Registry []) ∅
    [order_at "a" 7 "2024-01-01 10:00:00"; order_at "b" 8 "2024-01-02 10:00:00";
     order_at "c" 7 "2024-01-03 10:00:00"] [].

(** A table that already holds, for chat 8, the order id that the exchange
    of [online] returns on the next conversion. *)
Definition held_o1 : Order := order_at "o1" 8 "2023-12-31 00:00:00".
Definition with_o1 : State := mkState [] (Registry []) ∅ [held_o1] [].

(** A registry with ETH/BTC and a table that already holds the order id that
    the exchange of [online] returns on the next limit order. *)
Definition holding_l1 : State :=
  mkState [Pair.mk "ETH" "BTC"] (Registry [Pair.mk "ETH" "BTC"]) ∅ [pending_order] [].

(** A registry whose one pair has an underscore in its first symbol, and one
    whose symbols are in lower case. *)
Definition underscore_registry : State :=
  mkState [Pair.mk "A_B" "C"] (Registry [Pair.mk "A_B" "C"]) ∅ [] [].
Definition lowercase_registry : State :=
  mkState [Pair.mk "eth" "btc"] (Registry [Pair.mk "eth" "btc"]) ∅ [] [].

Definition is_request (e : Event) : bool :=
  match e with
  | Exchange _ => true
  | _ => false
  end.

(** The two symbols a pair text [from:to] names, upper-cased as the admin
    handlers read them. *)
Definition pair_symbols (pair : string) : string * string :=
  let parts := map toUpperCase (split ":" pair) in
  (at_index parts 0, at_index parts 1).

(** A well-formed entry that /addassets may append to the registry [assets]. *)
Definition addable (assets : list Pair.t) (p : Pair.t) : Prop :=
  isSupported assets (Pair.fromAsset p) (Pair.toAsset p) = false
  /\ Pair.fromAsset p <> EmptyString /\ Pair.toAsset p <> EmptyString
  /\ toUpperCase (Pair.fromAsset p) = Pair.fromAsset p
  /\ toUpperCase (Pair.toAsset p) = Pair.toAsset p.

(** A disk that refuses the write. *)
Definition read_only_disk : Env :=
  mkEnv 0 "2024-01-01 00:00:00" sample_bytes
    (fun _ _ _ => Throw network_error) (fun _ => Throw network_error)
    (fun _ _ _ _ => Throw network_error) (fun _ => Throw network_error)
    (fun _ => Throw network_error) (fun _ => Throw network_error)
    (OpenFails "EACCES: permission denied").

(** A disk that fills up while the file is written. *)
Definition full_disk : Env :=
  mkEnv 0 "2024-01-01 00:00:00" sample_bytes
    (fun _ _ _ => Throw network_error) (fun _ => Throw network_error)
    (fun _ _ _ _ => Throw network_error) (fun _ => Throw network_error)
    (fun _ => Throw network_error) (fun _ => Throw network_error)
    (WriteFails "ENOSPC: no space left on device").

Definition add_ltc_usd : captures := [Some "/addassets ltc:usd"; Some "ltc:usd"].
Definition remove_eth_btc : captures := [Some "/removeassets eth:btc"; Some "eth:btc"].

(** The pattern can only match a text that begins with the character [c]. *)
Fixpoint starts_with_lit (c : ascii) (r : regex) : bool :=
  match r with
  | Lit d => Ascii.eqb d c
  | Cat r1 _ => starts_with_lit c r1
  | Group _ r1 => starts_with_lit c r1
  | Plus r1 => starts_with_lit c r1
  | _ => false
  end.

(** What the first [message] listener sends for a text that is no command:
    the answer to a menu label, or the localised unknown-command text. *)
Definition menu_listener_sends (cfg : Config) (chat : Z) (lang text : string) : list Event :=
  if String.eqb text "立即兑换" then [SendMessage (ChatId chat) prompt_convert false NoMarkup]
  else if String.eqb text "查看状态" then [SendMessage (ChatId chat) prompt_status false NoMarkup]
  else if String.eqb text "个人信息" then
    [SendMessage (ChatId chat) personal_info_text false NoMarkup]
  else if String.eqb text "帮助" then
    [SendMessage (ChatId chat) (escapeMarkdownV2 (t cfg lang "help.content" EmptyString))
       true NoMarkup]
  else
    [SendMessage (ChatId chat) (escapeMarkdownV2 (t cfg lang "unknown_command" EmptyString))
       true NoMarkup].

(** What the second [message] listener sends for a text that is no command:
    nothing for a menu label, its own unknown-command text and the menu
    otherwise. *)
Definition unknown_listener_sends (chat : Z) (text : string) : list Event :=
  if existsb (String.eqb text) ["立即兑换"; "查看状态"; "个人信息"; "帮助"] then []
  else
    [SendMessage (ChatId chat) (escapeMarkdownV2 unknownCommandMessage) true NoMarkup;
     menu_for chat].

(** The pair texts of an /exchangeinfo argument that name two symbols. *)
Definition well_formed_pair (pair : string) : bool :=
  truthy (fst (pair_symbols pair)) && truthy (snd (pair_symbols pair)).


(** The pair texts for which /exchangeinfo turns to the exchange: those that
    name two symbols whose pair the registry supports. *)
Definition asked_pairs (assets : list Pair.t) (pairs : list string) : list string :=
  List.filter (fun pair =>
      well_formed_pair pair
      && isSupported assets (fst (pair_symbols pair)) (snd (pair_symbols pair)))
    pairs.

(** A registry with BTC/ETH, and a message that asks about that pair, about
    a pair that is not in it, and about a text with an empty symbol. *)
Definition exchangeinfo_three : captures :=
  [Some "/exchangeinfo eth:btc,ltc:usd,:btc"; Some "eth:btc,ltc:usd,:btc"].




(** The pair text names two symbols whose pair the registry supports. *)
Definition in_registry (assets : list Pair.t) (pair : string) : bool :=
  well_formed_pair pair
  && isSupported assets (fst (pair_symbols pair)) (snd (pair_symbols pair)).

(** The entry for the pair text in the answer to the request numbered [i],
    when the request is answered and the answer holds one. *)
Definition pair_answer (env : Env) (i : nat) (pair : string) : option PairInfo :=
  match getExchangeInfo env i with
  | Ok (Some l) => find (matches_info (fst (pair_symbols pair)) (snd (pair_symbols pair))) l
  | _ => None
  end.

(** The entries that the answers hold for the pair texts of the registry,
    [i] being the number of the first text; and the texts reported as not
    found: those that name two symbols and are either not of the registry or
    without an entry in the answer. *)
Fixpoint pairs_found (env : Env) (assets : list Pair.t) (i : nat) (pairs : list string)
    : list PairInfo :=
  match pairs with
  | [] => []
  | text :: rest =>
      match (if in_registry assets text then pair_answer env i text else None) with
      | Some x => x :: pairs_found env assets (S i) rest
      | None => pairs_found env assets (S i) rest
      end
  end.

Fixpoint pairs_missing (env : Env) (assets : list Pair.t) (i : nat) (pairs : list string)
    : list string :=
  match pairs with
  | [] => []
  | text :: rest =>
      if negb (well_formed_pair text) then pairs_missing env assets (S i) rest
      else match (if in_registry assets text then pair_answer env i text else None) with
           | Some _ => pairs_missing env assets (S i) rest
           | None => text :: pairs_missing env assets (S i) rest
           end
  end.

Definition exchangeinfo_two : captures :=
  [Some "/exchangeinfo eth:btc,ltc:usd"; Some "eth:btc,ltc:usd"].

(** The pattern [r] matches the word [w], taking the match array from the
    first to the second: the declarative reading of the patterns, against
    which the backtracking matcher is checked. *)
Inductive matches : regex -> string -> captures -> captures -> Prop :=
| m_lit (c : ascii) (caps : captures) :
    matches (Lit c) (String c EmptyString) caps caps
| m_class (p : ascii -> bool) (c : ascii) (caps : captures) :
    p c = true -> matches (Class p) (String c EmptyString) caps caps
| m_cat (r1 r2 : regex) (w1 w2 : string) (c0 c1 c2 : captures) :
    matches r1 w1 c0 c1 -> matches r2 w2 c1 c2 -> matches (Cat r1 r2) (w1 +:+ w2) c0 c2
| m_plus_one (r : regex) (w : string) (c0 c1 : captures) :
    matches r w c0 c1 -> matches (Plus r) w c0 c1
| m_plus_more (r : regex) (w1 w2 : string) (c0 c1 c2 : captures) :
    matches r w1 c0 c1 -> matches (Plus r) w2 c1 c2 -> matches (Plus r) (w1 +:+ w2) c0 c2
| m_opt_some (r : regex) (w : string) (c0 c1 : captures) :
    matches r w c0 c1 -> matches (Opt r) w c0 c1
| m_opt_none (r : regex) (caps : captures) :
    matches (Opt r) EmptyString caps caps
| m_group (n : nat) (r : regex) (w : string) (c0 c1 : captures) :
    matches r w c0 c1 -> matches (Group n r) w c0 (<[n := Some w]> c1)
| m_end (caps : captures) :
    matches EndOfInput EmptyString caps caps
| m_eps (caps : captures) :
    matches Eps EmptyString caps caps.

(** A non-empty run of decimal digits. *)
Definition is_digits (s : string) : bool := truthy s && string_forall is_digit s.

(** A non-empty run of word characters. *)
Definition is_word_run (s : string) : bool := truthy s && string_forall is_word s.

(** A number that is neither [NaN] nor negative. *)
Definition is_amount (x : number) : Prop :=
  exists (mant : Z) (scale : nat), x = Num mant scale /\ (0 <= mant)%Z.

(** The value of a run of decimal digits read after the value [acc]. *)
Fixpoint digits_value (d : string) (acc : Z) : Z :=
  match d with
  | EmptyString => acc
  | String c r => digits_value r (acc * 10 + digit_val c)%Z
  end.

(** What pressing a Confirm button is meant to do: acknowledge the callback,
    run the conversion the button was made for, and show the menu again. *)
Definition confirmed_conversion (cfg : Config) (env : Env) (chat : Z) (id : string)
    (fromA toA : string) (amt : number) : M unit :=
  bind (emit (AnswerCallbackQuery id))
    (fun _ => bind (instantConvert cfg env chat fromA toA amt)
                (fun _ => sendPersistentMenu chat)).

(** * Properties *)

(** Replaces each pattern match on a closed text by its result. *)
Ltac eval_exec :=
  repeat match goal with
         | |- context [exec ?g ?r ?txt] =>
             let v := eval vm_compute in (exec g r txt) in
             replace (exec g r txt) with v by (vm_compute; reflexivity)
         end.

(** Splits a conjunction of closed facts and evaluates each. *)
Ltac evaluate :=
  intros;
  repeat match goal with |- _ /\ _ => split end;
  vm_compute; reflexivity.

(** ** Scenarios *)

Example convert_prompt :
  trace (run (processUpdate sample_cfg (online 0) (Message 7 "/convert ETH BTC 0.5"))
           (mkState [Pair.mk "ETH" "BTC"] (Registry [Pair.mk "ETH" "BTC"]) ∅ [] [])) =
    [SendMessage (ChatId 7) (escapeMarkdownV2 (confirmMessage "ETH" "BTC" (Num 5 1))) true
       (InlineKeyboard
          [[("确认兑换", "confirm_convert_ETH_BTC_0.5"); ("取消", "cancel_convert")]])].
Proof. vm_compute. reflexivity. Qed.

Example confirm_completes :
  orders (run (processUpdate sample_cfg (online 0)
                 (CallbackQuery 7 "cb" "confirm_convert_ETH_BTC_0.5")) emptyState) =
    [mkOrder "o1" 7 "ETH" "BTC" (Num 5 1) completed None "2024-01-01 00:00:00"].
Proof. vm_compute. reflexivity. Qed.

Example lowercase_is_normalised :
  exec 4 re_convert "/convert eth btc 0.50"
  = Some [Some "/convert eth btc 0.50"; Some "eth"; Some "btc"; Some "0.50"; Some ".50"]
  /\ toUpperCase "eth" = "ETH"
  /\ number_to_string (parseFloat "0.50") = "0.5".
Proof. evaluate. Qed.

Example limit_order_then_cancel :
  let placed := run (processUpdate sample_cfg (online 0) (Message 7 "/placeorder ETH BTC 2 0.05"))
                  reversed_registry in
  let canceled_l1 := run (processUpdate sample_cfg (online 0) (Message 7 "/cancelorder l1")) placed in
  orders placed = [mkOrder "l1" 7 "ETH" "BTC" (Num 2 0) pending None "2024-01-01 00:00:00"]
  /\ orders canceled_l1 =
       [mkOrder "l1" 7 "ETH" "BTC" (Num 2 0) canceled None "2024-01-01 00:00:00"]
  /\ trace canceled_l1 =
       trace placed ++
       [Exchange (CancelLimitOrder "l1");
        SendMessage (ChatId 7)
          (escapeMarkdownV2 ("✅ *限价单已取消！*" +:+ nl +:+ nl +:+ "*订单 ID:* l1")) true NoMarkup;
        menu].
Proof. evaluate. Qed.

Example menu_tap_is_answered_once :
  trace (run (processUpdate sample_cfg offline (Message 7 "查看状态")) emptyState) =
    [SendMessage (ChatId 7) prompt_status false NoMarkup].
Proof. vm_compute. reflexivity. Qed.

Lemma toUpperCase_idempotent (s : string) : toUpperCase (toUpperCase s) = toUpperCase s.
Proof.
  induction s as [| c r IH]; simpl; [reflexivity |]. rewrite IH. f_equal.
  unfold upper_char at 1. destruct (is_lower (upper_char c)) eqn:E; [| reflexivity].
  exfalso. revert E. unfold upper_char.
  destruct (is_lower c) eqn:Hc; [| congruence].
  revert Hc. unfold is_lower, in_range. rewrite N_ascii_embedding.
  - intros Hc E. apply andb_true_iff in Hc as [H1 H2], E as [H3 H4].
    apply N.leb_le in H1, H2, H3, H4. lia.
  - assert (N_of_ascii c < 256)%N by apply N_ascii_bounded. lia.
Qed.

(** ** The supported-pair check *)

(** C9: for every registry and every two symbols, the supported-pair check
    that /convert and /placeorder both perform gives the same answer for
    (A, B) and for (B, A). *)
Theorem isSupported_symmetric (assets : list Pair.t) (A B : string) :
  isSupported assets A B = isSupported assets B A.
Proof.
  unfold isSupported.
  induction assets as [| p rest IH]; simpl; [reflexivity |].
  rewrite IH. f_equal. apply orb_comm.
Qed.

(** ** The rate limiter *)

Section RateLimiter.

Variable cfg : Config.
Variable chat : Z.

Lemma on_convert_unfold (env : Env) (m : captures) (st : State) :
  let entry := rate_limit_step cfg (Date_now env) (userRateLimits st !! chat) in
  let st' := with_userRateLimits (<[chat := entry]> (userRateLimits st)) st in
  on_convert cfg env chat m st =
    if (count entry >? RATE_LIMIT_MAX_REQUESTS cfg)%Z
    then reply chat (rateLimitMessage cfg entry) st'
    else convert_checked chat (toUpperCase (group m 1)) (toUpperCase (group m 2))
           (parseFloat (group m 3)) st'.
Proof.
  intros entry st'. unfold on_convert, bind, gets, set_userRateLimits. simpl.
  fold entry. destruct (count entry >? RATE_LIMIT_MAX_REQUESTS cfg)%Z; reflexivity.
Qed.

Lemma convert_checked_limits (fromA toA : string) (amt : number) (st : State) :
  userRateLimits (run (convert_checked chat fromA toA amt) st) = userRateLimits st.
Proof.
  unfold run, convert_checked, bind, gets, reply, sendMessage, emit. simpl.
  destruct (negb _); reflexivity.
Qed.

Lemma on_convert_entry (env : Env) (m : captures) (st : State) :
  userRateLimits (run (on_convert cfg env chat m) st) !! chat =
    Some (rate_limit_step cfg (Date_now env) (userRateLimits st !! chat)).
Proof.
  unfold run. rewrite on_convert_unfold.
  destruct (_ >? _)%Z.
  - simpl. apply lookup_insert_eq.
  - fold (run (convert_checked chat (toUpperCase (group m 1)) (toUpperCase (group m 2))
                (parseFloat (group m 3)))
              (with_userRateLimits
                 (<[chat:=rate_limit_step cfg (Date_now env) (userRateLimits st !! chat)]>
                    (userRateLimits st)) st)).
    rewrite convert_checked_limits. simpl. apply lookup_insert_eq.
Qed.

(** Requests that all fall inside the current window only add to the
    count. *)
Lemma converts_within_window (reqs : list (Env * captures)) :
  forall (st : State) (r : RateLimit),
    userRateLimits st !! chat = Some r ->
    Forall (fun q => (Date_now (fst q) - lastReset r <= RATE_LIMIT_WINDOW_MS cfg)%Z) reqs ->
    userRateLimits (converts cfg chat reqs st) !! chat =
      Some (mkRateLimit (count r + Z.of_nat (length reqs)) (lastReset r) (lang r)).
Proof.
  induction reqs as [| [env m] rest IH]; intros st r Hr Hall.
  - simpl. rewrite Hr. destruct r; simpl. do 2 f_equal. lia.
  - inversion Hall as [| q l Hq Hrest]; subst. simpl in Hq.
    cbn [converts].
    erewrite IH; [| rewrite on_convert_entry, Hr; reflexivity |].
    + simpl. destruct (_ >? _)%Z eqn:E; [lia |]. simpl.
      do 2 f_equal. lia.
    + simpl. destruct (_ >? _)%Z eqn:E; [lia |]. simpl. exact Hrest.
Qed.

End RateLimiter.

(** C2: with the limits of [main.js] (10 requests per 60000 ms) the limiter
    of /convert is a fixed-window counter per chat id.
    (a) One request: an existing entry is reset to count 1 and window start
        [now] when [now - lastReset > 60000], and has its count incremented
        otherwise; when the new count exceeds 10 the only effect besides the
        counter is the rate-limit reply, whatever the registry holds; when it
        does not, the handler goes on to the pair check.
    (b) Eleven requests of which the first opens the count at 1 and the
        others fall inside that window: each of the first ten goes on to the
        pair check, the count stands at 10 after them, and the eleventh is
        rejected.
    (c) A request that arrives after the window has elapsed is accepted with
        count 1 and the window start moved to [now]. *)
Theorem rate_limiter_fixed_window (admin : string) (tr : string -> string -> string -> string)
    (chat : Z) :
  let cfg := main_config admin tr in
  let checked (q : Env * captures) :=
    convert_checked chat (toUpperCase (group (snd q) 1)) (toUpperCase (group (snd q) 2))
      (parseFloat (group (snd q) 3)) in
  let step (q : Env * captures) (st : State) :=
    rate_limit_step cfg (Date_now (fst q)) (userRateLimits st !! chat) in
  let counted (q : Env * captures) (st : State) :=
    with_userRateLimits (<[chat := step q st]> (userRateLimits st)) st in
  (forall (q : Env * captures) (st : State),
      (forall r, userRateLimits st !! chat = Some r ->
         step q st =
           if (Date_now (fst q) - lastReset r >? 60000)%Z
           then mkRateLimit 1 (Date_now (fst q)) (lang r)
           else mkRateLimit (count r + 1) (lastReset r) (lang r))
      /\ ((10 < count (step q st))%Z ->
          run (on_convert cfg (fst q) chat (snd q)) st =
            with_trace (trace st ++ [rateLimitReply cfg chat (step q st)]) (counted q st))
      /\ ((count (step q st) <= 10)%Z ->
          on_convert cfg (fst q) chat (snd q) st = checked q (counted q st)))
  /\ (forall (st : State) (first : Env * captures) (rest : list (Env * captures))
        (last : Env * captures),
      count (step first st) = 1%Z ->
      length rest = 9 ->
      Forall (fun q => (Date_now (fst q) - lastReset (step first st) <= 60000)%Z)
        (rest ++ [last]) ->
      let st10 := converts cfg chat (first :: rest) st in
      (forall pre q post, first :: rest = pre ++ q :: post ->
         on_convert cfg (fst q) chat (snd q) (converts cfg chat pre st) =
           checked q (counted q (converts cfg chat pre st)))
      /\ userRateLimits st10 !! chat =
           Some (mkRateLimit 10 (lastReset (step first st)) (lang (step first st)))
      /\ count (step last st10) = 11%Z
      /\ run (on_convert cfg (fst last) chat (snd last)) st10 =
           with_trace (trace st10 ++ [rateLimitReply cfg chat (step last st10)])
             (counted last st10))
  /\ (forall (q : Env * captures) (st : State) (r : RateLimit),
      userRateLimits st !! chat = Some r ->
      (60000 < Date_now (fst q) - lastReset r)%Z ->
      step q st = mkRateLimit 1 (Date_now (fst q)) (lang r)
      /\ on_convert cfg (fst q) chat (snd q) st = checked q (counted q st)).
Proof.
  intros cfg checked step counted.
  assert (Hone : forall q st,
             ((10 < count (step q st))%Z ->
              run (on_convert cfg (fst q) chat (snd q)) st =
                with_trace (trace st ++ [rateLimitReply cfg chat (step q st)]) (counted q st))
             /\ ((count (step q st) <= 10)%Z ->
                 on_convert cfg (fst q) chat (snd q) st = checked q (counted q st))).
  { intros q st. unfold run. rewrite on_convert_unfold. fold (step q st). fold (counted q st).
    change (RATE_LIMIT_MAX_REQUESTS cfg) with 10%Z.
    split; intros H.
    - destruct (Z.gtb_spec (count (step q st)) 10); [reflexivity | lia].
    - destruct (Z.gtb_spec (count (step q st)) 10); [lia | reflexivity]. }
  assert (Hwithin : forall q st r,
             userRateLimits st !! chat = Some r ->
             (Date_now (fst q) - lastReset r <= 60000)%Z ->
             step q st = mkRateLimit (count r + 1) (lastReset r) (lang r)).
  { intros q st r Hr Hle. unfold step, rate_limit_step. rewrite Hr.
    change (RATE_LIMIT_WINDOW_MS cfg) with 60000%Z.
    destruct (Z.gtb_spec (Date_now (fst q) - lastReset r) 60000); [lia | reflexivity]. }
  split; [| split].
  - intros q st. split; [| apply Hone].
    intros r Hr. unfold step, rate_limit_step. rewrite Hr. reflexivity.
  - intros st first rest last Hc Hlen Hall st10.
    apply Forall_app in Hall as [Hrest Hlast].
    assert (H1 : userRateLimits (run (on_convert cfg (fst first) chat (snd first)) st) !! chat
                 = Some (step first st)) by apply on_convert_entry.
    assert (Hpre : forall pre' , pre' `prefix_of` rest ->
               userRateLimits (converts cfg chat (first :: pre') st) !! chat =
                 Some (mkRateLimit (1 + Z.of_nat (length pre')) (lastReset (step first st))
                         (lang (step first st)))).
    { intros pre' [post' Hpp]. destruct first as [env1 m1]. cbn [converts].
      erewrite converts_within_window; [rewrite Hc; reflexivity | exact H1 |].
      subst rest. apply Forall_app in Hrest as [Hp _]. exact Hp. }
    assert (H10 : userRateLimits st10 !! chat =
                 Some (mkRateLimit 10 (lastReset (step first st)) (lang (step first st)))).
    { unfold st10. rewrite (Hpre rest) by reflexivity. rewrite Hlen. reflexivity. }
    assert (H11 : step last st10 =
                    mkRateLimit 11 (lastReset (step first st)) (lang (step first st))).
    { inversion Hlast as [| x l Hx _]; subst. rewrite (Hwithin last st10 _ H10 Hx).
      reflexivity. }
    split; [| split; [exact H10 | split]].
    + intros pre q post Hsplit. apply Hone.
      destruct pre as [| p pre'].
      * simpl in Hsplit. inversion Hsplit; subst. cbn [converts]. lia.
      * simpl in Hsplit. inversion Hsplit as [[Hp Hr]]. subst p.
        assert (Hq : (Date_now (fst q) - lastReset (step first st) <= 60000)%Z).
        { rewrite Hr in Hrest. apply Forall_app in Hrest as [_ Hq].
          inversion Hq; assumption. }
        rewrite (Hwithin q _ _ (Hpre pre' ltac:(exists (q :: post); exact Hr)) Hq).
        simpl. rewrite Hr, length_app in Hlen. simpl in Hlen. lia.
    + rewrite H11. reflexivity.
    + apply Hone. rewrite H11. simpl. lia.
  - intros q st r Hr Hgt.
    assert (Hs : step q st = mkRateLimit 1 (Date_now (fst q)) (lang r)).
    { unfold step, rate_limit_step. rewrite Hr.
      change (RATE_LIMIT_WINDOW_MS cfg) with 60000%Z.
      destruct (Z.gtb_spec (Date_now (fst q) - lastReset r) 60000); [reflexivity | lia]. }
    split; [exact Hs |]. apply Hone. rewrite Hs. simpl. lia.
Qed.

(** ** Instant conversion *)

#[local] Arguments truthy_field : simpl never.
#[local] Arguments db_insert : simpl never.
#[local] Arguments escapeMarkdownV2 : simpl never.
#[local] Arguments String.append : simpl never.

Lemma truthy_field_some (s : string) : s <> EmptyString -> truthy_field (Some s) = Some s.
Proof. destruct s; [congruence | reflexivity]. Qed.

Lemma hex_digit_is_hex (n : N) : (n < 16)%N -> is_hex_digit (hex_digit n) = true.
Proof.
  intros H.
  assert (Hcases : n ∈ map N.of_nat (seq 0 16)).
  { apply list_elem_of_fmap. exists (N.to_nat n). split; [lia |].
    apply list_elem_of_In, in_seq. lia. }
  simpl in Hcases.
  repeat (apply elem_of_cons in Hcases as [-> | Hcases]; [reflexivity |]).
  inversion Hcases.
Qed.

Lemma to_hex_is_hex (bytes : list ascii) :
  Forall (fun c => is_hex_digit c = true) (list_ascii_of_string (to_hex bytes)).
Proof.
  induction bytes as [| b rest IH]; simpl; [constructor |].
  constructor; [| constructor; [| exact IH]]; apply hex_digit_is_hex.
  - assert (N_of_ascii b < 256)%N by apply N_ascii_bounded.
    apply N.Div0.div_lt_upper_bound. lia.
  - apply N.mod_lt. lia.
Qed.

Lemma db_insert_fresh (o : Order) (st : State) :
  has_order (orderId o) (orders st) = false ->
  db_insert o st =
    (Ok tt, mkState (supportedAssets st) (assetsFile st) (userRateLimits st)
              (orders st ++ [o]) (trace st)).
Proof. intros H. unfold db_insert. rewrite H. reflexivity. Qed.

Lemma to_hex_length (bytes : list ascii) :
  String.length (to_hex bytes) = 2 * length bytes.
Proof.
  induction bytes as [| b rest IH]; [reflexivity |].
  cbn [to_hex String.length length]. rewrite IH. lia.
Qed.

Lemma db_insert_held (o : Order) (st : State) :
  has_order (orderId o) (orders st) = true -> db_insert o st = (Ok tt, st).
Proof. intros H. unfold db_insert. rewrite H. reflexivity. Qed.

(** C1, as amended: the Instant Conversion protocol run by a confirm
    callback.  When the quote request returns a quote id and accepting it
    returns an order id that is not yet a key of the order table, exactly
    one row is added: that order id, the requesting chat, the given assets
    and amount, status [completed]; the user gets the success message.
    When a step fails (the quote request throws, no quote id, the accept
    request throws, no order id) and the random id drawn is not yet a key of
    the table, exactly one row is added under that id, with status [failed],
    the error text after the MarkdownV2 escaping pass, and the amount or 0;
    the user and the admin are each sent the error.  The random id is the
    hexadecimal print of the 16 bytes drawn: 32 hexadecimal digits. *)
Theorem instantConvert_protocol (cfg : Config) (env : Env) (st : State) (chat : Z)
    (fromA toA : string) (amt : number) :
  let st' := run (instantConvert cfg env chat fromA toA amt) st in
  (forall quoteId oid : string,
      getConvertQuoteOptimized env fromA toA amt = Ok (Some quoteId) ->
      quoteId <> EmptyString ->
      acceptConvertQuote env quoteId = Ok (Some oid) ->
      oid <> EmptyString ->
      has_order oid (orders st) = false ->
      orders st' =
        orders st ++ [mkOrder oid chat fromA toA amt completed None (CURRENT_TIMESTAMP env)]
      /\ trace st' =
           trace st ++
           [Exchange (ConvertQuote fromA toA amt); Exchange (AcceptQuote quoteId);
            SendMessage (ChatId chat)
              (escapeMarkdownV2 (convertSuccessMessage fromA toA amt oid)) true NoMarkup;
            SendMessage (ChatId chat) "请选择一个操作:" false menu_keyboard])
  /\ (forall (reqs : list Request) (message : string),
      ConvertFails cfg env st chat fromA toA amt reqs message ->
      has_order (random_id env) (orders st) = false ->
      orders st' =
        orders st ++
        [mkOrder (random_id env) chat (or_default fromA "Unknown") (or_default toA "Unknown")
           (or_zero amt) failed (Some (escapeMarkdownV2 message)) (CURRENT_TIMESTAMP env)]
      /\ Forall (fun c => is_hex_digit c = true) (list_ascii_of_string (random_id env))
      /\ trace st' =
           trace st ++ map Exchange reqs ++
           [SendMessage (ChatId chat) (escapeMarkdownV2 (failedMessage message)) true NoMarkup;
            SendMessage (ChatName (ADMIN_CHAT_ID cfg))
              ("⚠️ *错误报告:*" +:+ nl +:+ escapeMarkdownV2 ("闪兑失败: " +:+ message))
              true NoMarkup;
            SendMessage (ChatId chat) "请选择一个操作:" false menu_keyboard])
  /\ random_id env = to_hex (take 16 (randomBytes env))
  /\ (16 <= length (randomBytes env) -> String.length (random_id env) = 32).
Proof.
  intros st'.
  assert (Hid : random_id env = to_hex (take 16 (randomBytes env))
                /\ (16 <= length (randomBytes env) -> String.length (random_id env) = 32)).
  { split; [reflexivity |]. intros Hlen. unfold random_id.
    rewrite to_hex_length, length_take. lia. }
  split; [| split; [| exact Hid]].
  - intros quoteId oid Hq Hqne Ha Hone Hfresh. subst st'.
    unfold run, instantConvert, try_catch, bind, gets, call, emit, lift. simpl.
    rewrite Hq. simpl. rewrite (truthy_field_some _ Hqne). simpl.
    rewrite Ha. simpl. rewrite (truthy_field_some _ Hone).
    rewrite db_insert_fresh by exact Hfresh. simpl.
    split; [reflexivity |]. rewrite <- !app_assoc. reflexivity.
  - intros reqs message Hfail Hfresh. subst st'.
    split; [| split; [apply to_hex_is_hex |]];
      unfold run, instantConvert, try_catch, bind, gets, call, emit, lift; simpl;
      destruct Hfail as [msg Hq | quote Hq Hnone | quoteId msg Hq Hqne Ha
                         | quoteId acceptResult Hq Hqne Ha Hnone];
      rewrite Hq; simpl;
      try rewrite Hnone; try rewrite (truthy_field_some _ Hqne); simpl;
      try (rewrite Ha; simpl); try rewrite Hnone; simpl;
      unfold failed_order; rewrite db_insert_fresh by exact Hfresh; simpl;
      rewrite <- ?app_assoc; reflexivity.
Qed.

(** ** /cancelorder *)

Lemma update_status_lookup (s : Status) (oid : string) (l : list Order) :
  forall (i : nat) (o : Order),
    l !! i = Some o ->
    map (fun o => if String.eqb (orderId o) oid then set_status s o else o) l !! i =
      Some (if String.eqb (orderId o) oid then set_status s o else o).
Proof.
  induction l as [| x rest IH]; intros i o H; [discriminate |].
  destruct i as [| j]; simpl in *.
  - inversion H; subst. reflexivity.
  - apply IH. exact H.
Qed.

(** C7: /cancelorder changes nothing but the status of the matching row.
    When the exchange cancels (its answer carries an order id), every row
    keeps its position and all of orderId, chatId, fromAsset, toAsset,
    amount, error and timestamp; the status becomes [canceled] on the rows
    whose id is the one given and is kept on the others.  When the exchange
    fails, the whole state but the trace is as before, and the trace grows by
    the request, the error reply and the admin notification. *)
Theorem cancelorder_frame (cfg : Config) (env : Env) (chat : Z) (m : captures) (st : State) :
  let oid := group m 1 in
  let st' := run (on_cancelorder cfg env chat m) st in
  (forall r : string,
      cancelConvertLimitOrder env oid = Ok (Some r) ->
      r <> EmptyString ->
      length (orders st') = length (orders st)
      /\ forall (i : nat) (o : Order),
           orders st !! i = Some o ->
           exists o' : Order,
             orders st' !! i = Some o'
             /\ orderId o' = orderId o /\ chatId o' = chatId o
             /\ fromAsset o' = fromAsset o /\ toAsset o' = toAsset o
             /\ amount o' = amount o /\ error o' = error o
             /\ timestamp o' = timestamp o
             /\ status o' = if String.eqb (orderId o) oid then canceled else status o)
  /\ (forall message : string,
      CancelFails env oid message ->
      st' =
        with_trace
          (trace st ++
           [Exchange (CancelLimitOrder oid);
            SendMessage (ChatId chat) (escapeMarkdownV2 (failedMessage message)) true NoMarkup;
            SendMessage (ChatName (ADMIN_CHAT_ID cfg))
              ("⚠️ *错误报告:*" +:+ nl +:+ escapeMarkdownV2 ("限价单取消失败: " +:+ message))
              true NoMarkup])
          st).
Proof.
  intros oid st'. split.
  - intros r Hc Hr.
    assert (Ho : orders st' =
                 map (fun o => if String.eqb (orderId o) oid then set_status canceled o else o)
                   (orders st)).
    { subst st'. unfold run, on_cancelorder, try_catch, bind, call, emit, lift. simpl.
      fold oid. rewrite Hc. simpl. rewrite (truthy_field_some _ Hr). reflexivity. }
    rewrite Ho. split; [apply length_map |].
    intros i o Hi. eexists. split; [apply update_status_lookup; exact Hi |].
    destruct (String.eqb (orderId o) oid); simpl; repeat split; reflexivity.
  - intros message Hfail. subst st'.
    unfold run, on_cancelorder, try_catch, bind, call, emit, lift. simpl. fold oid.
    destruct Hfail as [msg Hc | res Hc Hnone]; rewrite Hc; simpl; try rewrite Hnone; simpl;
      unfold with_trace; rewrite <- ?app_assoc; reflexivity.
Qed.

(** ** The admin guard *)

(** C8: /addassets and /removeassets from a chat whose id is not the admin
    chat id only answer with the permission-denied text: the registry, its
    file, the order table and the rate-limit table are as before, and the one
    message that is sent goes to the sender, so the admin is not notified.
    The dispatcher as a whole does the same on the message
    [/addassets ltc:usd]. *)
Theorem admin_commands_denied (cfg : Config) (env : Env) (chat : Z) (m : captures)
    (st : State) :
  Z_to_string chat <> ADMIN_CHAT_ID cfg ->
  let denied (text : string) :=
    with_trace (trace st ++ [SendMessage (ChatId chat) text true NoMarkup]) st in
  (run (on_addassets cfg env chat m) st = denied (escapeMarkdownV2 permissionDeniedMessage)
   /\ run (on_removeassets cfg env chat m) st = denied permissionDeniedMessage)
  /\ run (processUpdate cfg env (Message chat "/addassets ltc:usd")) st =
       denied (escapeMarkdownV2 permissionDeniedMessage)
  /\ (forall text : string,
        supportedAssets (denied text) = supportedAssets st
        /\ assetsFile (denied text) = assetsFile st
        /\ orders (denied text) = orders st
        /\ forall (name text' : string) (md : bool) (mk : Markup),
             SendMessage (ChatName name) text' md mk ∈ trace (denied text) ->
             SendMessage (ChatName name) text' md mk ∈ trace st).
Proof.
  intros Hne denied.
  assert (Hg : isAdmin cfg chat = false).
  { unfold isAdmin. apply String.eqb_neq. exact Hne. }
  split; [| split].
  - split.
    + unfold run, on_addassets. rewrite Hg. reflexivity.
    + unfold run, on_removeassets. rewrite Hg. reflexivity.
  - unfold run, processUpdate, textRegexpCallbacks. cbn [map run_all].
    unfold onText. cbn [groups pattern callback]. eval_exec.
    unfold bind, unhandled, try_catch, ret, on_addassets. simpl.
    rewrite Hg. reflexivity.
  - intros text. repeat split.
    intros name text' md mk Hin. simpl in Hin.
    apply elem_of_app in Hin as [Hin | Hin]; [exact Hin |].
    apply list_elem_of_singleton in Hin. discriminate.
Qed.

(** ** /placeorder *)

Lemma not_positive_rejected (x : number) :
  is_positive x = false -> isNaN x || le_zero x = true.
Proof.
  destruct x as [| mant scale]; simpl; [reflexivity |].
  intros H. apply Z.ltb_ge in H. apply Z.leb_le. exact H.
Qed.

(** C6: a /placeorder whose amount or price is not a positive number gets no
    further than the validation.  For every match array whose amount or
    price does not parse to a positive number the handler only sends the
    rejection; hence for every message text on which the command pattern
    either fails or captures such an amount or price, the registration
    leaves the order table untouched and issues no exchange request (the
    state is as before, up to the rejection message).  The text
    [/placeorder XRP USD -5 0.5] is one the pattern does not match at all,
    and the dispatcher as a whole leaves the state as it was on it. *)
Theorem placeorder_rejects_nonpositive (cfg : Config) (env : Env) (chat : Z) (st : State) :
  let rejected :=
    with_trace (trace st ++ [SendMessage (ChatId chat) invalidNumbersMessage true NoMarkup]) st in
  let not_positive (m : captures) :=
    is_positive (parseFloat (group m 3)) && is_positive (parseFloat (group m 5)) = false in
  (forall m : captures,
      not_positive m -> run (on_placeorder cfg env chat m) st = rejected)
  /\ (forall text : string,
      (forall m, exec 6 re_placeorder text = Some m -> not_positive m) ->
      let st' := run (onText cfg text (placeorder_handler cfg env chat)) st in
      (st' = st \/ st' = rejected)
      /\ orders st' = orders st
      /\ forall r : Request, Exchange r ∈ trace st' -> Exchange r ∈ trace st)
  /\ exec 6 re_placeorder "/placeorder XRP USD -5 0.5" = None
  /\ run (processUpdate cfg env (Message chat "/placeorder XRP USD -5 0.5")) st = st.
Proof.
  intros rejected not_positive.
  assert (Hm : forall m, not_positive m -> run (on_placeorder cfg env chat m) st = rejected).
  { intros m Hnp. unfold run, on_placeorder.
    assert (Hv : isNaN (parseFloat (group m 3)) || le_zero (parseFloat (group m 3))
                 || isNaN (parseFloat (group m 5)) || le_zero (parseFloat (group m 5)) = true).
    { unfold not_positive in Hnp. apply andb_false_iff in Hnp as [H | H];
        apply not_positive_rejected in H.
      - rewrite H. reflexivity.
      - rewrite <- orb_assoc, H. apply orb_true_r. }
    rewrite Hv. reflexivity. }
  split; [exact Hm | split; [| split; [reflexivity |]]].
  2: { unfold run, processUpdate, textRegexpCallbacks. cbn [map run_all].
       unfold onText. cbn [groups pattern callback]. eval_exec. reflexivity. }
  intros text Hall st'.
  assert (Hcases : st' = st \/ st' = rejected).
  { subst st'. unfold onText, placeorder_handler. cbn [groups pattern callback].
    destruct (exec 6 re_placeorder text) as [m |] eqn:E.
    - right. specialize (Hm m (Hall m eq_refl)). unfold run in *. unfold unhandled, try_catch.
      destruct (on_placeorder cfg env chat m st) as [[[] | e] s1] eqn:E1; simpl in *.
      + exact Hm.
      + unfold on_placeorder in E1. revert E1.
        destruct (_ || _ || _ || _) eqn:Ev; [discriminate |].
        specialize (Hall m eq_refl). unfold not_positive in Hall.
        apply andb_false_iff in Hall as [H | H]; apply not_positive_rejected in H.
        * rewrite H in Ev. discriminate.
        * rewrite <- orb_assoc, H, orb_true_r in Ev. discriminate.
    - left. reflexivity. }
  split; [exact Hcases |].
  destruct Hcases as [-> | ->]; split; try reflexivity; try tauto.
  intros r Hin. simpl in Hin. apply elem_of_app in Hin as [Hin | Hin]; [exact Hin |].
  apply list_elem_of_singleton in Hin. discriminate.
Qed.

(** ** Matching a well-formed command *)

Section RegexLemmas.

Lemma append_length (a b : string) :
  String.length (a +:+ b) = String.length a + String.length b.
Proof. induction a as [| c a IH]; simpl; [reflexivity | rewrite IH; reflexivity]. Qed.

Lemma substring_prefix (a b : string) : substring 0 (String.length a) (a +:+ b) = a.
Proof.
  induction a as [| c a IH]; simpl.
  - destruct b; reflexivity.
  - rewrite IH. reflexivity.
Qed.

Lemma consumed_append (a b : string) : consumed (a +:+ b) b = a.
Proof.
  unfold consumed. rewrite append_length.
  replace (String.length a + String.length b - String.length b)
    with (String.length a) by lia.
  apply substring_prefix.
Qed.

Lemma consumed_all (a : string) : consumed a EmptyString = a.
Proof.
  unfold consumed. simpl. rewrite Nat.sub_0_r.
  induction a as [| c a IH]; simpl; [reflexivity | rewrite IH; reflexivity].
Qed.

Lemma rmatch_lits (p s : string) (caps : captures) (k : cont) :
  rmatch (lits p) (p +:+ s) caps k = k s caps.
Proof.
  induction p as [| c p IH]; simpl; [reflexivity |].
  rewrite Ascii.eqb_refl. exact IH.
Qed.

Variable p : ascii -> bool.

(** [step] behaves as the matcher of the class [p]. *)
Variable step : string -> captures -> cont -> option captures.
Hypothesis step_nil : forall caps k, step EmptyString caps k = None.
Hypothesis step_cons :
  forall c s caps k, step (String c s) caps k = if p c then k s caps else None.

Lemma plus_loop_stops (fuel : nat) (rest : string) (caps : captures) (k : cont) :
  stops p rest = true -> plus_loop step fuel rest caps k = None.
Proof.
  intros H. destruct fuel as [| f]; [reflexivity |].
  destruct rest as [| c r]; simpl in *; [apply step_nil |].
  rewrite step_cons. destruct (p c); [discriminate | reflexivity].
Qed.

(** A greedy class repetition takes the whole run when what follows the run
    lets the rest of the pattern succeed. *)
Lemma plus_loop_greedy (w : string) :
  forall (fuel : nat) (rest : string) (caps : captures) (k : cont) (x : captures),
    truthy w = true ->
    string_forall p w = true ->
    String.length w <= fuel ->
    stops p rest = true ->
    k rest caps = Some x ->
    plus_loop step fuel (w +:+ rest) caps k = Some x.
Proof.
  induction w as [| c w IH]; intros fuel rest caps k x Hne Hall Hfuel Hstop Hk;
    [discriminate |].
  simpl in Hall. apply andb_true_iff in Hall as [Hc Hall].
  destruct fuel as [| f]; [simpl in Hfuel; lia |].
  simpl in Hfuel. change (String c w +:+ rest) with (String c (w +:+ rest)).
  cbn [plus_loop]. rewrite step_cons, Hc.
  replace (String.length (w +:+ rest) <? String.length (String c (w +:+ rest)))
    with true by (symmetry; apply Nat.ltb_lt; simpl; lia).
  destruct w as [| d w'].
  - change (EmptyString +:+ rest) with rest.
    rewrite plus_loop_stops by exact Hstop. simpl. exact Hk.
  - rewrite (IH f rest caps k x); [reflexivity | reflexivity | exact Hall | lia
                                   | exact Hstop | exact Hk].
Qed.

End RegexLemmas.

Lemma rmatch_plus_greedy (p : ascii -> bool) (w rest : string) (caps : captures)
    (k : cont) (x : captures) :
  truthy w = true ->
  string_forall p w = true ->
  stops p rest = true ->
  k rest caps = Some x ->
  rmatch (Plus (Class p)) (w +:+ rest) caps k = Some x.
Proof.
  intros Hne Hall Hstop Hk. cbn [rmatch].
  apply (plus_loop_greedy p); try assumption; try reflexivity.
  rewrite append_length. lia.
Qed.

Lemma symbol_is_word (s : string) :
  string_forall (fun c => is_upper c || is_digit c) s = true ->
  string_forall is_word s = true.
Proof.
  induction s as [| c r IH]; simpl; [reflexivity |].
  intros H. apply andb_true_iff in H as [Hc Hr]. rewrite (IH Hr), andb_true_r.
  unfold is_word. apply orb_true_iff in Hc as [-> | ->]; simpl;
    rewrite ?orb_true_r; reflexivity.
Qed.

Lemma symbol_upper (s : string) :
  string_forall (fun c => is_upper c || is_digit c) s = true -> toUpperCase s = s.
Proof.
  induction s as [| c r IH]; simpl; [reflexivity |].
  intros H. apply andb_true_iff in H as [Hc Hr]. rewrite (IH Hr). f_equal.
  unfold upper_char. replace (is_lower c) with false; [reflexivity |].
  symmetry. revert Hc. unfold is_upper, is_digit, is_lower, in_range.
  destruct (N_of_ascii c) eqn:E; [reflexivity |]. intros Hc.
  apply not_true_is_false. intros Hl.
  apply andb_true_iff in Hl as [Hl1 Hl2]. apply N.leb_le in Hl1, Hl2.
  apply orb_true_iff in Hc as [Hc | Hc]; apply andb_true_iff in Hc as [H1 H2];
    apply N.leb_le in H1, H2; lia.
Qed.

Lemma symbol_no_underscore (s : string) :
  string_forall (fun c => is_upper c || is_digit c) s = true -> includes "_" s = false.
Proof.
  induction s as [| c r IH]; simpl; [reflexivity |].
  intros H. apply andb_true_iff in H as [Hc Hr]. rewrite (IH Hr), orb_false_r.
  destruct (Ascii.eqb_spec c "_") as [-> | Hne]; [discriminate | reflexivity].
Qed.

Lemma rmatch_decimal_zero (caps : captures) (k : cont) :
  rmatch (decimal 3) "0" caps k = k EmptyString (<[3 := Some "0"]> caps).
Proof. reflexivity. Qed.

(** The match array of [/convert A B 0]. *)
Lemma exec_convert_zero (A B : string) :
  is_symbol A = true ->
  is_symbol B = true ->
  exec 4 re_convert ("/convert " +:+ A +:+ " " +:+ B +:+ " 0") =
    Some [Some ("/convert " +:+ A +:+ " " +:+ B +:+ " 0"); Some A; Some B; Some "0"; None].
Proof.
  intros HA HB.
  apply andb_true_iff in HA as [HAne HA], HB as [HBne HB].
  set (text := "/convert " +:+ A +:+ " " +:+ B +:+ " 0").
  assert (H : rmatch (Group 0 re_convert) text (replicate 5 None) (fun _ c => Some c) =
              Some [Some text; Some A; Some B; Some "0"; None]).
  { cbn [rmatch]. unfold re_convert. cbn [rmatch]. subst text. rewrite rmatch_lits.
    apply rmatch_plus_greedy; [exact HAne | apply symbol_is_word, HA | reflexivity |].
    rewrite consumed_append. unfold sp.
    change (" " +:+ B +:+ " 0") with (String " " (B +:+ " 0")).
    cbn [rmatch]. rewrite Ascii.eqb_refl.
    apply rmatch_plus_greedy; [exact HBne | apply symbol_is_word, HB | reflexivity |].
    rewrite consumed_append, Ascii.eqb_refl, rmatch_decimal_zero.
    rewrite (consumed_all ("/convert " +:+ A +:+ String " " (B +:+ " 0"))).
    reflexivity. }
  destruct text eqn:E; [discriminate |].
  cbn [exec]. rewrite H. reflexivity.
Qed.

(** ** What a handler leaves in the trace *)

Create HintDb grows.

Section Grows.

Context {A B : Type}.

Lemma grows_ret (a : A) : grows (ret a).
Proof. intros st e H. exact H. Qed.

Lemma grows_throw (msg : string) : grows (@throw A msg).
Proof. intros st e H. exact H. Qed.

Lemma grows_lift (o : Outcome A) : grows (lift o).
Proof. intros st e H. exact H. Qed.

Lemma grows_gets (f : State -> A) : grows (gets f).
Proof. intros st e H. exact H. Qed.

Lemma grows_bind (m : M A) (k : A -> M B) :
  grows m -> (forall a, grows (k a)) -> grows (bind m k).
Proof.
  intros Hm Hk st e H. unfold bind. specialize (Hm st e H).
  destruct (m st) as [[a | msg] st1]; simpl in *; [apply Hk |]; exact Hm.
Qed.

Lemma grows_try_catch (body : M A) (h : string -> M A) :
  grows body -> (forall msg, grows (h msg)) -> grows (try_catch body h).
Proof.
  intros Hb Hh st e H. unfold try_catch. specialize (Hb st e H).
  destruct (body st) as [[a | msg] st1]; simpl in *; [| apply Hh]; exact Hb.
Qed.

Lemma emits_bind_l (e : Event) (m : M A) (k : A -> M B) :
  emits e m -> (forall a, grows (k a)) -> emits e (bind m k).
Proof.
  intros Hm Hk st. unfold bind. specialize (Hm st).
  destruct (m st) as [[a | msg] st1]; simpl in *; [apply Hk |]; exact Hm.
Qed.

Lemma emits_gets_bind (e : Event) (f : State -> A) (k : A -> M B) :
  (forall a, emits e (k a)) -> emits e (bind (gets f) k).
Proof. intros Hk st. unfold bind, gets. apply Hk. Qed.

Lemma emits_try_catch (e : Event) (body : M A) (h : string -> M A) :
  emits e body -> (forall msg, grows (h msg)) -> emits e (try_catch body h).
Proof.
  intros Hb Hh st. unfold try_catch. specialize (Hb st).
  destruct (body st) as [[a | msg] st1]; simpl in *; [| apply Hh]; exact Hb.
Qed.

End Grows.

Lemma grows_emit (e : Event) : grows (emit e).
Proof. intros st e' H. simpl. apply elem_of_app. left. exact H. Qed.

Lemma emits_emit (e : Event) : emits e (emit e).
Proof. intros st. simpl. apply elem_of_app. right. apply list_elem_of_singleton. reflexivity. Qed.

Lemma grows_db_insert (o : Order) : grows (db_insert o).
Proof. intros st e H. unfold db_insert. destruct (has_order _ _); exact H. Qed.

#[local] Hint Resolve grows_ret grows_throw grows_lift grows_gets grows_emit
  grows_db_insert : grows.
#[local] Hint Extern 2 (grows (bind _ _)) => apply grows_bind; [| intros ?] : grows.
#[local] Hint Extern 2 (grows (try_catch _ _)) =>
  apply grows_try_catch; [| intros ?] : grows.
#[local] Hint Extern 1 (grows (sendMessage _ _ _ _)) => apply grows_emit : grows.
#[local] Hint Extern 1 (grows (reply _ _)) => apply grows_emit : grows.
#[local] Hint Extern 1 (grows (sendPersistentMenu _)) => apply grows_emit : grows.
#[local] Hint Extern 1 (grows (sendErrorNotification _ _)) => apply grows_emit : grows.
#[local] Hint Extern 1 (grows (call _ _)) => unfold call : grows.

Lemma emits_call {A} (r : Request) (answer : Outcome A) : emits (Exchange r) (call r answer).
Proof. unfold call. apply emits_bind_l; [apply emits_emit | auto with grows]. Qed.

(** Whatever the exchange answers, [instantConvert] has sent it the quote
    request for the assets and the amount it was given. *)
Lemma instantConvert_requests_quote (cfg : Config) (env : Env) (chat : Z)
    (fromA toA : string) (amt : number) :
  emits (Exchange (ConvertQuote fromA toA amt)) (instantConvert cfg env chat fromA toA amt).
Proof.
  unfold instantConvert. apply emits_try_catch.
  - apply emits_gets_bind. intros u. apply emits_bind_l; [apply emits_call |].
    intros quote. destruct (truthy_field quote) as [quoteId |]; [| auto with grows].
    apply grows_bind; [auto with grows |]. intros acceptResult.
    apply grows_bind; [| auto with grows].
    destruct (truthy_field acceptResult); auto with grows.
  - intros msg. auto 10 with grows.
Qed.

Lemma split_field (sep : ascii) (a r : string) :
  includes sep a = false ->
  split sep (a +:+ String sep r) = a :: split sep r.
Proof.
  induction a as [| c a IH]; intros H.
  - change (EmptyString +:+ String sep r) with (String sep r). cbn [split].
    rewrite Ascii.eqb_refl. reflexivity.
  - simpl in H. apply orb_false_iff in H as [Hc Ha].
    change (String c a +:+ String sep r) with (String c (a +:+ String sep r)).
    cbn [split]. rewrite Hc, (IH Ha). reflexivity.
Qed.

Lemma startsWith_append (p s : string) : startsWith p (p +:+ s) = true.
Proof.
  unfold startsWith. induction p as [| c p IH].
  - destruct s; reflexivity.
  - change (String c p +:+ s) with (String c (p +:+ s)). cbn [String.prefix].
    destruct (ascii_dec c c); [exact IH | congruence].
Qed.

(** C10: /convert has no positivity check on the amount.  For asset symbols
    A and B whose pair the registry supports (in either direction) and a
    sender within the rate limit, the message [/convert A B 0] is matched by
    the command pattern and answered with the confirmation prompt, whose
    confirm button carries the callback data [confirm_convert_A_B_0]; and a
    callback with that data sends the exchange a quote request for amount
    0. *)
Theorem convert_accepts_zero_amount (cfg : Config) (env : Env) (chat : Z) (st : State)
    (A B : string) :
  is_symbol A = true ->
  is_symbol B = true ->
  isSupported (supportedAssets st) A B = true ->
  (count (rate_limit_step cfg (Date_now env) (userRateLimits st !! chat))
   <= RATE_LIMIT_MAX_REQUESTS cfg)%Z ->
  let text := "/convert " +:+ A +:+ " " +:+ B +:+ " 0" in
  let data := "confirm_convert_" +:+ A +:+ "_" +:+ B +:+ "_0" in
  let entry := rate_limit_step cfg (Date_now env) (userRateLimits st !! chat) in
  run (onText cfg text (convert_handler cfg env chat)) st =
    with_trace
      (trace st ++
       [SendMessage (ChatId chat) (escapeMarkdownV2 (confirmMessage A B (Num 0 0))) true
          (InlineKeyboard [[("确认兑换", data); ("取消", "cancel_convert")]])])
      (with_userRateLimits (<[chat := entry]> (userRateLimits st)) st)
  /\ forall (env' : Env) (id : string) (st2 : State),
       Exchange (ConvertQuote A B (Num 0 0))
         ∈ trace (run (on_callback_query cfg env' chat id data) st2).
Proof.
  intros HA HB Hsup Hcount text data entry.
  pose proof HA as HA'. pose proof HB as HB'.
  apply andb_true_iff in HA' as [_ HAs], HB' as [_ HBs].
  split.
  - unfold run, onText, convert_handler. cbn [groups pattern callback].
    subst text. rewrite (exec_convert_zero A B HA HB).
    unfold unhandled, try_catch. rewrite on_convert_unfold. fold entry. fold entry in Hcount.
    destruct (Z.gtb_spec (count entry) (RATE_LIMIT_MAX_REQUESTS cfg)); [lia |].
    change (group _ 1) with A. change (group _ 2) with B. change (group _ 3) with "0".
    rewrite (symbol_upper A HAs), (symbol_upper B HBs).
    change (parseFloat "0") with (Num 0 0).
    unfold convert_checked, bind, gets. simpl. rewrite Hsup. reflexivity.
  - intros env' id st2. unfold run.
    assert (Hparts : split "_" data = ["confirm"; "convert"; A; B; "0"]).
    { subst data.
      change ("confirm_convert_" +:+ A +:+ "_" +:+ B +:+ "_0")
        with ("confirm" +:+ String "_" ("convert" +:+ String "_"
                (A +:+ String "_" (B +:+ String "_" "0")))).
      rewrite !split_field; [reflexivity | | | reflexivity | reflexivity];
        apply symbol_no_underscore; assumption. }
    unfold on_callback_query.
    replace (startsWith "confirm_convert_" data) with true
      by (symmetry; apply (startsWith_append "confirm_convert_")).
    rewrite Hparts. change (at_index _ 2) with A. change (at_index _ 3) with B.
    change (parseFloat (at_index _ 4)) with (Num 0 0).
    apply emits_bind_l with (m := emit (AnswerCallbackQuery id) >> instantConvert cfg env' chat A B (Num 0 0)).
    + intros st3. unfold bind at 1. simpl.
      apply instantConvert_requests_quote.
    + intros []. auto with grows.
Qed.

(** ** Escaping *)

(** One pass of escaping is undone by the chat, so a text escaped once is
    shown as it was. *)
Lemma escape_cons (c : ascii) (r : string) :
  escapeMarkdownV2 (String c r) =
    if reserved c then String "\" (String c (escapeMarkdownV2 r))
    else String c (escapeMarkdownV2 r).
Proof. reflexivity. Qed.

Lemma unescape_escape (text : string) : unescape (escapeMarkdownV2 text) = text.
Proof.
  induction text as [| c r IH]; [reflexivity |].
  rewrite escape_cons. destruct (reserved c) eqn:Hc.
  - cbn [unescape]. rewrite Ascii.eqb_refl, IH. reflexivity.
  - cbn [unescape].
    destruct (Ascii.eqb_spec c "\") as [-> | _]; [discriminate | rewrite IH; reflexivity].
Qed.

(** C3 (the code departs from it): an upstream error text that holds a
    reserved character is not escaped exactly once.  With the exchange
    unreachable, the error [getaddrinfo ENOTFOUND api.binance.com] is
    escaped inside the failure text of the conversion and again with the
    whole text, so the chat shows it with a backslash before each dot; and
    it is the escaped text, not the error text, that is stored in the order
    row. *)
Theorem error_text_escaped_twice :
  let failure := run (processUpdate sample_cfg offline
                        (CallbackQuery 7 "cb" "confirm_convert_ETH_BTC_1")) emptyState in
  let oid := "101112131415161718191a1b1c1d1e1f" in
  let failure_text :=
    escapeMarkdownV2 ("❌ *转换失败:*" +:+ nl +:+ escapeMarkdownV2 network_error) in
  SendMessage (ChatId 7) failure_text true NoMarkup ∈ trace failure
  /\ unescape failure_text =
       "❌ *转换失败:*" +:+ nl +:+ "getaddrinfo ENOTFOUND api\.binance\.com"
  /\ unescape failure_text <> "❌ *转换失败:*" +:+ nl +:+ network_error
  /\ orders failure =
       [mkOrder oid 7 "ETH" "BTC" (Num 1 0) failed
          (Some (escapeMarkdownV2 network_error)) "2024-01-01 00:00:00"]
  /\ escapeMarkdownV2 network_error <> network_error
  /\ escapeMarkdownV2 "api.binance.com" = "api\.binance\.com"
  /\ escapeMarkdownV2 (escapeMarkdownV2 "api.binance.com") = "api\\\.binance\\\.com".
Proof.
  intros failure oid failure_text.
  split; [apply list_elem_of_In; vm_compute; right; right; left; reflexivity |].
  repeat match goal with |- _ /\ _ => split end;
    vm_compute; first [reflexivity | intros ?; discriminate].
Qed.

(** ** One update, one effect *)

Lemma Merge_nil_l {A : Type} (l2 l : list A) : Merge [] l2 l -> l = l2.
Proof.
  intros H. remember [] as l1 eqn:E.
  induction H as [| x l1 l2 l H IH | x l1 l2 l H IH]; [reflexivity | discriminate |].
  rewrite (IH E). reflexivity.
Qed.

Lemma Merge_nil_r {A : Type} (l1 l : list A) : Merge l1 [] l -> l = l1.
Proof.
  intros H. remember [] as l2 eqn:E.
  induction H as [| x l1 l2 l H IH | x l1 l2 l H IH]; [reflexivity | | discriminate].
  rewrite (IH E). reflexivity.
Qed.

Lemma Merge_right_all {A : Type} (l : list A) : Merge [] l l.
Proof. induction l as [| x l IH]; constructor. exact IH. Qed.

Lemma Merge_left_all {A : Type} (l : list A) : Merge l [] l.
Proof. induction l as [| x l IH]; constructor. exact IH. Qed.

(** A merge loses and repeats nothing. *)
Lemma Merge_perm {A : Type} (l1 l2 l : list A) : Merge l1 l2 l -> l ≡ₚ l1 ++ l2.
Proof.
  induction 1 as [| x l1 l2 l H IH | x l1 l2 l H IH]; [reflexivity | |].
  - cbn [app]. rewrite IH. reflexivity.
  - rewrite IH. apply Permutation_middle.
Qed.

Lemma Interleaved_cons_iff {A : Type} (l : list A) (ls : list (list A)) (tr : list A) :
  Interleaved (l :: ls) tr <-> exists rest, Interleaved ls rest /\ Merge l rest tr.
Proof.
  split.
  - intros H. inversion H as [| l' ls' rest tr' Hrest Hmerge]; subst.
    exists rest. split; assumption.
  - intros (rest & Hrest & Hmerge). econstructor; eassumption.
Qed.

Lemma Interleaved_skip {A : Type} (ls : list (list A)) (tr : list A) :
  Interleaved ([] :: ls) tr <-> Interleaved ls tr.
Proof.
  rewrite Interleaved_cons_iff. split.
  - intros (rest & Hrest & Hmerge). apply Merge_nil_l in Hmerge. subst. exact Hrest.
  - intros H. exists tr. split; [exact H | apply Merge_right_all].
Qed.

Lemma Interleaved_nonempty {A : Type} (ls : list (list A)) :
  forall tr : list A, Interleaved ls tr <-> Interleaved (List.filter nonempty ls) tr.
Proof.
  induction ls as [| l ls IH]; intros tr; [reflexivity |].
  destruct l as [| x l]; cbn [List.filter nonempty].
  - rewrite Interleaved_skip. apply IH.
  - rewrite !Interleaved_cons_iff. split; intros (rest & Hrest & Hmerge);
      exists rest; (split; [apply IH; exact Hrest | exact Hmerge]).
Qed.

Lemma Interleaved_two {A : Type} (l1 l2 tr : list A) :
  Interleaved [l1; l2] tr <-> Merge l1 l2 tr.
Proof.
  rewrite Interleaved_cons_iff. split.
  - intros (rest & Hrest & Hmerge).
    inversion Hrest as [| l' ls' rest' tr' Hnil Hm]; subst.
    inversion Hnil; subst. apply Merge_nil_r in Hm. subst. exact Hmerge.
  - intros H. exists l2. split; [| exact H].
    econstructor; [constructor | apply Merge_left_all].
Qed.

(** A handler that leaves the state as it is but for the events [evs]. *)
Lemma sends_events (h : M unit) (st : State) (evs : list Event) :
  run h st = with_trace (trace st ++ evs) st ->
  events_of h st = evs /\ only_sends st h.
Proof.
  intros H. assert (He : events_of h st = evs).
  { unfold events_of. rewrite H. cbn [with_trace trace]. apply drop_app_length. }
  split; [exact He |]. unfold only_sends. rewrite He. exact H.
Qed.

Lemma Interleaved_two_idle {A : Type} (l1 l2 : list A) (ls : list (list A)) (tr : list A) :
  List.filter nonempty ls = [] ->
  Interleaved (l1 :: l2 :: ls) tr <-> Merge l1 l2 tr.
Proof.
  intros Hidle.
  assert (Hrest : forall rest : list A, Interleaved ls rest <-> Interleaved [] rest).
  { intros rest. rewrite Interleaved_nonempty, Hidle. reflexivity. }
  split; intros H.
  - apply Interleaved_cons_iff in H as (r1 & H1 & Hm1).
    apply Interleaved_cons_iff in H1 as (r2 & H2 & Hm2).
    apply Hrest in H2. inversion H2; subst. apply Merge_nil_r in Hm2. subst. exact Hm1.
  - apply Interleaved_cons_iff. exists l2. split; [| exact H].
    apply Interleaved_cons_iff. exists []. split; [| apply Merge_left_all].
    apply Hrest. constructor.
Qed.

(** The traces of an update whose handlers only send: the merges of what
    the handlers send. *)
Lemma Dispatched_sends (cfg : Config) (env : Env) (u : Update) (st : State)
    (ls : list (list Event)) :
  Forall2 (fun h evs => run h st = with_trace (trace st ++ evs) st) (started cfg env u) ls ->
  forall tr : list Event, Dispatched cfg env u st tr <-> Interleaved ls tr.
Proof.
  intros H tr. unfold Dispatched.
  assert (Hmap : map (fun h => events_of h st) (started cfg env u) = ls
                 /\ Forall (only_sends st) (started cfg env u)).
  { induction H as [| h evs hs ls Hh _ [IH1 IH2]]; [split; constructor |].
    apply sends_events in Hh as [He Hs]. cbn [map]. rewrite He, IH1.
    split; [reflexivity | constructor; assumption]. }
  destruct Hmap as [-> Hall]. tauto.
Qed.

Lemma sends_ret (st : State) : run (ret tt) st = with_trace (trace st ++ []) st.
Proof. unfold run, ret, with_trace. cbn [snd]. rewrite app_nil_r. destruct st; reflexivity. Qed.

Lemma sends_unhandled (cfg : Config) (h : M unit) (st : State) (evs : list Event) :
  h st = (Ok tt, with_trace (trace st ++ evs) st) ->
  run (unhandled cfg h) st = with_trace (trace st ++ evs) st.
Proof. intros H. unfold run, unhandled, try_catch. rewrite H. reflexivity. Qed.

Lemma sends_unhandled_nothing (cfg : Config) (h : M unit) (st : State) :
  h st = (Ok tt, st) ->
  run (unhandled cfg h) st = with_trace (trace st ++ []) st.
Proof.
  intros H. unfold run, unhandled, try_catch. rewrite H. cbn [snd].
  unfold with_trace. rewrite app_nil_r. destruct st; reflexivity.
Qed.

(** /tradehistory as the program is wired: the value the handler awaits
    has no [length], so the reply is the no-history text whatever the table
    holds. *)
Lemma on_tradehistory_run (cfg : Config) (chat : Z) (st : State) :
  on_tradehistory cfg chat st =
    (Ok tt,
     with_trace
       (trace st ++
        [SendMessage (ChatId chat) (escapeMarkdownV2 noHistoryMessage) true NoMarkup;
         menu_for chat]) st).
Proof.
  unfold on_tradehistory, try_catch, bind, db_all, ret, reply, sendPersistentMenu,
    sendMessage, emit, with_trace, menu_for.
  cbn beta iota. cbn [trace supportedAssets assetsFile userRateLimits orders].
  rewrite <- app_assoc. reflexivity.
Qed.

(** Splits the handlers that an update with a closed text starts into those
    whose pattern matches and those that do nothing. *)
Ltac started_handlers :=
  unfold started, textRegexpCallbacks; cbn [map];
  unfold onText; cbn [groups pattern callback]; eval_exec; cbv beta iota;
  repeat (simple apply List.Forall2_cons; [| try simple apply List.Forall2_nil]).

(** C4 (the code departs from it): one inbound message can run two
    handlers.  /tradehistory is registered twice, so for every state one
    such message is answered twice (as the program is wired, with the
    no-history text) and gets the menu twice; a free text that is no menu
    label is answered by both [message] listeners; /assetinfo is registered
    twice as well, so one such message puts two requests to the exchange and
    is answered twice.  The handlers run side by side: what one message adds
    to the trace is, in each case, a merge of the sends of the two handlers
    and of nothing else, so it always holds each reply twice; the order
    reply, reply, menu, menu is among the merges. *)
Theorem dispatcher_answers_twice (cfg : Config) (env : Env) (chat : Z) (st : State) :
  let history :=
    SendMessage (ChatId chat) (escapeMarkdownV2 noHistoryMessage) true NoMarkup in
  let unknown (text : string) := SendMessage (ChatId chat) (escapeMarkdownV2 text) true NoMarkup in
  let assets :=
    SendMessage (ChatId 7)
      (escapeMarkdownV2
         ("📊 *资产精度信息:*" +:+ nl +:+ nl +:+ "1. *资产:* BTC" +:+ nl
          +:+ "   *精度:* 8" +:+ nl +:+ nl)) true NoMarkup in
  (forall tr : list Event,
      Dispatched cfg env (Message chat "/tradehistory") st tr <->
      Merge [history; menu_for chat] [history; menu_for chat] tr)
  /\ (forall tr : list Event,
        Dispatched cfg env (Message chat "/tradehistory") st tr ->
        tr ≡ₚ [history; history; menu_for chat; menu_for chat])
  /\ Dispatched cfg env (Message chat "/tradehistory") st
       [history; history; menu_for chat; menu_for chat]
  /\ (forall tr : list Event,
        Dispatched cfg env (Message chat "hello") st tr <->
        Merge [unknown (t cfg (userLang (userRateLimits st) chat) "unknown_command" "")]
          [unknown unknownCommandMessage; menu_for chat] tr)
  /\ (forall tr : list Event,
        Dispatched sample_cfg (online 0) (Message 7 "/assetinfo btc") emptyState tr <->
        Merge [Exchange AssetInfo; assets; menu] [Exchange AssetInfo; assets; menu] tr).
Proof.
  intros history unknown assets.
  assert (Hhistory : forall tr : list Event,
             Dispatched cfg env (Message chat "/tradehistory") st tr <->
             Merge [history; menu_for chat] [history; menu_for chat] tr).
  { intros tr. etransitivity.
    - eapply Dispatched_sends. started_handlers;
        first [ apply sends_ret
              | apply sends_unhandled, on_tradehistory_run
              | apply sends_unhandled_nothing; reflexivity ].
    - rewrite Interleaved_nonempty. cbn [List.filter nonempty]. apply Interleaved_two. }
  split; [exact Hhistory |]. split; [| split; [| split]].
  - intros tr H. apply Hhistory, Merge_perm in H. rewrite H. cbn [app].
    apply Permutation_skip, Permutation_swap.
  - apply Hhistory. repeat constructor.
  - intros tr. etransitivity.
    + eapply Dispatched_sends. started_handlers;
        first [ apply sends_ret
              | apply sends_unhandled;
                unfold on_message_menu, on_message_unknown, bind, gets, reply,
                  sendPersistentMenu, sendMessage, emit, with_trace, menu_for;
                cbn; rewrite <- ?app_assoc; reflexivity ].
    + rewrite Interleaved_nonempty. cbn [List.filter nonempty]. apply Interleaved_two.
  - intros tr. unfold Dispatched.
    replace (map (fun h => events_of h emptyState)
               (started sample_cfg (online 0) (Message 7 "/assetinfo btc")))
      with ([[]; []; []; []; []; []; []; []; []; []; [Exchange AssetInfo; assets; menu];
             []; []; []; []; [Exchange AssetInfo; assets; menu]] : list (list Event))
      by (vm_compute; reflexivity).
    rewrite Interleaved_nonempty. cbn [List.filter nonempty]. rewrite Interleaved_two.
    split; [tauto |]. intros H. split; [| exact H].
    repeat constructor; vm_compute; reflexivity.
Qed.

(** ** The registry as a set *)

(** C5 (the code departs from it): /addassets tests each pair of a batch
    against the registry as it was before the batch, so a pair repeated
    inside one command, in the same or in the reverse direction, is added
    twice. *)
Theorem addassets_repeats_pair :
  let added (arg : string) :=
    supportedAssets
      (run (processUpdate sample_cfg offline (Message 1000 ("/addassets " +:+ arg)))
         emptyState) in
  set_semantics (supportedAssets emptyState) = true
  /\ added "a:b,a:b" = [Pair.mk "A" "B"; Pair.mk "A" "B"]
  /\ set_semantics (added "a:b,a:b") = false
  /\ added "a:b,b:a" = [Pair.mk "A" "B"; Pair.mk "B" "A"]
  /\ set_semantics (added "a:b,b:a") = false.
Proof. evaluate. Qed.

(** ** The theorems at work on the sample worlds *)

Ltac closed_fact := vm_compute; first [reflexivity | discriminate | intros ?; discriminate].

(** Ten requests inside one minute bring the count to 10; the eleventh, 60
    seconds after the first and so still inside the window, is answered with
    the rate-limit text only. *)
Lemma rate_limiter_fixed_window_witness :
  let st10 := converts sample_cfg 7 first_ten emptyState in
  let last := convert_request 60000 in
  let entry := rate_limit_step sample_cfg 60000 (userRateLimits st10 !! 7%Z) in
  count entry = 11%Z
  /\ run (on_convert sample_cfg (fst last) 7 (snd last)) st10 =
       with_trace (trace st10 ++ [rateLimitReply sample_cfg 7 entry])
         (with_userRateLimits (<[7%Z := entry]> (userRateLimits st10)) st10).
Proof.
  intros st10 last entry.
  destruct (rate_limiter_fixed_window "1000" sample_t 7) as (_ & Hb & _).
  destruct (Hb emptyState (convert_request 0) (tail first_ten) last) as (_ & _ & Hc & Hr).
  - closed_fact.
  - closed_fact.
  - repeat constructor; closed_fact.
  - split; [exact Hc | exact Hr].
Defined.

(** A granted conversion leaves one [completed] row, a refused one leaves
    one [failed] row under the random id. *)
Lemma instantConvert_protocol_witness :
  orders (run (instantConvert sample_cfg (online 0) 7 "ETH" "BTC" (Num 5 1)) emptyState) =
    [mkOrder "o1" 7 "ETH" "BTC" (Num 5 1) completed None "2024-01-01 00:00:00"]
  /\ orders (run (instantConvert sample_cfg offline 7 "ETH" "BTC" NaN) emptyState) =
       [mkOrder "101112131415161718191a1b1c1d1e1f" 7 "ETH" "BTC" (Num 0 0) failed
          (Some "getaddrinfo ENOTFOUND api\.binance\.com") "2024-01-01 00:00:00"]
  /\ String.length (random_id offline) = 32.
Proof.
  split; [| split].
  - destruct (instantConvert_protocol sample_cfg (online 0) emptyState 7 "ETH" "BTC" (Num 5 1))
      as [Hgranted _].
    destruct (Hgranted "q1" "o1") as [Horders _];
      [reflexivity | discriminate | reflexivity | discriminate | reflexivity |].
    exact Horders.
  - destruct (instantConvert_protocol sample_cfg offline emptyState 7 "ETH" "BTC" NaN)
      as (_ & Hrefused & _).
    destruct (Hrefused [ConvertQuote "ETH" "BTC" NaN] network_error) as [Horders _];
      [apply quote_throws; reflexivity | reflexivity |].
    exact Horders.
  - destruct (instantConvert_protocol sample_cfg offline emptyState 7 "ETH" "BTC" NaN)
      as (_ & _ & _ & Hlength).
    apply Hlength. vm_compute. lia.
Defined.

(** Cancelling [l1] turns the pending row into a canceled one and keeps its
    other fields; with the exchange unreachable the table stays as it was. *)
Lemma cancelorder_frame_witness :
  (exists o' : Order,
      orders (run (on_cancelorder sample_cfg (online 0) 7 cancel_l1) with_pending) !! 0
        = Some o'
      /\ orderId o' = "l1" /\ chatId o' = 7%Z /\ fromAsset o' = "ETH" /\ toAsset o' = "BTC"
      /\ amount o' = Num 1 0 /\ error o' = None /\ timestamp o' = "2024-01-01 00:00:00"
      /\ status o' = canceled)
  /\ orders (run (on_cancelorder sample_cfg offline 7 cancel_l1) with_pending) = [pending_order].
Proof.
  split.
  - destruct (cancelorder_frame sample_cfg (online 0) 7 cancel_l1 with_pending) as [Hok _].
    destruct (Hok "l1") as [_ Hrows]; [reflexivity | discriminate |].
    exact (Hrows 0 pending_order eq_refl).
  - destruct (cancelorder_frame sample_cfg offline 7 cancel_l1 with_pending) as [_ Hfail].
    rewrite (Hfail network_error); [reflexivity | apply cancel_throws; reflexivity].
Defined.

(** Chat 7 is not the admin chat 1000. *)
Lemma admin_commands_denied_witness :
  run (on_addassets sample_cfg offline 7 [Some "/addassets ltc:usd"; Some "ltc:usd"])
      emptyState =
    with_trace
      [SendMessage (ChatId 7) (escapeMarkdownV2 permissionDeniedMessage) true NoMarkup]
      emptyState
  /\ run (on_removeassets sample_cfg offline 7 [Some "/removeassets ltc:usd"; Some "ltc:usd"])
       reversed_registry =
     with_trace [SendMessage (ChatId 7) permissionDeniedMessage true NoMarkup]
       reversed_registry.
Proof.
  split.
  - destruct (admin_commands_denied sample_cfg offline 7
                [Some "/addassets ltc:usd"; Some "ltc:usd"] emptyState) as [[Hadd _] _];
      [closed_fact |].
    exact Hadd.
  - destruct (admin_commands_denied sample_cfg offline 7
                [Some "/removeassets ltc:usd"; Some "ltc:usd"] reversed_registry)
      as [[_ Hremove] _]; [closed_fact |].
    exact Hremove.
Defined.

(** An amount of 0 and a negative amount both leave the order table empty. *)
Lemma placeorder_rejects_nonpositive_witness :
  orders (run (onText sample_cfg "/placeorder XRP USD 0 0.5"
                 (placeorder_handler sample_cfg (online 0) 7)) emptyState) = []
  /\ orders (run (onText sample_cfg "/placeorder XRP USD -5 0.5"
                    (placeorder_handler sample_cfg (online 0) 7)) emptyState) = [].
Proof.
  destruct (placeorder_rejects_nonpositive sample_cfg (online 0) 7 emptyState)
    as (_ & Htext & _ & _).
  split.
  - destruct (Htext "/placeorder XRP USD 0 0.5") as (_ & Horders & _); [| exact Horders].
    intros m Hm. vm_compute in Hm. inversion Hm. reflexivity.
  - destruct (Htext "/placeorder XRP USD -5 0.5") as (_ & Horders & _); [| exact Horders].
    intros m Hm. vm_compute in Hm. discriminate Hm.
Defined.

(** With BTC:ETH in the registry, [/convert ETH BTC 0] is prompted for
    confirmation. *)
Lemma convert_accepts_zero_amount_witness :
  trace (run (onText sample_cfg "/convert ETH BTC 0" (convert_handler sample_cfg (online 0) 7))
           reversed_registry) =
    [SendMessage (ChatId 7) (escapeMarkdownV2 (confirmMessage "ETH" "BTC" (Num 0 0))) true
       (InlineKeyboard
          [[("确认兑换", "confirm_convert_ETH_BTC_0"); ("取消", "cancel_convert")]])]
  /\ Exchange (ConvertQuote "ETH" "BTC" (Num 0 0))
       ∈ trace (run (on_callback_query sample_cfg offline 7 "cb" "confirm_convert_ETH_BTC_0")
                  emptyState).
Proof.
  destruct (convert_accepts_zero_amount sample_cfg (online 0) 7 reversed_registry "ETH" "BTC")
    as [Hprompt Hquote]; [reflexivity | reflexivity | reflexivity | closed_fact |].
  split.
  - exact (f_equal trace Hprompt).
  - exact (Hquote offline "cb" emptyState).
Defined.

(** C1 as it is stated, without the condition on the id, fails.  The
    exchange returns a quote id and then the order id [o1]; the table holds
    a row under [o1] already, for another chat, and stays as it was: no row
    with status [completed] is written for the requesting chat.  And what a
    failed conversion stores as the error is the error text after the
    escaping pass, which differs from the error text. *)
Lemma instantConvert_claim_fails :
  getConvertQuoteOptimized (online 0) "ETH" "BTC" (Num 5 1) = Ok (Some "q1")
  /\ acceptConvertQuote (online 0) "q1" = Ok (Some "o1")
  /\ orders (run (instantConvert sample_cfg (online 0) 7 "ETH" "BTC" (Num 5 1)) with_o1)
     = [held_o1]
  /\ chatId held_o1 = 8%Z
  /\ status held_o1 = completed
  /\ Forall (fun o => chatId o <> 7%Z)
       (orders (run (instantConvert sample_cfg (online 0) 7 "ETH" "BTC" (Num 5 1)) with_o1))
  /\ map error
       (orders (run (instantConvert sample_cfg offline 7 "ETH" "BTC" (Num 5 1)) emptyState))
     = [Some "getaddrinfo ENOTFOUND api\.binance\.com"]
  /\ Some "getaddrinfo ENOTFOUND api\.binance\.com" <> Some network_error.
Proof.
  repeat match goal with |- _ /\ _ => split end;
    try (vm_compute; reflexivity); try (intros H; discriminate H).
  vm_compute. repeat constructor; intros H; discriminate H.
Qed.

(** C10 as it is stated, for every supported pair and every sender, fails.
    With an underscore in a symbol the prompt is sent, but its callback
    data splits into other fields: confirming asks for a quote from [A] to
    [B] with the amount [NaN], not from [A_B] to [C] with the amount 0.  A
    pair that the registry holds in lower case is not the pair of the
    upper-cased command, which is answered with the not-supported text.  And
    a sender who has used up the quota is answered with the rate-limit text,
    not with a prompt. *)
Lemma convert_zero_claim_fails :
  isSupported (supportedAssets underscore_registry) "A_B" "C" = true
  /\ trace (run (processUpdate sample_cfg (online 0) (Message 7 "/convert A_B C 0"))
              underscore_registry) =
       [SendMessage (ChatId 7) (escapeMarkdownV2 (confirmMessage "A_B" "C" (Num 0 0))) true
          (InlineKeyboard
             [[("确认兑换", "confirm_convert_A_B_C_0"); ("取消", "cancel_convert")]])]
  /\ List.filter is_request
       (trace (run (processUpdate sample_cfg offline
                      (CallbackQuery 7 "cb" "confirm_convert_A_B_C_0")) underscore_registry))
     = [Exchange (ConvertQuote "A" "B" NaN)]
  /\ isSupported (supportedAssets lowercase_registry) "eth" "btc" = true
  /\ trace (run (processUpdate sample_cfg (online 0) (Message 7 "/convert eth btc 0"))
              lowercase_registry) =
       [SendMessage (ChatId 7) (escapeMarkdownV2 (notSupportedMessage "ETH" "BTC")) true
          NoMarkup]
  /\ isSupported (supportedAssets exhausted) "ETH" "BTC" = true
  /\ trace (run (processUpdate sample_cfg (online 0) (Message 7 "/convert ETH BTC 0"))
              exhausted) =
       [rateLimitReply sample_cfg 7 (mkRateLimit 11 0 "zh")].
Proof. evaluate. Qed.

(** * Further properties *)

(** ** The escaping pass *)

Lemma append_nil_r (s : string) : s +:+ EmptyString = s.
Proof. induction s as [| c r IH]; [reflexivity |]. change (String c r +:+ "") with (String c (r +:+ "")). rewrite IH. reflexivity. Qed.

Lemma append_assoc (a b c : string) : (a +:+ b) +:+ c = a +:+ b +:+ c.
Proof.
  induction a as [| d a IH]; [reflexivity |].
  change (String d (a +:+ b) +:+ c = String d (a +:+ b +:+ c)).
  change (String d ((a +:+ b) +:+ c) = String d (a +:+ b +:+ c)). rewrite IH. reflexivity.
Qed.

(** X1: escaping a concatenation is concatenating the escaped pieces, so a
    message assembled from a template and dynamic parts can be escaped part
    by part or as a whole with the same result. *)
Theorem escapeMarkdownV2_append (a b : string) :
  escapeMarkdownV2 (a +:+ b) = escapeMarkdownV2 a +:+ escapeMarkdownV2 b.
Proof.
  induction a as [| c r IH]; [reflexivity |].
  change (String c r +:+ b) with (String c (r +:+ b)).
  rewrite !escape_cons, IH. destruct (reserved c); reflexivity.
Qed.

Lemma escapeMarkdownV2_injective_aux (a b : string) :
  escapeMarkdownV2 a = escapeMarkdownV2 b -> a = b.
Proof.
  intros H. rewrite <- (unescape_escape a), <- (unescape_escape b), H. reflexivity.
Qed.

(** X2: one pass of escaping loses nothing: two texts with the same escaped
    form are the same text. *)
Theorem escapeMarkdownV2_injective (a b : string) :
  escapeMarkdownV2 a = escapeMarkdownV2 b -> a = b.
Proof. apply escapeMarkdownV2_injective_aux. Qed.

Lemma escapeMarkdownV2_injective_witness :
  escapeMarkdownV2 "a.b" = escapeMarkdownV2 ("a" +:+ ".b") /\ "a.b" = "a" +:+ ".b".
Proof.
  split; [reflexivity |].
  apply (escapeMarkdownV2_injective "a.b" ("a" +:+ ".b")). reflexivity.
Defined.

Lemma escape_length (text : string) :
  String.length text <= String.length (escapeMarkdownV2 text).
Proof.
  induction text as [| c r IH]; [reflexivity |].
  rewrite escape_cons. destruct (reserved c); simpl; lia.
Qed.

Lemma escape_unreserved (text : string) :
  escapeMarkdownV2 text = text <-> no_reserved text = true.
Proof.
  unfold no_reserved. induction text as [| c r IH]; [split; reflexivity |].
  rewrite escape_cons. cbn [string_forall]. destruct (reserved c) eqn:Hc; simpl.
  - split; [| discriminate]. intros H. exfalso.
    inversion H as [[H1 H2]]. pose proof (escape_length r) as Hl.
    rewrite <- H2 in Hl at 1. simpl in Hl. lia.
  - rewrite <- IH. split; intros H; [inversion H as [H1]; rewrite H1; exact H1 | rewrite H; reflexivity].
Qed.

(** X3: the pass is idempotent on exactly the texts that hold no reserved
    character: a text is left as it is by one pass, and a second pass
    changes nothing more, if and only if none of its characters is
    reserved. *)
Theorem escapeMarkdownV2_twice (text : string) :
  (escapeMarkdownV2 text = text <-> no_reserved text = true)
  /\ (escapeMarkdownV2 (escapeMarkdownV2 text) = escapeMarkdownV2 text
      <-> no_reserved text = true).
Proof.
  split; [apply escape_unreserved |].
  rewrite <- escape_unreserved. split; intros H.
  - apply escapeMarkdownV2_injective_aux. exact H.
  - rewrite H. exact H.
Qed.

Lemma escapeMarkdownV2_twice_witness :
  escapeMarkdownV2 (escapeMarkdownV2 "ETH BTC") = escapeMarkdownV2 "ETH BTC"
  /\ escapeMarkdownV2 (escapeMarkdownV2 "0.5") <> escapeMarkdownV2 "0.5".
Proof.
  split.
  - apply (proj2 (escapeMarkdownV2_twice "ETH BTC")). reflexivity.
  - intros H. apply (proj2 (escapeMarkdownV2_twice "0.5")) in H. discriminate H.
Defined.

(** ** /convert and /start *)

(** X4: whatever its arguments and whatever the state, /convert sends exactly
    one message, to the sender, and nothing else: no request goes to the
    exchange, the order table, the registry and its file are as before, and
    the rate-limit entries of the other chats are untouched. *)
Theorem convert_only_prompts (cfg : Config) (env : Env) (chat : Z) (m : captures) (st : State) :
  let st' := run (on_convert cfg env chat m) st in
  orders st' = orders st
  /\ supportedAssets st' = supportedAssets st
  /\ assetsFile st' = assetsFile st
  /\ (forall other : Z, other <> chat ->
        userRateLimits st' !! other = userRateLimits st !! other)
  /\ exists (text : string) (mk : Markup),
       trace st' = trace st ++ [SendMessage (ChatId chat) text true mk].
Proof.
  intros st'. subst st'. unfold run. rewrite on_convert_unfold.
  destruct (_ >? _)%Z.
  - simpl. repeat split; try (intros other Hne; apply lookup_insert_ne; congruence).
    eexists _, _. reflexivity.
  - unfold convert_checked, bind, gets. simpl. destruct (negb _); simpl;
      (repeat split; try (intros other Hne; apply lookup_insert_ne; congruence));
      eexists _, _; reflexivity.
Qed.

Lemma convert_only_prompts_witness :
  userRateLimits (run (on_convert sample_cfg (online 5) 7 (snd (convert_request 5))) exhausted)
    !! 8%Z = userRateLimits exhausted !! 8%Z.
Proof.
  destruct (convert_only_prompts sample_cfg (online 5) 7 (snd (convert_request 5)) exhausted)
    as (_ & _ & _ & Hother & _).
  apply Hother. discriminate.
Defined.

(** X5: /start does not refill a quota.  For a chat that already has a
    rate-limit entry, /start leaves the whole rate-limit table as it is, so
    a chat that has used up its requests is still refused by a /convert that
    comes inside the same window. *)
Theorem start_keeps_quota (cfg : Config) (env : Env) (chat : Z) (st : State) (r : RateLimit) :
  userRateLimits st !! chat = Some r ->
  let st1 := run (on_start env chat) st in
  userRateLimits st1 = userRateLimits st
  /\ orders st1 = orders st
  /\ forall (env' : Env) (m : captures),
       (RATE_LIMIT_MAX_REQUESTS cfg <= count r)%Z ->
       (Date_now env' - lastReset r <= RATE_LIMIT_WINDOW_MS cfg)%Z ->
       trace (run (on_convert cfg env' chat m) st1) =
         trace st1 ++
         [rateLimitReply cfg chat (mkRateLimit (count r + 1) (lastReset r) (lang r))].
Proof.
  intros Hr st1.
  assert (H1 : userRateLimits st1 = userRateLimits st).
  { subst st1. unfold run, on_start, bind, gets. simpl. rewrite Hr. reflexivity. }
  split; [exact H1 | split].
  - subst st1. unfold run, on_start, bind, gets. simpl. rewrite Hr. reflexivity.
  - intros env' m Hmax Hwin. unfold run. rewrite on_convert_unfold. rewrite H1, Hr.
    unfold rate_limit_step.
    destruct (Z.gtb_spec (Date_now env' - lastReset r) (RATE_LIMIT_WINDOW_MS cfg)); [lia |].
    cbn [count].
    destruct (Z.gtb_spec (count r + 1) (RATE_LIMIT_MAX_REQUESTS cfg)); [| lia].
    reflexivity.
Qed.

Lemma start_keeps_quota_witness :
  userRateLimits (run (on_start (online 5) 7) exhausted) = userRateLimits exhausted
  /\ trace (run (on_convert sample_cfg (online 60000) 7 (snd (convert_request 60000)))
              (run (on_start (online 5) 7) exhausted)) =
       trace (run (on_start (online 5) 7) exhausted) ++
       [rateLimitReply sample_cfg 7 (mkRateLimit 11 0 "zh")].
Proof.
  destruct (start_keeps_quota sample_cfg (online 5) 7 exhausted (mkRateLimit 10 0 "zh"))
    as (Hsame & _ & Hrefused); [reflexivity |].
  split; [exact Hsame |].
  apply (Hrefused (online 60000) (snd (convert_request 60000))); closed_fact.
Defined.

(** ** /placeorder past the validation *)

Lemma positive_accepted (x : number) :
  is_positive x = true -> isNaN x || le_zero x = false.
Proof.
  destruct x as [| mant scale]; simpl; [discriminate |].
  intros H. apply Z.ltb_lt in H. apply Z.leb_gt. exact H.
Qed.

(** X6: /placeorder with a positive amount and a positive price.
    For a pair the registry does not support, the only effect is the
    not-supported reply: no request goes to the exchange and no row is
    written.  For a supported pair, when the exchange returns an order id
    that is not yet a key of the table, exactly one [pending] row is added
    under that id with the upper-cased assets and the amount; when the
    exchange throws or returns no order id and the random id drawn is not
    yet a key, exactly one [failed] row is added under the random id, and
    the admin is notified.  When the id to be written is already a key of
    the table, in either case, the table is left as it was. *)
Theorem placeorder_protocol (cfg : Config) (env : Env) (chat : Z) (m : captures) (st : State) :
  let fromA := toUpperCase (group m 1) in
  let toA := toUpperCase (group m 2) in
  let amt := parseFloat (group m 3) in
  let price := parseFloat (group m 5) in
  let st' := run (on_placeorder cfg env chat m) st in
  is_positive amt = true ->
  is_positive price = true ->
  (isSupported (supportedAssets st) fromA toA = false ->
     st' = with_trace
             (trace st ++
              [SendMessage (ChatId chat) (escapeMarkdownV2 (notSupportedMessage fromA toA))
                 true NoMarkup]) st)
  /\ (forall oid : string,
        isSupported (supportedAssets st) fromA toA = true ->
        placeConvertLimitOrder env fromA toA amt price = Ok (Some oid) ->
        oid <> EmptyString ->
        has_order oid (orders st) = false ->
        orders st' =
          orders st ++ [mkOrder oid chat fromA toA amt pending None (CURRENT_TIMESTAMP env)]
        /\ trace st' =
             trace st ++
             [Exchange (PlaceLimitOrder fromA toA amt price);
              SendMessage (ChatId chat)
                (escapeMarkdownV2 (limitOrderMessage fromA toA amt price oid)) true NoMarkup;
              menu_for chat])
  /\ (forall message : string,
        isSupported (supportedAssets st) fromA toA = true ->
        PlaceFails env fromA toA amt price message ->
        has_order (random_id env) (orders st) = false ->
        orders st' =
          orders st ++
          [mkOrder (random_id env) chat (or_default fromA "Unknown") (or_default toA "Unknown")
             (or_zero amt) failed (Some (escapeMarkdownV2 message)) (CURRENT_TIMESTAMP env)]
        /\ trace st' =
             trace st ++
             [Exchange (PlaceLimitOrder fromA toA amt price);
              SendMessage (ChatId chat) (escapeMarkdownV2 (failedMessage message)) true NoMarkup;
              SendMessage (ChatName (ADMIN_CHAT_ID cfg))
                ("⚠️ *错误报告:*" +:+ nl +:+ escapeMarkdownV2 ("限价单创建失败: " +:+ message))
                true NoMarkup;
              menu_for chat])
  /\ (forall oid : string,
        isSupported (supportedAssets st) fromA toA = true ->
        placeConvertLimitOrder env fromA toA amt price = Ok (Some oid) ->
        oid <> EmptyString ->
        has_order oid (orders st) = true ->
        orders st' = orders st)
  /\ (forall message : string,
        isSupported (supportedAssets st) fromA toA = true ->
        PlaceFails env fromA toA amt price message ->
        has_order (random_id env) (orders st) = true ->
        orders st' = orders st).
Proof.
  intros fromA toA amt price st' Ha Hp.
  assert (Hv : isNaN amt || le_zero amt || isNaN price || le_zero price = false).
  { rewrite <- orb_assoc, (positive_accepted _ Ha), (positive_accepted _ Hp). reflexivity. }
  assert (Hrun : st' =
            snd ((if negb (isSupported (supportedAssets st) fromA toA) then
                    reply chat (notSupportedMessage fromA toA)
                  else
                    try_catch
                      (let* orderResult := call (PlaceLimitOrder fromA toA amt price)
                                             (placeConvertLimitOrder env fromA toA amt price) in
                       (match truthy_field orderResult with
                        | Some oid =>
                            db_insert (mkOrder oid chat fromA toA amt pending None
                                         (CURRENT_TIMESTAMP env)) >>
                            reply chat (limitOrderMessage fromA toA amt price oid)
                        | None => throw "限价单创建失败。"
                        end) >>
                       sendPersistentMenu chat)
                      (fun message =>
                         reply chat (failedMessage message) >>
                         db_insert (failed_order env chat fromA toA amt message) >>
                         sendErrorNotification cfg ("限价单创建失败: " +:+ message) >>
                         sendPersistentMenu chat)) st)).
  { subst st'. unfold run, on_placeorder. fold fromA toA amt price. rewrite Hv. reflexivity. }
  rewrite Hrun. clear Hrun.
  split; [| split; [| split; [| split]]].
  - intros Hsup. rewrite Hsup. reflexivity.
  - intros oid Hsup Hplace Hne Hfresh. rewrite Hsup.
    unfold try_catch, bind, call, emit, lift. simpl.
    rewrite Hplace. simpl. rewrite (truthy_field_some _ Hne).
    rewrite db_insert_fresh by exact Hfresh. simpl.
    split; [reflexivity |]. rewrite <- !app_assoc. reflexivity.
  - intros message Hsup Hfail Hfresh. rewrite Hsup.
    unfold try_catch, bind, call, emit, lift. simpl.
    destruct Hfail as [msg Hplace | res Hplace Hnone]; rewrite Hplace; simpl;
      try rewrite Hnone; simpl;
      unfold failed_order; rewrite db_insert_fresh by exact Hfresh; simpl;
      (split; [reflexivity | rewrite <- !app_assoc; reflexivity]).
  - intros oid Hsup Hplace Hne Hheld. rewrite Hsup.
    unfold try_catch, bind, call, emit, lift. simpl.
    rewrite Hplace. simpl. rewrite (truthy_field_some _ Hne).
    rewrite db_insert_held by exact Hheld. reflexivity.
  - intros message Hsup Hfail Hheld. rewrite Hsup.
    unfold try_catch, bind, call, emit, lift. simpl.
    destruct Hfail as [msg Hplace | res Hplace Hnone]; rewrite Hplace; simpl;
      try rewrite Hnone; simpl;
      unfold failed_order; rewrite db_insert_held by exact Hheld; reflexivity.
Qed.

Lemma placeorder_protocol_witness :
  orders (run (on_placeorder sample_cfg (online 0) 7 place_eth_btc) exhausted) =
    [mkOrder "l1" 7 "ETH" "BTC" (Num 2 0) pending None "2024-01-01 00:00:00"]
  /\ orders (run (on_placeorder sample_cfg offline 7 place_eth_btc) exhausted) =
       [mkOrder "101112131415161718191a1b1c1d1e1f" 7 "ETH" "BTC" (Num 2 0) failed
          (Some "getaddrinfo ENOTFOUND api\.binance\.com") "2024-01-01 00:00:00"]
  /\ run (on_placeorder sample_cfg (online 0) 7 place_eth_btc) emptyState =
       with_trace
         [SendMessage (ChatId 7) (escapeMarkdownV2 (notSupportedMessage "ETH" "BTC")) true NoMarkup]
         emptyState
  /\ orders (run (on_placeorder sample_cfg (online 0) 7 place_eth_btc) holding_l1) =
       [pending_order].
Proof.
  split; [| split; [| split]].
  - destruct (placeorder_protocol sample_cfg (online 0) 7 place_eth_btc exhausted)
      as (_ & Hok & _ & _ & _); [reflexivity | reflexivity |].
    destruct (Hok "l1") as [Horders _];
      [reflexivity | reflexivity | discriminate | reflexivity |].
    exact Horders.
  - destruct (placeorder_protocol sample_cfg offline 7 place_eth_btc exhausted)
      as (_ & _ & Hfail & _ & _); [reflexivity | reflexivity |].
    destruct (Hfail network_error) as [Horders _];
      [reflexivity | apply place_throws; reflexivity | reflexivity |].
    exact Horders.
  - destruct (placeorder_protocol sample_cfg (online 0) 7 place_eth_btc emptyState)
      as (Hunsupported & _ & _ & _ & _); [reflexivity | reflexivity |].
    apply Hunsupported. reflexivity.
  - destruct (placeorder_protocol sample_cfg (online 0) 7 place_eth_btc holding_l1)
      as (_ & _ & _ & Hheld & _); [reflexivity | reflexivity |].
    apply (Hheld "l1"); [reflexivity | reflexivity | discriminate | reflexivity].
Defined.

(** ** /status *)

Lemma on_status_run (cfg : Config) (chat : Z) (m : captures) (st : State) :
  on_status cfg chat m st =
    (Ok tt,
     with_trace
       (trace st ++
        [SendMessage (ChatId chat)
           (escapeMarkdownV2 ("*订单 ID:* undefined" +:+ nl +:+ "*状态:* undefined"))
           true NoMarkup;
         menu_for chat]) st).
Proof.
  unfold on_status, try_catch, bind, db_get, ret, reply, sendPersistentMenu, sendMessage,
    emit, with_trace, menu_for, statusMessage, the_database.
  cbn beta iota. cbn [got_status got_orderId got_error is_failed template].
  cbn beta iota. cbn [trace supportedAssets assetsFile userRateLimits orders].
  rewrite <- app_assoc. reflexivity.
Qed.

(** X7: /status shows no order.  As the program is wired, what the handler
    awaits is the database object and not a row, so for every order id,
    every sender and every order table the reply is one and the same text,
    with [undefined] for the id and for the status, followed by the menu;
    nothing of any order, the sender's or another chat's, is shown, and the
    not-found text is never sent. *)
Theorem status_shows_no_order (cfg : Config) (chat : Z) (m : captures) (st : State) :
  run (on_status cfg chat m) st =
    with_trace
      (trace st ++
       [SendMessage (ChatId chat)
          (escapeMarkdownV2 ("*订单 ID:* undefined" +:+ nl +:+ "*状态:* undefined"))
          true NoMarkup;
        menu_for chat]) st.
Proof. unfold run. rewrite on_status_run. reflexivity. Qed.

(** X8: /status only reads.  For every argument and every state it leaves
    the order table, the registry, its file and the rate-limit table as they
    are, and sends no request to the exchange. *)
Theorem status_reads_only (cfg : Config) (chat : Z) (m : captures) (st : State) :
  let st' := run (on_status cfg chat m) st in
  orders st' = orders st
  /\ supportedAssets st' = supportedAssets st
  /\ assetsFile st' = assetsFile st
  /\ userRateLimits st' = userRateLimits st
  /\ Forall (fun e => forall r, e <> Exchange r) (drop (length (trace st)) (trace st')).
Proof.
  intros st'. subst st'. unfold run. rewrite on_status_run.
  cbn [snd with_trace orders supportedAssets assetsFile userRateLimits trace].
  repeat split. rewrite drop_app_length. repeat constructor; discriminate.
Qed.

(** ** The registry under /addassets and /removeassets *)

Lemma at_index_upper (l : list string) (i : nat) :
  toUpperCase (at_index (map toUpperCase l) i) = at_index (map toUpperCase l) i.
Proof.
  unfold at_index. change EmptyString with (toUpperCase EmptyString) at 1 2.
  rewrite map_nth. apply toUpperCase_idempotent.
Qed.

Lemma truthy_nonempty (s : string) : truthy s = true <-> s <> EmptyString.
Proof. destruct s; simpl; split; congruence. Qed.

Lemma addassets_fold (assets : list Pair.t) (pairs : list string) :
  forall acc : list Pair.t * list string,
    Forall (addable assets) (fst acc) ->
    Forall (addable assets) (fst (fold_left (addassets_step assets) pairs acc)).
Proof.
  induction pairs as [| pair rest IH]; intros acc Hacc; [exact Hacc |].
  cbn [fold_left]. apply IH. unfold addassets_step.
  destruct (truthy (at_index (map toUpperCase (split ":" pair)) 0)) eqn:Hf;
    [| exact Hacc].
  destruct (truthy (at_index (map toUpperCase (split ":" pair)) 1)) eqn:Ht;
    [| exact Hacc].
  cbn [negb orb].
  destruct (isSupported assets _ _) eqn:Hs; [exact Hacc |].
  cbn [fst]. apply Forall_app. split; [exact Hacc |].
  constructor; [| constructor].
  unfold addable. cbn [Pair.fromAsset Pair.toAsset].
  rewrite !at_index_upper. apply truthy_nonempty in Hf, Ht. tauto.
Qed.

(** X10: /addassets only ever appends, and only entries that were missing.
    For every sender, argument and state the registry afterwards is the old
    one followed by new entries, each of which names two non-empty
    upper-case symbols whose pair the old registry did not support in either
    direction; the order table is not touched. *)
Theorem addassets_appends_missing (cfg : Config) (env : Env) (chat : Z) (m : captures)
    (st : State) :
  let st' := run (on_addassets cfg env chat m) st in
  orders st' = orders st
  /\ exists newPairs : list Pair.t,
       supportedAssets st' = supportedAssets st ++ newPairs
       /\ Forall (addable (supportedAssets st)) newPairs.
Proof.
  intros st'. subst st'. unfold run, on_addassets.
  destruct (negb (isAdmin cfg chat)).
  { split; [reflexivity |]. exists []. rewrite app_nil_r. split; [reflexivity | constructor]. }
  destruct (parse_pairs (trim (group m 1))) as [| pair rest] eqn:Hp.
  { split; [reflexivity |]. exists []. rewrite app_nil_r. split; [reflexivity | constructor]. }
  pose proof (addassets_fold (supportedAssets st) (pair :: rest) ([], [])
                ltac:(constructor)) as Hnew.
  unfold bind, gets, set_supportedAssets, try_catch, writeSupportedAssets, sendMessage,
    sendPersistentMenu, sendErrorNotification, emit.
  cbn beta iota.
  destruct (fold_left (addassets_step (supportedAssets st)) (pair :: rest) ([], []))
    as [newPairs existingPairs].
  cbn [fst] in Hnew.
  cbn beta iota. cbn [supportedAssets orders assetsFile userRateLimits trace].
  destruct (writeFile env); cbn beta iota;
    (split; [reflexivity | exists newPairs; split; [reflexivity | exact Hnew]]).
Qed.

(** X11: /addassets reassigns the registry in memory before it writes the
    file, and does not take that back.  For the admin and an argument that
    names at least one pair, the registry in memory is the old one followed
    by the new pairs, whatever becomes of the write.  When the write
    succeeds, the file holds that registry.  When it fails, the failure goes
    to the sender and to the admin and the file does not follow the
    registry: it is as it was when it could not be opened, and cut short
    when the write failed after the file had been opened. *)
Theorem addassets_write (cfg : Config) (env : Env) (chat : Z) (m : captures) (st : State) :
  isAdmin cfg chat = true ->
  parse_pairs (trim (group m 1)) <> [] ->
  let st' := run (on_addassets cfg env chat m) st in
  let newPairs :=
    fst (fold_left (addassets_step (supportedAssets st)) (parse_pairs (trim (group m 1)))
           ([], [])) in
  supportedAssets st' = supportedAssets st ++ newPairs
  /\ (writeFile env = Written -> assetsFile st' = Registry (supportedAssets st'))
  /\ (forall message : string,
        writeFile env = OpenFails message \/ writeFile env = WriteFails message ->
        trace st' =
          trace st ++
          [SendMessage (ChatId chat) (failedMessage message) true NoMarkup;
           SendMessage (ChatName (ADMIN_CHAT_ID cfg))
             ("⚠️ *错误报告:*" +:+ nl
              +:+ escapeMarkdownV2 ("批量添加资产兑换对失败: " +:+ message))
             true NoMarkup])
  /\ (forall message : string,
        writeFile env = OpenFails message -> assetsFile st' = assetsFile st)
  /\ (forall message : string,
        writeFile env = WriteFails message -> assetsFile st' = CutShort).
Proof.
  intros Hadmin Hpairs st' newPairs. subst st' newPairs. unfold run, on_addassets.
  rewrite Hadmin. cbn [negb].
  destruct (parse_pairs (trim (group m 1))) as [| pair rest]; [congruence |].
  unfold bind, gets, set_supportedAssets, try_catch, writeSupportedAssets, sendMessage,
    sendPersistentMenu, sendErrorNotification, emit.
  cbn beta iota.
  destruct (fold_left (addassets_step (supportedAssets st)) (pair :: rest) ([], []))
    as [newPairs existingPairs].
  cbn [fst].
  cbn beta iota. cbn [supportedAssets orders assetsFile userRateLimits trace].
  destruct (writeFile env) as [| e | e]; cbn beta iota;
    cbn [supportedAssets orders assetsFile userRateLimits trace snd];
    (split; [reflexivity |]); (split; [try discriminate; reflexivity |]);
    (split; [| split; intros message Hm; try discriminate Hm; reflexivity]);
    intros message [Hm | Hm]; try discriminate Hm; inversion Hm; subst;
    unfold sendMessage, emit; cbn [trace snd]; rewrite <- app_assoc; reflexivity.
Qed.

Lemma addassets_write_witness :
  supportedAssets (run (on_addassets sample_cfg full_disk 1000 add_ltc_usd) emptyState)
    = [Pair.mk "LTC" "USD"]
  /\ assetsFile (run (on_addassets sample_cfg full_disk 1000 add_ltc_usd) emptyState)
     = CutShort
  /\ assetsFile (run (on_addassets sample_cfg read_only_disk 1000 add_ltc_usd) emptyState)
     = Registry []
  /\ assetsFile (run (on_addassets sample_cfg offline 1000 add_ltc_usd) emptyState)
     = Registry [Pair.mk "LTC" "USD"].
Proof.
  destruct (addassets_write sample_cfg full_disk 1000 add_ltc_usd emptyState)
    as (Hmem & _ & _ & _ & Hcut); [reflexivity | discriminate |].
  destruct (addassets_write sample_cfg read_only_disk 1000 add_ltc_usd emptyState)
    as (_ & _ & _ & Hkept & _); [reflexivity | discriminate |].
  destruct (addassets_write sample_cfg offline 1000 add_ltc_usd emptyState)
    as (_ & Hwritten & _); [reflexivity | discriminate |].
  split; [exact Hmem |]. split; [exact (Hcut _ eq_refl) |].
  split; [exact (Hkept _ eq_refl) | exact (Hwritten eq_refl)].
Defined.

Lemma isSupported_swap (assets : list Pair.t) (A B : string) :
  isSupported assets A B = isSupported assets B A.
Proof.
  unfold isSupported. induction assets as [| p rest IH]; [reflexivity |].
  cbn [existsb]. rewrite IH, (orb_comm (_ && _) (_ && _)). reflexivity.
Qed.

Lemma isSupported_sublist (l' l : list Pair.t) (A B : string) :
  l' `sublist_of` l -> isSupported l A B = false -> isSupported l' A B = false.
Proof.
  unfold isSupported. induction 1 as [| x l1 l2 Hs IH | x l1 l2 Hs IH]; cbn [existsb];
    intros H; [reflexivity | |].
  - apply orb_false_iff in H as [H1 H2]. rewrite H1, (IH H2). reflexivity.
  - apply orb_false_iff in H as [_ H2]. exact (IH H2).
Qed.

Lemma set_semantics_sublist (l' l : list Pair.t) :
  l' `sublist_of` l -> set_semantics l = true -> set_semantics l' = true.
Proof.
  induction 1 as [| x l1 l2 Hs IH | x l1 l2 Hs IH]; cbn [set_semantics]; intros H;
    [reflexivity | |].
  - apply andb_true_iff in H as [H1 H2]. rewrite (IH H2), andb_true_r.
    apply negb_true_iff in H1. apply negb_true_iff.
    exact (isSupported_sublist _ _ _ _ Hs H1).
  - apply andb_true_iff in H as [_ H2]. exact (IH H2).
Qed.

Lemma splice_first_sublist (f : Pair.t -> bool) (l : list Pair.t) :
  forall (x : Pair.t) (l' : list Pair.t),
    splice_first f l = Some (x, l') -> l' `sublist_of` l /\ length l = S (length l').
Proof.
  induction l as [| y rest IH]; intros x l' H; [discriminate |].
  cbn [splice_first] in H. destruct (f y).
  - inversion H; subst. split; [apply sublist_cons; reflexivity | reflexivity].
  - destruct (splice_first f rest) as [[z rest'] |]; [| discriminate].
    inversion H; subst. destruct (IH _ _ eq_refl) as [Hs Hl].
    split; [apply sublist_skip; exact Hs | simpl; rewrite Hl; reflexivity].
Qed.

Lemma splice_first_none (A B : string) (l : list Pair.t) :
  splice_first (matches_pair A B) l = None -> isSupported l A B = false.
Proof.
  unfold isSupported. induction l as [| y rest IH]; intros H; [reflexivity |].
  cbn [splice_first] in H. cbn [existsb]. unfold matches_pair at 1 in H.
  destruct (_ || _); [discriminate |].
  destruct (splice_first (matches_pair A B) rest) as [[z rest'] |]; [discriminate |].
  exact (IH eq_refl).
Qed.

Lemma splice_first_removes (A B : string) (l : list Pair.t) :
  forall (x : Pair.t) (l' : list Pair.t),
    set_semantics l = true ->
    splice_first (matches_pair A B) l = Some (x, l') ->
    isSupported l' A B = false.
Proof.
  induction l as [| y rest IH]; intros x l' Hss H; [discriminate |].
  cbn [splice_first] in H. cbn [set_semantics] in Hss.
  apply andb_true_iff in Hss as [Hy Hrest]. apply negb_true_iff in Hy.
  destruct (matches_pair A B y) eqn:Hm.
  - inversion H; subst. unfold matches_pair in Hm.
    apply orb_true_iff in Hm as [Hm | Hm]; apply andb_true_iff in Hm as [H1 H2];
      apply String.eqb_eq in H1, H2; subst A B; [exact Hy |].
    rewrite isSupported_swap. exact Hy.
  - destruct (splice_first (matches_pair A B) rest) as [[z rest'] |] eqn:E; [| discriminate].
    inversion H; subst. unfold isSupported. cbn [existsb].
    unfold matches_pair in Hm. rewrite Hm. exact (IH _ _ Hrest eq_refl).
Qed.

Lemma removeassets_fold_sublist (pairs : list string) :
  forall acc : list Pair.t * list string * list string,
    fst (fst (fold_left removeassets_step pairs acc)) `sublist_of` fst (fst acc).
Proof.
  induction pairs as [| pair rest IH]; intros acc; [reflexivity |].
  cbn [fold_left]. etransitivity; [apply IH |].
  destruct acc as [[assets removed] notFound]. unfold removeassets_step.
  destruct (negb _ || negb _); [reflexivity |].
  destruct (splice_first _ assets) as [[x assets'] |] eqn:E; [| reflexivity].
  exact (proj1 (splice_first_sublist _ _ _ _ E)).
Qed.

Lemma removeassets_fold_unsupported (pairs : list string) :
  forall acc : list Pair.t * list string * list string,
    set_semantics (fst (fst acc)) = true ->
    forall pair : string,
      pair ∈ pairs ->
      fst (pair_symbols pair) <> EmptyString ->
      snd (pair_symbols pair) <> EmptyString ->
      isSupported (fst (fst (fold_left removeassets_step pairs acc)))
        (fst (pair_symbols pair)) (snd (pair_symbols pair)) = false.
Proof.
  induction pairs as [| p rest IH]; intros acc Hss pair Hin Hf Ht; [inversion Hin |].
  cbn [fold_left].
  assert (Hss1 : set_semantics (fst (fst (removeassets_step acc p))) = true).
  { eapply set_semantics_sublist; [| exact Hss].
    apply (removeassets_fold_sublist [p] acc). }
  apply elem_of_cons in Hin as [-> | Hin]; [| exact (IH _ Hss1 pair Hin Hf Ht)].
  eapply isSupported_sublist; [apply removeassets_fold_sublist |].
  destruct acc as [[assets removed] notFound]. cbn [fst] in Hss.
  unfold removeassets_step. unfold pair_symbols in Hf, Ht |- *. cbn [fst snd] in Hf, Ht |- *.
  apply truthy_nonempty in Hf, Ht. rewrite Hf, Ht. cbn [negb orb].
  destruct (splice_first _ assets) as [[x assets'] |] eqn:E; cbn [fst].
  - exact (splice_first_removes _ _ _ _ _ Hss E).
  - exact (splice_first_none _ _ _ E).
Qed.

Lemma on_removeassets_registry (cfg : Config) (env : Env) (chat : Z) (m : captures)
    (st : State) :
  let st' := run (on_removeassets cfg env chat m) st in
  orders st' = orders st
  /\ supportedAssets st' =
       if isAdmin cfg chat
       then fst (fst (fold_left removeassets_step (parse_pairs (trim (group m 1)))
                        (supportedAssets st, [], [])))
       else supportedAssets st.
Proof.
  intros st'. subst st'. unfold run, on_removeassets.
  destruct (isAdmin cfg chat); cbn [negb]; [| split; reflexivity].
  destruct (parse_pairs (trim (group m 1))) as [| pair rest]; [split; reflexivity |].
  unfold bind, gets, set_supportedAssets, try_catch, writeSupportedAssets, reply, sendMessage,
    sendPersistentMenu, sendErrorNotification, emit.
  cbn beta iota.
  destruct (fold_left removeassets_step (pair :: rest) (supportedAssets st, [], []))
    as [[assets' removed] notFound].
  cbn [fst]. cbn beta iota. cbn [supportedAssets orders assetsFile userRateLimits trace].
  destruct (writeFile env); cbn beta iota; split; reflexivity.
Qed.

(** X12: /removeassets only ever takes entries out.  For every sender,
    argument and state the registry afterwards is the old one with some
    entries left out, in the same order; a registry that held no pair twice
    still holds none twice; the order table is not touched. *)
Theorem removeassets_takes_out (cfg : Config) (env : Env) (chat : Z) (m : captures)
    (st : State) :
  let st' := run (on_removeassets cfg env chat m) st in
  supportedAssets st' `sublist_of` supportedAssets st
  /\ orders st' = orders st
  /\ (set_semantics (supportedAssets st) = true ->
      set_semantics (supportedAssets st') = true).
Proof.
  intros st'.
  destruct (on_removeassets_registry cfg env chat m st) as [Ho Hr]. fold st' in Ho, Hr.
  assert (Hsub : supportedAssets st' `sublist_of` supportedAssets st).
  { rewrite Hr. destruct (isAdmin cfg chat); [| reflexivity].
    apply (removeassets_fold_sublist _ (supportedAssets st, [], [])). }
  split; [exact Hsub | split; [exact Ho |]].
  apply set_semantics_sublist. exact Hsub.
Qed.

Lemma removeassets_takes_out_witness :
  set_semantics
    (supportedAssets (run (on_removeassets sample_cfg offline 1000 remove_eth_btc)
                        reversed_registry)) = true.
Proof.
  destruct (removeassets_takes_out sample_cfg offline 1000 remove_eth_btc reversed_registry)
    as (_ & _ & Hss).
  apply Hss. reflexivity.
Defined.

(** X13: in a registry that holds no pair twice, /removeassets from the
    admin leaves none of the named pairs supported: for every well-formed
    pair text of the argument, the pair of its two upper-cased symbols is
    refused afterwards by the supported-pair check, in both directions. *)
Theorem removeassets_unsupports (cfg : Config) (env : Env) (chat : Z) (m : captures)
    (st : State) :
  isAdmin cfg chat = true ->
  set_semantics (supportedAssets st) = true ->
  let st' := run (on_removeassets cfg env chat m) st in
  forall pair : string,
    pair ∈ parse_pairs (trim (group m 1)) ->
    fst (pair_symbols pair) <> EmptyString ->
    snd (pair_symbols pair) <> EmptyString ->
    isSupported (supportedAssets st') (fst (pair_symbols pair)) (snd (pair_symbols pair))
      = false
    /\ isSupported (supportedAssets st') (snd (pair_symbols pair)) (fst (pair_symbols pair))
       = false.
Proof.
  intros Hadmin Hss st' pair Hin Hf Ht.
  assert (H : isSupported (supportedAssets st') (fst (pair_symbols pair))
                (snd (pair_symbols pair)) = false).
  { destruct (on_removeassets_registry cfg env chat m st) as [_ Hr]. fold st' in Hr.
    rewrite Hr, Hadmin.
    apply (removeassets_fold_unsupported _ (supportedAssets st, [], [])); assumption. }
  split; [exact H | rewrite isSupported_swap; exact H].
Qed.

Lemma removeassets_unsupports_witness :
  isSupported
    (supportedAssets (run (on_removeassets sample_cfg offline 1000 remove_eth_btc)
                        reversed_registry)) "ETH" "BTC" = false.
Proof.
  destruct (removeassets_unsupports sample_cfg offline 1000 remove_eth_btc reversed_registry
              eq_refl eq_refl "eth:btc") as [H _].
  - apply list_elem_of_In. vm_compute. left. reflexivity.
  - discriminate.
  - discriminate.
  - exact H.
Defined.

(** ** Callbacks other than a confirmation *)

(** X14: a callback whose data does not begin with [confirm_convert_] is
    only acknowledged and answered: the first effect is the acknowledgement
    of the callback query, no request goes to the exchange, and the order
    table, the registry, its file and the rate-limit table are as before. *)
Theorem callback_without_confirm (cfg : Config) (env : Env) (chat : Z) (id data : string)
    (st : State) :
  startsWith "confirm_convert_" data = false ->
  let st' := run (on_callback_query cfg env chat id data) st in
  orders st' = orders st
  /\ supportedAssets st' = supportedAssets st
  /\ assetsFile st' = assetsFile st
  /\ userRateLimits st' = userRateLimits st
  /\ exists replies : list Event,
       trace st' = trace st ++ AnswerCallbackQuery id :: replies
       /\ Forall (fun e => exists text md mk, e = SendMessage (ChatId chat) text md mk) replies.
Proof.
  intros Hdata st'. subst st'. unfold run, on_callback_query. rewrite Hdata.
  unfold bind, emit, reply, sendPersistentMenu, sendMessage, emit, gets. cbn beta iota.
  repeat match goal with
         | |- context [if String.eqb data ?x then _ else _] => destruct (String.eqb data x)
         end;
    cbn beta iota; cbn [orders supportedAssets assetsFile userRateLimits trace snd];
    repeat split;
    rewrite <- ?app_assoc; eexists; (split; [reflexivity |]);
    repeat constructor; eexists _, _, _; reflexivity.
Qed.

Lemma callback_without_confirm_witness :
  orders (run (on_callback_query sample_cfg (online 0) 7 "cb" "cancel_convert") three_orders)
    = orders three_orders.
Proof.
  destruct (callback_without_confirm sample_cfg (online 0) 7 "cb" "cancel_convert" three_orders)
    as (Ho & _); [reflexivity |].
  exact Ho.
Defined.

(** ** What the dispatcher does with text that is no well-formed command *)

Lemma rmatch_first_char (c : ascii) (r : regex) :
  starts_with_lit c r = true ->
  forall (s : string) (caps : captures) (k : cont),
    startsWith (String c EmptyString) s = false ->
    rmatch r s caps k = None.
Proof.
  induction r as [d | p | r1 IH1 r2 IH2 | r1 IH | r1 IH | n r1 IH | |];
    cbn [starts_with_lit]; intros Hr s caps k Hs; try discriminate.
  - apply Ascii.eqb_eq in Hr. subst d. cbn [rmatch].
    destruct s as [| d s']; [reflexivity |].
    unfold startsWith in Hs. cbn [String.prefix] in Hs.
    destruct (Ascii.eqb_spec d c) as [-> | Hne]; [| reflexivity].
    destruct (ascii_dec c c); [| congruence]. destruct s'; discriminate.
  - cbn [rmatch]. apply IH1; assumption.
  - cbn [rmatch plus_loop]. apply IH; assumption.
  - cbn [rmatch]. apply IH; assumption.
Qed.

Lemma exec_first_char (c : ascii) (g : nat) (r : regex) :
  starts_with_lit c r = true ->
  forall text : string, includes c text = false -> exec g r text = None.
Proof.
  intros Hr. induction text as [| d rest IH]; intros Hin.
  - cbn [exec]. rewrite (rmatch_first_char c (Group 0 r) Hr); reflexivity.
  - cbn [includes] in Hin. apply orb_false_iff in Hin as [Hd Hrest].
    cbn [exec]. rewrite (rmatch_first_char c (Group 0 r) Hr).
    + exact (IH Hrest).
    + unfold startsWith. cbn [String.prefix].
      destruct (ascii_dec c d) as [-> | _]; [| reflexivity].
      rewrite Ascii.eqb_refl in Hd. discriminate.
Qed.

Lemma startsWith_slash (text : string) :
  includes "/" text = false -> startsWith "/" text = false.
Proof.
  destruct text as [| d rest]; [reflexivity |]. cbn [includes]. intros H.
  apply orb_false_iff in H as [Hd _]. unfold startsWith. cbn [String.prefix].
  destruct (ascii_dec "/" d) as [<- | _]; [discriminate | reflexivity].
Qed.

Lemma on_message_menu_free (cfg : Config) (chat : Z) (text : string) (st : State) :
  startsWith "/" text = false ->
  on_message_menu cfg chat text st =
    (Ok tt,
     with_trace
       (trace st ++ menu_listener_sends cfg chat (userLang (userRateLimits st) chat) text) st).
Proof.
  intros Hslash. unfold on_message_menu, menu_listener_sends. rewrite Hslash. cbn [negb].
  unfold bind, gets, reply, sendMessage, emit, with_trace. cbn beta iota.
  destruct (String.eqb text "立即兑换"); [reflexivity |].
  destruct (String.eqb text "查看状态"); [reflexivity |].
  destruct (String.eqb text "个人信息"); [reflexivity |].
  destruct (String.eqb text "帮助"); reflexivity.
Qed.

Lemma on_message_unknown_free (chat : Z) (text : string) (st : State) :
  startsWith "/" text = false ->
  on_message_unknown chat text st =
    (Ok tt, with_trace (trace st ++ unknown_listener_sends chat text) st).
Proof.
  intros Hslash. unfold on_message_unknown, unknown_listener_sends. rewrite Hslash.
  cbn [negb andb].
  destruct (existsb (String.eqb text) ["立即兑换"; "查看状态"; "个人信息"; "帮助"]); cbn [negb].
  - unfold ret, with_trace. rewrite app_nil_r. destruct st; reflexivity.
  - unfold bind, reply, sendPersistentMenu, sendMessage, emit, with_trace, menu_for.
    cbn beta iota. cbn [trace supportedAssets assetsFile userRateLimits orders].
    rewrite <- app_assoc. reflexivity.
Qed.

(** X15: a text that holds no [/] reaches no command handler.  Whatever the
    state, the two [message] listeners are the only handlers that do
    anything on it, and they only send: in whichever order the two take
    their turns, what the message adds to the trace is a merge of the first
    listener's one message (the answer to a menu label, or the localised
    unknown-command text) with what the second sends (nothing for a menu
    label, its own unknown-command text and then the menu otherwise), and
    of nothing else; nothing else changes and no request goes to the
    exchange. *)
Theorem free_text_dispatch (cfg : Config) (env : Env) (chat : Z) (text : string) (st : State) :
  includes "/" text = false ->
  forall tr : list Event,
    Dispatched cfg env (Message chat text) st tr <->
    Merge (menu_listener_sends cfg chat (userLang (userRateLimits st) chat) text)
      (unknown_listener_sends chat text) tr.
Proof.
  intros Hno tr. pose proof (startsWith_slash text Hno) as Hslash. etransitivity.
  - eapply Dispatched_sends.
    unfold started, textRegexpCallbacks. cbn [map].
    unfold onText. cbn [groups pattern callback].
    rewrite !(exec_first_char "/") by (reflexivity || exact Hno).
    repeat (simple apply List.Forall2_cons; [| try simple apply List.Forall2_nil]);
      first [ apply sends_ret
            | apply sends_unhandled, on_message_menu_free; exact Hslash
            | apply sends_unhandled, on_message_unknown_free; exact Hslash ].
  - apply Interleaved_two_idle. reflexivity.
Qed.

Lemma free_text_dispatch_witness :
  Dispatched sample_cfg offline (Message 7 "帮助") emptyState
    [SendMessage (ChatId 7) (escapeMarkdownV2 (sample_t "zh" "help.content" "")) true NoMarkup].
Proof.
  apply (free_text_dispatch sample_cfg offline 7 "帮助" emptyState); [reflexivity |].
  vm_compute. repeat constructor.
Defined.

(** X16: a text that begins with [/] and that none of the registered
    patterns matches is dropped without a word: no reply is sent, not even
    the unknown-command text, and the state is left exactly as it was. *)
Theorem unmatched_command_ignored (cfg : Config) (env : Env) (chat : Z) (text : string)
    (st : State) :
  startsWith "/" text = true ->
  Forall (fun h => exec (groups h) (pattern h) text = None) (textRegexpCallbacks cfg env chat) ->
  run (processUpdate cfg env (Message chat text)) st = st.
Proof.
  intros Hslash Hnone.
  unfold run, processUpdate. unfold unhandled, try_catch, bind, on_message_menu,
    on_message_unknown. rewrite Hslash. cbn [negb andb]. unfold ret. cbn beta iota.
  induction Hnone as [| h rest Hh Hrest IH]; [reflexivity |].
  cbn [map run_all]. unfold bind, onText at 1. rewrite Hh. unfold ret at 1. cbn beta iota.
  exact IH.
Qed.

Lemma unmatched_command_ignored_witness :
  run (processUpdate sample_cfg (online 0) (Message 7 "/convert ETH BTC")) reversed_registry
    = reversed_registry.
Proof.
  apply unmatched_command_ignored; [reflexivity |].
  repeat constructor.
Defined.

(** ** The admin guard *)

Lemma to_uint_nonnil (n : N) : N.to_uint n <> Decimal.Nil.
Proof.
  destruct n as [| p]; [discriminate |]. apply DecimalPos.Unsigned.to_uint_nonnil.
Qed.

Lemma string_of_N_inj (a b : N) : string_of_N a = string_of_N b -> a = b.
Proof.
  unfold string_of_N. intros H. apply DecimalN.Unsigned.to_uint_inj.
  pose proof (NilZero.usu _ (to_uint_nonnil a)) as Ha.
  pose proof (NilZero.usu _ (to_uint_nonnil b)) as Hb.
  rewrite H in Ha. rewrite Ha in Hb. inversion Hb. reflexivity.
Qed.

Lemma string_of_N_no_sign (n : N) (s : string) : string_of_N n <> String "-" s.
Proof.
  unfold string_of_N. pose proof (to_uint_nonnil n) as Hn.
  destruct (N.to_uint n); [congruence | ..]; discriminate.
Qed.

Lemma Z_to_string_inj (a b : Z) : Z_to_string a = Z_to_string b -> a = b.
Proof.
  unfold Z_to_string, number_to_string. change (10 ^ N.of_nat 0)%N with 1%N.
  rewrite !N.div_1_r.
  destruct (Z.ltb_spec a 0) as [Ha | Ha], (Z.ltb_spec b 0) as [Hb | Hb]; intros Heq.
  - inversion Heq as [H1]. apply string_of_N_inj in H1. lia.
  - symmetry in Heq. apply string_of_N_no_sign in Heq. contradiction.
  - apply string_of_N_no_sign in Heq. contradiction.
  - apply string_of_N_inj in Heq. lia.
Qed.

(** X17: at most one chat passes the admin guard: two chat ids that are
    both accepted by [isAdmin] are the same id. *)
Theorem admin_is_unique (cfg : Config) (a b : Z) :
  isAdmin cfg a = true -> isAdmin cfg b = true -> a = b.
Proof.
  unfold isAdmin. intros Ha Hb. apply String.eqb_eq in Ha, Hb.
  apply Z_to_string_inj. congruence.
Qed.

Lemma admin_is_unique_witness : isAdmin sample_cfg 1000 = true /\ (1000 = 1000)%Z.
Proof.
  split; [reflexivity |].
  apply (admin_is_unique sample_cfg 1000 1000); reflexivity.
Defined.

(** ** The information queries *)





Lemma exchangeinfo_loop_run (env : Env) (assets : list Pair.t) (pairs : list string) :
  forall (i : nat) (found : list PairInfo) (notFound : list string) (st : State),
    exchangeinfo_loop env assets i pairs found notFound st =
      (Ok (found ++ pairs_found env assets i pairs,
           notFound ++ pairs_missing env assets i pairs),
       with_trace
         (trace st ++ replicate (length (asked_pairs assets pairs)) (Exchange ExchangeInfo))
         st).
Proof.
  induction pairs as [| pair rest IH]; intros i found notFound st.
  - cbn [exchangeinfo_loop pairs_found pairs_missing asked_pairs List.filter replicate length].
    unfold ret, with_trace. rewrite !app_nil_r. destruct st. reflexivity.
  - cbn [exchangeinfo_loop pairs_found pairs_missing]. unfold asked_pairs. cbn [List.filter].
    fold (asked_pairs assets rest).
    unfold in_registry, pair_answer, well_formed_pair, pair_symbols. cbn [fst snd].
    set (fromA := at_index (map toUpperCase (split ":" pair)) 0).
    set (toA := at_index (map toUpperCase (split ":" pair)) 1).
    destruct (truthy fromA) eqn:Hfrom; cbn [negb orb andb];
      [destruct (truthy toA) eqn:Hto; cbn [negb andb] |].
    + destruct (isSupported assets fromA toA) eqn:Hsup.
      * unfold bind at 1, try_catch at 1, bind at 1, call at 1, bind at 1, emit at 1,
          lift at 1. cbn beta iota.
        set (st1 := mkState (supportedAssets st) (assetsFile st) (userRateLimits st)
                      (orders st) (trace st ++ [Exchange ExchangeInfo])).
        assert (Hnext : forall f nf,
                   exchangeinfo_loop env assets (S i) rest f nf st1 =
                     (Ok (f ++ pairs_found env assets (S i) rest,
                          nf ++ pairs_missing env assets (S i) rest),
                      with_trace
                        (trace st ++
                         replicate (length (pair :: asked_pairs assets rest))
                           (Exchange ExchangeInfo)) st)).
        { intros f nf. rewrite IH. unfold with_trace.
          cbn [trace st1 supportedAssets assetsFile userRateLimits orders length replicate].
          rewrite <- app_assoc. reflexivity. }
        destruct (getExchangeInfo env i) as [[l |] | e]; cbn beta iota;
          unfold throw, ret; cbn beta iota.
        -- destruct (find (matches_info fromA toA) l) as [x |];
             rewrite Hnext, <- app_assoc; reflexivity.
        -- rewrite Hnext, <- app_assoc. reflexivity.
        -- rewrite Hnext, <- app_assoc. reflexivity.
      * rewrite IH, <- app_assoc. reflexivity.
    + rewrite IH. reflexivity.
    + rewrite IH. reflexivity.
Qed.

(** What is reported and what is found, text by text. *)
Lemma pairs_partition (env : Env) (assets : list Pair.t) (pairs : list string) :
  forall i : nat,
    (forall pair : string,
        pair ∈ pairs_missing env assets i pairs ->
        pair ∈ pairs /\ well_formed_pair pair = true)
    /\ (forall pair : string,
          pair ∈ pairs -> well_formed_pair pair = true ->
          pair ∈ pairs_missing env assets i pairs
          \/ (in_registry assets pair = true
              /\ exists x,
                   x ∈ pairs_found env assets i pairs
                   /\ matches_info (fst (pair_symbols pair)) (snd (pair_symbols pair)) x
                      = true))
    /\ (forall pair : string,
          pair ∈ pairs -> well_formed_pair pair = true -> in_registry assets pair = false ->
          pair ∈ pairs_missing env assets i pairs)
    /\ length (pairs_found env assets i pairs) <= length (asked_pairs assets pairs).
Proof.
  induction pairs as [| pair rest IH]; intros i.
  - cbn [pairs_found pairs_missing asked_pairs List.filter length].
    split; [intros p Hp; inversion Hp |]. split; [intros p Hp; inversion Hp |].
    split; [intros p Hp; inversion Hp | lia].
  - destruct (IH (S i)) as (Hmiss & Hall & Hout & Hlen).
    cbn [pairs_found pairs_missing]. unfold asked_pairs. cbn [List.filter].
    fold (asked_pairs assets rest). fold (in_registry assets pair).
    destruct (well_formed_pair pair) eqn:Hwf; cbn [negb].
    + destruct (in_registry assets pair) eqn:Hreg.
      * destruct (pair_answer env i pair) as [x |] eqn:Hanswer.
        -- assert (Hx : matches_info (fst (pair_symbols pair)) (snd (pair_symbols pair)) x
                         = true).
           { unfold pair_answer in Hanswer.
             destruct (getExchangeInfo env i) as [[l |] | e]; try discriminate.
             apply find_some in Hanswer as [_ Hx]. exact Hx. }
           split; [| split; [| split]].
           ++ intros p Hp. destruct (Hmiss p Hp) as [Hin Hp']. split; [| exact Hp'].
              apply list_elem_of_further. exact Hin.
           ++ intros p Hp Hpwf. apply elem_of_cons in Hp as [-> | Hp].
              ** right. split; [exact Hreg |]. exists x. split; [apply list_elem_of_here | exact Hx].
              ** destruct (Hall p Hp Hpwf) as [Hm | (Hr & y & Hy & Hym)]; [left; exact Hm |].
                 right. split; [exact Hr |]. exists y.
                 split; [apply list_elem_of_further; exact Hy | exact Hym].
           ++ intros p Hp Hpwf Hpreg. apply elem_of_cons in Hp as [-> | Hp]; [congruence |].
              apply Hout; assumption.
           ++ cbn [length]. lia.
        -- split; [| split; [| split]].
           ++ intros p Hp. apply elem_of_cons in Hp as [-> | Hp].
              ** split; [apply list_elem_of_here | exact Hwf].
              ** destruct (Hmiss p Hp) as [Hin Hp']. split; [| exact Hp'].
                 apply list_elem_of_further. exact Hin.
           ++ intros p Hp Hpwf. apply elem_of_cons in Hp as [-> | Hp].
              ** left. apply list_elem_of_here.
              ** destruct (Hall p Hp Hpwf) as [Hm | Hf];
                   [left; apply list_elem_of_further; exact Hm | right; exact Hf].
           ++ intros p Hp Hpwf Hpreg. apply elem_of_cons in Hp as [-> | Hp]; [congruence |].
              apply list_elem_of_further. apply Hout; assumption.
           ++ cbn [length]. lia.
      * split; [| split; [| split]].
        -- intros p Hp. apply elem_of_cons in Hp as [-> | Hp].
           ++ split; [apply list_elem_of_here | exact Hwf].
           ++ destruct (Hmiss p Hp) as [Hin Hp']. split; [| exact Hp'].
              apply list_elem_of_further. exact Hin.
        -- intros p Hp Hpwf. apply elem_of_cons in Hp as [-> | Hp].
           ++ left. apply list_elem_of_here.
           ++ destruct (Hall p Hp Hpwf) as [Hm | Hf];
                [left; apply list_elem_of_further; exact Hm | right; exact Hf].
        -- intros p Hp Hpwf Hpreg. apply elem_of_cons in Hp as [-> | Hp].
           ++ apply list_elem_of_here.
           ++ apply list_elem_of_further. apply Hout; assumption.
        -- exact Hlen.
    + assert (Hreg : in_registry assets pair = false).
      { unfold in_registry. rewrite Hwf. reflexivity. }
      rewrite Hreg. split; [| split; [| split]].
      * intros p Hp. destruct (Hmiss p Hp) as [Hin Hp']. split; [| exact Hp'].
        apply list_elem_of_further. exact Hin.
      * intros p Hp Hpwf. apply elem_of_cons in Hp as [-> | Hp]; [congruence |].
        apply Hall; assumption.
      * intros p Hp Hpwf Hpreg. apply elem_of_cons in Hp as [-> | Hp]; [congruence |].
        apply Hout; assumption.
      * cbn [andb]. exact Hlen.
Qed.

(** X19: /exchangeinfo with a list of pairs turns to the exchange only for
    the pairs of the registry, and says which texts it found nothing for.
    For an argument that holds at least one text with a colon, one request
    goes out for each text that names two symbols whose pair the registry
    supports, and none for the others; then one reply and the menu, and
    nothing else changes.  A text is reported as not found exactly when it
    names two symbols and either the registry does not support the pair or
    the answer to its request holds no entry for it (or the request fails);
    a text that names two symbols is thus either reported or listed with an
    entry that matches it.  A text with an empty symbol is passed over: it
    is neither asked about nor reported. *)
Theorem exchangeinfo_asks_for_registry_pairs (env : Env) (chat : Z) (m : captures)
    (st : State) :
  let pairs := parse_pairs (trim (group m 1)) in
  let asked := asked_pairs (supportedAssets st) pairs in
  let found := pairs_found env (supportedAssets st) 0 pairs in
  let notFound := pairs_missing env (supportedAssets st) 0 pairs in
  let st' := run (on_exchangeinfo_batch env chat m) st in
  (pairs <> [] ->
   st' = with_trace
           (trace st ++ replicate (length asked) (Exchange ExchangeInfo) ++
            [SendMessage (ChatId chat)
               (escapeMarkdownV2 (exchangeinfoMessage found notFound)) true NoMarkup;
             menu_for chat]) st)
  /\ (forall pair : string,
        pair ∈ notFound -> pair ∈ pairs /\ well_formed_pair pair = true)
  /\ (forall pair : string,
        pair ∈ pairs -> well_formed_pair pair = true ->
        pair ∈ notFound
        \/ (in_registry (supportedAssets st) pair = true
            /\ exists x,
                 x ∈ found
                 /\ matches_info (fst (pair_symbols pair)) (snd (pair_symbols pair)) x = true))
  /\ (forall pair : string,
        pair ∈ pairs -> well_formed_pair pair = true ->
        in_registry (supportedAssets st) pair = false ->
        pair ∈ notFound)
  /\ length found <= length asked.
Proof.
  intros pairs asked found notFound st'.
  split; [| exact (pairs_partition env (supportedAssets st) pairs 0)].
  intros Hpairs. subst st'. unfold run, on_exchangeinfo_batch. fold pairs.
  destruct pairs as [| pair rest] eqn:Hp; [congruence |].
  unfold bind at 1, gets at 1. cbn beta iota.
  unfold bind at 1. rewrite exchangeinfo_loop_run. cbn beta iota.
  cbn [fst snd app]. fold found notFound asked.
  unfold bind, reply, sendPersistentMenu, sendMessage, emit, with_trace, menu_for.
  cbn beta iota. cbn [trace supportedAssets assetsFile userRateLimits orders snd].
  rewrite <- !app_assoc. reflexivity.
Qed.

Lemma exchangeinfo_asks_for_registry_pairs_witness :
  trace (run (on_exchangeinfo_batch (online 0) 7 exchangeinfo_three) reversed_registry) =
    [Exchange ExchangeInfo;
     SendMessage (ChatId 7)
       (escapeMarkdownV2
          (exchangeinfoMessage [mkPairInfo "ETH" "BTC" "0.01" "100"] ["ltc:usd"])) true NoMarkup;
     menu_for 7]
  /\ "ltc:usd" ∈ ["ltc:usd"].
Proof.
  destruct (exchangeinfo_asks_for_registry_pairs (online 0) 7 exchangeinfo_three
              reversed_registry) as (Hrun & _ & _ & Hout & _).
  split.
  - rewrite Hrun; [reflexivity | discriminate].
  - apply (Hout "ltc:usd"); [| reflexivity | reflexivity].
    vm_compute. apply list_elem_of_further, list_elem_of_here.
Defined.

(** ** What a pattern match guarantees *)

Section MatcherSound.

Let sound (r : regex) (step : string -> captures -> cont -> option captures) : Prop :=
  forall s caps k x,
    step s caps k = Some x ->
    exists w s' caps', s = w +:+ s' /\ matches r w caps caps' /\ k s' caps' = Some x.

Lemma plus_loop_sound (r : regex) (step : string -> captures -> cont -> option captures) :
  sound r step -> forall fuel : nat, sound (Plus r) (plus_loop step fuel).
Proof.
  intros Hstep. induction fuel as [| f IH]; intros s caps k x H; [discriminate |].
  cbn [plus_loop] in H. apply Hstep in H as (w1 & s1 & c1 & Hs & Hm & Hk).
  destruct (if String.length s1 <? String.length s then plus_loop step f s1 c1 k else None)
    as [y |] eqn:Hloop; cbn [orelse] in Hk.
  - inversion Hk; subst y. destruct (String.length s1 <? String.length s); [| discriminate].
    apply IH in Hloop as (w2 & s2 & c2 & Hs2 & Hm2 & Hk2).
    exists (w1 +:+ w2), s2, c2. subst. rewrite append_assoc.
    split; [reflexivity | split; [| exact Hk2]]. eapply m_plus_more; eassumption.
  - exists w1, s1, c1. split; [exact Hs | split; [| exact Hk]]. apply m_plus_one. exact Hm.
Qed.

Lemma rmatch_sound (r : regex) : sound r (rmatch r).
Proof.
  induction r as [c | p | r1 IH1 r2 IH2 | r1 IH | r1 IH | n r1 IH | |];
    intros s caps k x H; cbn [rmatch] in H.
  - destruct s as [| d s']; [discriminate |].
    destruct (Ascii.eqb_spec d c) as [-> | _]; [| discriminate].
    exists (String c EmptyString), s', caps. repeat split; [constructor | exact H].
  - destruct s as [| d s']; [discriminate |].
    destruct (p d) eqn:Hp; [| discriminate].
    exists (String d EmptyString), s', caps. repeat split; [constructor; exact Hp | exact H].
  - apply IH1 in H as (w1 & s1 & c1 & Hs1 & Hm1 & H).
    apply IH2 in H as (w2 & s2 & c2 & Hs2 & Hm2 & H).
    exists (w1 +:+ w2), s2, c2. subst. rewrite append_assoc.
    repeat split; [econstructor; eassumption | exact H].
  - exact (plus_loop_sound r1 (rmatch r1) IH _ s caps k x H).
  - destruct (rmatch r1 s caps k) as [y |] eqn:E; cbn [orelse] in H.
    + inversion H; subst y. apply IH in E as (w & s' & c' & Hs & Hm & Hk).
      exists w, s', c'. repeat split; [exact Hs | apply m_opt_some; exact Hm | exact Hk].
    + exists EmptyString, s, caps. repeat split; [apply m_opt_none | exact H].
  - apply IH in H as (w & s' & c' & Hs & Hm & Hk). subst s.
    rewrite consumed_append in Hk.
    exists w, s', (<[n := Some w]> c'). repeat split; [constructor; exact Hm | exact Hk].
  - destruct s; [| discriminate].
    exists EmptyString, EmptyString, caps. repeat split; [constructor | exact H].
  - exists EmptyString, s, caps. repeat split; [constructor | exact H].
Qed.

End MatcherSound.

(** Every match array that [exec] returns is one the pattern allows. *)
Lemma exec_sound (g : nat) (r : regex) (text : string) (m : captures) :
  exec g r text = Some m ->
  exists w : string, matches (Group 0 r) w (replicate (S g) None) m.
Proof.
  induction text as [| c rest IH]; cbn [exec];
    destruct (rmatch (Group 0 r) _ (replicate (S g) None) (fun _ c => Some c)) as [y |] eqn:E;
    intros H; try discriminate; try (apply IH; exact H);
    inversion H; subst y;
    apply rmatch_sound in E as (w & s' & c' & _ & Hm & Hk); inversion Hk; subst;
    exists w; exact Hm.
Qed.

Lemma string_forall_append (p : ascii -> bool) (a b : string) :
  string_forall p (a +:+ b) = string_forall p a && string_forall p b.
Proof.
  induction a as [| c a IH]; [reflexivity |].
  change (String c a +:+ b) with (String c (a +:+ b)). cbn [string_forall].
  rewrite IH, andb_assoc. reflexivity.
Qed.

Lemma truthy_append (a b : string) : truthy a = true -> truthy (a +:+ b) = true.
Proof. destruct a; [discriminate | reflexivity]. Qed.

Lemma matches_lits (p : string) :
  forall (w : string) (c c' : captures), matches (lits p) w c c' -> c' = c.
Proof.
  induction p as [| ch p IH]; intros w c c' H; cbn [lits] in H.
  - inversion H. reflexivity.
  - inversion H as [| | r1 r2 w1 w2 c0 c1 c2 H1 H2 | | | | | | |]; subst.
    inversion H1; subst. exact (IH _ _ _ H2).
Qed.

Lemma matches_class_run (p : ascii -> bool) (w : string) (c c' : captures) :
  matches (Plus (Class p)) w c c' ->
  c' = c /\ truthy w = true /\ string_forall p w = true.
Proof.
  intros H. remember (Plus (Class p)) as r eqn:Hr.
  induction H as [| | | r w c0 c1 H _ | r w1 w2 c0 c1 c2 H1 _ H2 IH2 | | | | |];
    inversion Hr; subst.
  - inversion H as [| q d caps Hd | | | | | | | |]; subst. cbn. rewrite Hd. auto.
  - inversion H1 as [| q d caps Hd | | | | | | | |]; subst.
    destruct (IH2 eq_refl) as (-> & _ & Hall).
    change (String d EmptyString +:+ w2) with (String d w2).
    cbn [truthy string_forall]. rewrite Hd, Hall. auto.
Qed.

Lemma matches_sp (r : regex) (w : string) (c c' : captures) :
  matches (sp r) w c c' -> exists w', w = String " " w' /\ matches r w' c c'.
Proof.
  unfold sp. intros H.
  inversion H as [| | r1 r2 w1 w2 c0 c1 c2 H1 H2 | | | | | | |]; subst.
  inversion H1; subst. exists w2. split; [reflexivity | exact H2].
Qed.

Lemma matches_decimal (n : nat) (w : string) (c c' : captures) :
  matches (decimal n) w c c' ->
  exists (d1 rest : string) (c1 : captures),
    w = d1 +:+ rest /\ is_digits d1 = true
    /\ (rest = EmptyString \/ exists d2, rest = String "." d2 /\ is_digits d2 = true)
    /\ c' = <[n := Some w]> c1
    /\ (c1 = c \/ exists f, c1 = <[S n := Some f]> c).
Proof.
  unfold decimal, digits. intros H.
  inversion H as [| | | | | | | k r w0 c0 c1 Hin |  |]; subst.
  inversion Hin as [| | r1 r2 w1 w2 c0 c2 c3 H1 H2 | | | | | | |]; subst.
  apply matches_class_run in H1 as (-> & Hne1 & Hd1).
  exists w1, w2, c1. split; [reflexivity |].
  split; [unfold is_digits; rewrite Hne1, Hd1; reflexivity |].
  inversion H2 as [| | | | | r w0 c0 c4 Hopt | r caps | | |]; subst.
  - inversion Hopt as [| | | | | | | k r w3 c0 c4 Hfrac |  |]; subst.
    inversion Hfrac as [| | r1 r2 w4 w5 c0 c5 c6 H4 H5 | | | | | | |]; subst.
    inversion H4; subst. apply matches_class_run in H5 as (-> & Hne2 & Hd2).
    split; [right; exists w5; split; [reflexivity |];
            unfold is_digits; rewrite Hne2, Hd2; reflexivity |].
    split; [reflexivity | right; eexists; reflexivity].
  - split; [left; reflexivity | split; [reflexivity | left; reflexivity]].
Qed.

Lemma digit_not_space (c : ascii) : is_digit c = true -> is_space c = false.
Proof.
  unfold is_digit, is_space, in_range. intros H.
  apply andb_true_iff in H as [H1 H2]. apply N.leb_le in H1, H2.
  apply orb_false_iff. split.
  - apply andb_false_iff. right. apply N.leb_gt. lia.
  - destruct (Ascii.eqb_spec c " ") as [-> | _]; [| reflexivity].
    cbn in H1. lia.
Qed.

Lemma read_digits_run (d : string) :
  forall (rest : string) (acc : Z) (n : nat),
    string_forall is_digit d = true ->
    stops is_digit rest = true ->
    read_digits (d +:+ rest) acc n = (digits_value d acc, n + String.length d, rest).
Proof.
  induction d as [| c d IH]; intros rest acc n Hd Hrest.
  - change (EmptyString +:+ rest) with rest.
    cbn [String.length digits_value]. rewrite Nat.add_0_r.
    destruct rest as [| c r]; [reflexivity |]. cbn [stops] in Hrest. cbn [read_digits].
    apply negb_true_iff in Hrest. rewrite Hrest. reflexivity.
  - cbn [string_forall] in Hd. apply andb_true_iff in Hd as [Hc Hd].
    change (String c d +:+ rest) with (String c (d +:+ rest)).
    cbn [read_digits digits_value String.length].
    rewrite Hc, (IH rest _ (S n) Hd Hrest), Nat.add_succ_r. reflexivity.
Qed.

Lemma digits_value_nonneg (d : string) :
  forall acc : Z, (0 <= acc)%Z -> (0 <= digits_value d acc)%Z.
Proof.
  induction d as [| c d IH]; intros acc Hacc; cbn [digits_value]; [exact Hacc |].
  apply IH. unfold digit_val. lia.
Qed.

Lemma norm_amount (e : nat) : forall m : Z, (0 <= m)%Z -> is_amount (norm m e).
Proof.
  induction e as [| e IH]; intros m Hm; cbn [norm].
  - exists m, 0. split; [reflexivity | exact Hm].
  - destruct (m mod 10 =? 0)%Z.
    + apply IH. apply Z.div_pos; lia.
    + exists m, (S e). split; [reflexivity | exact Hm].
Qed.

(** [parseFloat] on an optional minus sign, a non-empty run of digits and a
    rest that does not go on with a digit. *)
Lemma parseFloat_run (neg : bool) (d1 rest : string) :
  is_digits d1 = true ->
  stops is_digit rest = true ->
  parseFloat ((if neg then "-" else EmptyString) +:+ d1 +:+ rest) =
    let '(m, nf) :=
      match rest with
      | String "." r => let '(v, k, _) := read_digits r (digits_value d1 0) O in (v, k)
      | _ => (digits_value d1 0, O)
      end in
    norm (if neg then - m else m)%Z nf.
Proof.
  unfold is_digits. intros Hd1 Hstop.
  apply andb_true_iff in Hd1 as [Hne Hall].
  pose proof (read_digits_run d1 rest 0 0 Hall Hstop) as Hrun.
  destruct d1 as [| c d]; [discriminate |].
  cbn [string_forall] in Hall. apply andb_true_iff in Hall as [Hc _].
  change (String c d +:+ rest) with (String c (d +:+ rest)) in *.
  cbn [String.length Nat.add] in Hrun.
  destruct neg.
  - change ("-" +:+ String c (d +:+ rest)) with (String "-" (String c (d +:+ rest))).
    unfold parseFloat.
    replace (trimStart (String "-" (String c (d +:+ rest))))
      with (String "-" (String c (d +:+ rest))) by reflexivity.
    cbv beta iota zeta. rewrite Hrun.
    destruct (match rest with
              | String "." r =>
                  let '(v, k, _) := read_digits r (digits_value (String c d) 0) O in (v, k)
              | _ => (digits_value (String c d) 0, O)
              end) as [m nf].
    reflexivity.
  - change (EmptyString +:+ String c (d +:+ rest)) with (String c (d +:+ rest)).
    unfold parseFloat. cbn [trimStart]. rewrite (digit_not_space c Hc).
    assert (Hsign :
              (match String c (d +:+ rest) with
               | String "-" r => (true, r)
               | String "+" r => (false, r)
               | _ => (false, String c (d +:+ rest))
               end) = (false, String c (d +:+ rest))).
    { destruct c as [[] [] [] [] [] [] [] []]; try discriminate Hc; reflexivity. }
    rewrite Hsign, Hrun.
    destruct (match rest with
              | String "." r =>
                  let '(v, k, _) := read_digits r (digits_value (String c d) 0) O in (v, k)
              | _ => (digits_value (String c d) 0, O)
              end) as [m nf].
    reflexivity.
Qed.

(** A decimal token, digits with an optional fraction, parses to a number
    that is neither [NaN] nor negative. *)
Lemma parseFloat_decimal (d1 rest : string) :
  is_digits d1 = true ->
  (rest = EmptyString \/ exists d2, rest = String "." d2 /\ is_digits d2 = true) ->
  is_amount (parseFloat (d1 +:+ rest)).
Proof.
  intros Hd1 Hrest.
  assert (Hstop : stops is_digit rest = true).
  { destruct Hrest as [-> | (d2 & -> & _)]; reflexivity. }
  pose proof (parseFloat_run false d1 rest Hd1 Hstop) as Hrun.
  change ((if false then "-" else EmptyString) +:+ d1 +:+ rest) with (d1 +:+ rest) in Hrun.
  rewrite Hrun.
  pose proof (digits_value_nonneg d1 0 ltac:(lia)) as Hv.
  destruct Hrest as [-> | (d2 & -> & Hd2)].
  - apply norm_amount. exact Hv.
  - apply andb_true_iff in Hd2 as [_ Hall2].
    pose proof (read_digits_run d2 EmptyString (digits_value d1 0) 0 Hall2 eq_refl) as Hrun2.
    rewrite append_nil_r in Hrun2. rewrite Hrun2.
    apply norm_amount. apply digits_value_nonneg. exact Hv.
Qed.

Lemma matches_cat_inv (r1 r2 : regex) (w : string) (c c' : captures) :
  matches (Cat r1 r2) w c c' ->
  exists (w1 w2 : string) (c1 : captures),
    w = w1 +:+ w2 /\ matches r1 w1 c c1 /\ matches r2 w2 c1 c'.
Proof.
  intros H. inversion H as [| | q1 q2 w1 w2 c0 c1 c2 H1 H2 | | | | | | |]; subst.
  exists w1, w2, c1. auto.
Qed.

Lemma matches_word_group (k : nat) (w : string) (c c' : captures) :
  matches (Group k word) w c c' -> is_word_run w = true /\ c' = <[k := Some w]> c.
Proof.
  intros H. inversion H as [| | | | | | | k' r w0 c0 c1 Hin |  |]; subst.
  apply matches_class_run in Hin as (-> & Hne & Hw).
  unfold is_word_run. rewrite Hne, Hw. auto.
Qed.

(** X20: the /convert pattern only lets well-formed arguments through.  For
    every message text that the pattern matches, the two asset fields of the
    match array are non-empty runs of word characters and the amount field
    parses to a number that is neither [NaN] nor negative: the handler never
    prompts for a [NaN] or a negative amount. *)
Theorem convert_arguments_well_formed (text : string) (m : captures) :
  exec 4 re_convert text = Some m ->
  is_word_run (group m 1) = true /\ is_word_run (group m 2) = true
  /\ is_amount (parseFloat (group m 3)).
Proof.
  intros H. apply exec_sound in H as (w & H).
  inversion H as [| | | | | | | k r w0 c0 c1 Hin |  |]; subst. clear H.
  unfold re_convert in Hin.
  apply matches_cat_inv in Hin as (wl & w1 & cl & -> & Hl & Hin).
  apply matches_lits in Hl. subst cl.
  apply matches_cat_inv in Hin as (a & w2 & ca & -> & HA & Hin).
  apply matches_word_group in HA as (HA & ->).
  apply matches_sp in Hin as (w3 & -> & Hin).
  apply matches_cat_inv in Hin as (b & w4 & cb & -> & HB & Hin).
  apply matches_word_group in HB as (HB & ->).
  apply matches_sp in Hin as (w5 & -> & Hdec).
  apply matches_decimal in Hdec as (d1 & rest & c4 & -> & Hd1 & Hfrac & -> & Hc4).
  assert (Hamt := parseFloat_decimal d1 rest Hd1 Hfrac).
  destruct Hc4 as [-> | (f & ->)]; cbn; auto.
Qed.

Lemma convert_arguments_well_formed_witness :
  is_amount (parseFloat "0.50").
Proof.
  exact (proj2 (proj2 (convert_arguments_well_formed "/convert eth btc 0.50"
                         [Some "/convert eth btc 0.50"; Some "eth"; Some "btc";
                          Some "0.50"; Some ".50"] eq_refl))).
Defined.

(** X21: the [isNaN] tests of /placeorder never fire.  For every message
    text that the /placeorder pattern matches, the two asset fields are
    non-empty runs of word characters, and the amount and the price both
    parse to numbers that are neither [NaN] nor negative: the only values
    the validation of the handler can refuse are those equal to 0. *)
Theorem placeorder_arguments_well_formed (text : string) (m : captures) :
  exec 6 re_placeorder text = Some m ->
  is_word_run (group m 1) = true /\ is_word_run (group m 2) = true
  /\ is_amount (parseFloat (group m 3)) /\ is_amount (parseFloat (group m 5))
  /\ isNaN (parseFloat (group m 3)) = false /\ isNaN (parseFloat (group m 5)) = false.
Proof.
  intros H. apply exec_sound in H as (w & H).
  inversion H as [| | | | | | | k r w0 c0 c1 Hin |  |]; subst. clear H.
  unfold re_placeorder in Hin.
  apply matches_cat_inv in Hin as (wl & w1 & cl & -> & Hl & Hin).
  apply matches_lits in Hl. subst cl.
  apply matches_cat_inv in Hin as (a & w2 & ca & -> & HA & Hin).
  apply matches_word_group in HA as (HA & ->).
  apply matches_sp in Hin as (w3 & -> & Hin).
  apply matches_cat_inv in Hin as (b & w4 & cb & -> & HB & Hin).
  apply matches_word_group in HB as (HB & ->).
  apply matches_sp in Hin as (w5 & -> & Hin).
  apply matches_cat_inv in Hin as (x & w6 & cx & -> & Hdec & Hin).
  apply matches_decimal in Hdec as (d1 & rest & c4 & -> & Hd1 & Hfrac & -> & Hc4).
  apply matches_sp in Hin as (w7 & -> & Hin).
  apply matches_cat_inv in Hin as (y & w8 & cy & -> & Hdec & Hend).
  apply matches_decimal in Hdec as (d3 & rest3 & c5 & -> & Hd3 & Hfrac3 & -> & Hc5).
  inversion Hend; subst. clear Hend.
  assert (Hamt := parseFloat_decimal d1 rest Hd1 Hfrac).
  assert (Hprice := parseFloat_decimal d3 rest3 Hd3 Hfrac3).
  assert (Hnan : forall x, is_amount x -> isNaN x = false).
  { intros x0 (mant & scale & -> & _). reflexivity. }
  pose proof (Hnan _ Hamt) as Hamt'. pose proof (Hnan _ Hprice) as Hprice'.
  destruct Hc4 as [-> | (f & ->)], Hc5 as [-> | (f' & ->)]; cbn; auto 10.
Qed.

Lemma placeorder_arguments_well_formed_witness :
  isNaN (parseFloat "0.5") = false.
Proof.
  exact (proj1 (proj2 (proj2 (proj2 (proj2
    (placeorder_arguments_well_formed "/placeorder eth btc 0.5 2"
       [Some "/placeorder eth btc 0.5 2"; Some "eth"; Some "btc"; Some "0.5"; Some ".5";
        Some "2"; None] eq_refl)))))).
Defined.

(** ** From the prompt to the conversion *)

(** The fields of the callback data of a Confirm button. *)
Lemma confirm_data_fields (fromA toA tail : string) :
  includes "_" fromA = false ->
  split "_" ("confirm_convert_" +:+ fromA +:+ "_" +:+ tail) =
    "confirm" :: "convert" :: fromA :: split "_" tail.
Proof.
  intros Hfrom.
  change ("confirm_convert_" +:+ fromA +:+ "_" +:+ tail)
    with ("confirm" +:+ String "_" ("convert" +:+ String "_" (fromA +:+ String "_" tail))).
  rewrite !split_field by (reflexivity || assumption). reflexivity.
Qed.

(** X23: the Confirm button carries the two assets back unchanged.  When
    neither asset contains an underscore, a callback whose data is
    [confirm_convert_], the first asset, an underscore, the second asset, an
    underscore and any further text (for the button of the prompt, the
    amount as printed) acknowledges the query, runs the Instant Conversion
    of exactly those two assets, with the amount parsed from the further
    text up to its first underscore, and shows the menu. *)
Theorem confirm_button_round_trip (cfg : Config) (env : Env) (chat : Z) (id : string)
    (fromA toA printed : string) (st : State) :
  includes "_" fromA = false ->
  includes "_" toA = false ->
  on_callback_query cfg env chat id
    ("confirm_convert_" +:+ fromA +:+ "_" +:+ toA +:+ "_" +:+ printed) st =
    confirmed_conversion cfg env chat id fromA toA
      (parseFloat (at_index (split "_" printed) 0)) st.
Proof.
  intros Hfrom Hto. unfold on_callback_query, confirmed_conversion.
  rewrite startsWith_append. cbv zeta.
  rewrite (confirm_data_fields fromA toA _ Hfrom).
  change ("_" +:+ printed) with (String "_" printed).
  rewrite (split_field "_" toA _ Hto).
  cbn [at_index nth]. reflexivity.
Qed.

Lemma confirm_button_round_trip_witness :
  on_callback_query sample_cfg (online 0) 7 "cb" "confirm_convert_ETH_BTC_0.5" emptyState =
    confirmed_conversion sample_cfg (online 0) 7 "cb" "ETH" "BTC" (Num 5 1) emptyState.
Proof.
  apply (confirm_button_round_trip sample_cfg (online 0) 7 "cb" "ETH" "BTC" "0.5");
    reflexivity.
Defined.

(** X24: an underscore in the first asset shifts the fields of the callback
    data.  When the first asset reads [a_b], with no underscore in [a], in
    [b] or in the second asset, the callback of its Confirm button converts
    [a] to [b], and takes the amount from the text of the second asset. *)
Theorem confirm_button_splits_underscore (cfg : Config) (env : Env) (chat : Z) (id : string)
    (a b toA : string) (amt : number) (st : State) :
  includes "_" a = false ->
  includes "_" b = false ->
  includes "_" toA = false ->
  on_callback_query cfg env chat id (confirm_data (a +:+ "_" +:+ b) toA amt) st =
    confirmed_conversion cfg env chat id a b (parseFloat toA) st.
Proof.
  intros Ha Hb Hto. unfold on_callback_query, confirmed_conversion, confirm_data.
  rewrite startsWith_append. cbv zeta.
  rewrite !append_assoc.
  rewrite (confirm_data_fields a toA _ Ha).
  change ("_" +:+ toA +:+ "_" +:+ number_to_string amt)
    with (String "_" (toA +:+ String "_" (number_to_string amt))).
  rewrite (split_field "_" b _ Hb), (split_field "_" toA _ Hto).
  cbn [at_index nth]. reflexivity.
Qed.

Lemma confirm_button_splits_underscore_witness :
  on_callback_query sample_cfg (online 0) 7 "cb"
    (confirm_data "A_B" "1INCH" (parseFloat "5")) emptyState =
    confirmed_conversion sample_cfg (online 0) 7 "cb" "A" "B" (parseFloat "1") emptyState.
Proof.
  apply (confirm_button_splits_underscore sample_cfg (online 0) 7 "cb" "A" "B" "1INCH"
           (parseFloat "5")); reflexivity.
Defined.
